(** * Adaptive control subsystem of the transfer-agent platform

    A shallow embedding of [ai/models/resource_allocator.py] (the simulated
    allocation environment and the PPO-based allocator) and of
    [ai/models/scheduling_optimizer.py] (the replay buffer and the DQN-based
    scheduling optimizer), with the properties the specification states
    about them.

    Numbers.  The Python code computes in IEEE floating point.  The
    allocator is embedded over the real numbers (it takes square roots),
    extended with one not-a-number value where the environment can be handed
    one; the scheduler, which only adds and multiplies, is embedded over the
    rationals and can be evaluated.  Rounding and the infinities are not
    represented. *)

From Stdlib Require Import String Reals Lqa Lra Lia ZArith QArith Qpower Bool Arith List.
Import ListNotations.

Set Implicit Arguments.

(** ** Outcomes of a call *)

(** The exceptions the embedded code can raise.  [DivideByZero] is not a
    Python exception: numpy answers a division by zero with an infinity or
    a nan and a RuntimeWarning; as the embedding has no infinities, a
    computation whose result would hold one stops with this outcome. *)
Inductive exn : Set :=
| IndexError
| ZeroDivisionError
| ValueError
| OverflowError
| DivideByZero.

Inductive result (A : Type) : Type :=
| Ok (a : A)
| Raise (e : exn).

Arguments Ok {A} a.
Arguments Raise {A} e.

Definition bind {A B : Type} (m : result A) (k : A -> result B) : result B :=
  match m with
  | Ok a => k a
  | Raise e => Raise e
  end.

Declare Scope result_scope.
Delimit Scope result_scope with result.
Notation "x <- m ;; k" := (bind m (fun x => k))
  (at level 61, m at next level, right associativity) : result_scope.
Notation "' p <- m ;; k" := (bind m (fun x => match x with p => k end))
  (at level 61, p pattern, m at next level, right associativity) : result_scope.
Open Scope result_scope.

Fixpoint map_result {A B : Type} (f : A -> result B) (l : list A) : result (list B) :=
  match l with
  | [] => Ok []
  | a :: l' =>
      b <- f a ;;
      bs <- map_result f l' ;;
      Ok (b :: bs)
  end.

(** ** Floating-point values as the environment sees them *)

Module NumPy.
Open Scope R_scope.

(** A float is a real number or nan. *)
Inductive fl : Type :=
| NaN
| Num (r : R).

Definition fadd (a b : fl) : fl :=
  match a, b with Num x, Num y => Num (x + y) | _, _ => NaN end.

Definition fsub (a b : fl) : fl :=
  match a, b with Num x, Num y => Num (x - y) | _, _ => NaN end.

Definition fmul (a b : fl) : fl :=
  match a, b with Num x, Num y => Num (x * y) | _, _ => NaN end.

(** [a / b] for a divisor that is not a literal: nan when an operand is
    nan, and no answer when a number is divided by zero. *)
Definition fdiv (a b : fl) : result fl :=
  match a, b with
  | Num x, Num y => if Req_dec_T y 0 then Raise DivideByZero else Ok (Num (x / y))
  | _, _ => Ok NaN
  end.

(** [a / c] for a non-zero literal [c]. *)
Definition fdiv_lit (a : fl) (c : R) : fl :=
  match a with Num x => Num (x / c) | NaN => NaN end.

(** Comparisons: every comparison with nan is false. *)
Definition fgt (a b : fl) : bool :=
  match a, b with
  | Num x, Num y => if Rlt_dec y x then true else false
  | _, _ => false
  end.

Definition flt (a b : fl) : bool := fgt b a.

Definition fge (a b : fl) : bool :=
  match a, b with
  | Num x, Num y => if Rle_dec y x then true else false
  | _, _ => false
  end.

(** Python's built-in [min(a, b)]: the first argument unless the second is
    strictly smaller. *)
Definition pymin (a b : fl) : fl := if flt b a then b else a.

(** [np.clip(x, 0, 1)] on one component: nan stays nan. *)
Definition clip01 (a : fl) : fl :=
  match a with
  | NaN => NaN
  | Num x => Num (Rmin (Rmax x 0) 1)
  end.

(** [np.sum] of an array and Python's [sum] of a list, both from 0. *)
Definition np_sum (l : list fl) : fl := fold_left fadd l (Num 0).

(** [np.mean]: the sum over the number of elements. *)
Definition np_mean (l : list fl) : result fl :=
  fdiv (np_sum l) (Num (INR (length l))).

Definition fsqrt (a : fl) : fl :=
  match a with
  | NaN => NaN
  | Num x => if Rlt_dec x 0 then NaN else Num (sqrt x)
  end.

(** [np.std]: population standard deviation (ddof = 0). *)
Definition np_std (l : list fl) : result fl :=
  m <- np_mean l ;;
  v <- np_mean (map (fun x => fmul (fsub x m) (fsub x m)) l) ;;
  Ok (fsqrt v).

End NumPy.

(** ** The simulated environment: [ResourceAllocationEnv] *)

Module ResourceAllocationEnv.
Import NumPy.
Open Scope R_scope.

(** The three priorities [reset] draws from. *)
Inductive priority : Set := high | medium | low.

(** An agent dictionary as [reset] builds it.  The demands are drawn once
    and never change; [step] overwrites the other five entries. *)
Record agent : Type := {
  id : nat;
  agent_priority : priority;
  bandwidth_demand : R;
  cpu_demand : R;
  memory_demand : R;
  file_size_gb : R;
  current_bandwidth : fl;
  current_cpu : fl;
  current_memory : fl;
  throughput : fl;
  success_rate : fl
}.

Record env : Type := {
  max_agents : nat;
  total_bandwidth_mbps : R;
  max_cpu_cores : R;
  max_memory_gb : R;
  agents : list agent;
  current_step : nat;
  max_steps : nat
}.

(** [__init__]. *)
Definition init (max_agents : nat) (total_bandwidth_mbps : R) : env :=
  {| max_agents := max_agents;
     total_bandwidth_mbps := total_bandwidth_mbps;
     max_cpu_cores := 16;
     max_memory_gb := 64;
     agents := [];
     current_step := 0;
     max_steps := 100 |}.

(** One agent of [reset], from the values drawn for it: priority, bandwidth
    demand, cpu demand, memory demand and file size. *)
Definition spawn (i : nat) (draw : priority * R * R * R * R) : agent :=
  let '(p, bw, cpu, mem, size) := draw in
  {| id := i;
     agent_priority := p;
     bandwidth_demand := bw;
     cpu_demand := cpu;
     memory_demand := mem;
     file_size_gb := size;
     current_bandwidth := Num 0;
     current_cpu := Num 0;
     current_memory := Num 0;
     throughput := Num 0;
     success_rate := Num 1 |}.

(** [reset], given the values the generator draws: one tuple per agent. *)
Definition reset (e : env) (draws : list (priority * R * R * R * R)) : env :=
  {| max_agents := max_agents e;
     total_bandwidth_mbps := total_bandwidth_mbps e;
     max_cpu_cores := max_cpu_cores e;
     max_memory_gb := max_memory_gb e;
     agents := map (fun d => spawn (fst d) (snd d)) (combine (seq 0 (length draws)) draws);
     current_step := 0;
     max_steps := max_steps e |}.

(** The first three statements of [step]:
    [action = np.clip(action[:len(self.agents)], 0, 1)]. *)
Definition clip_action (action : list fl) (n : nat) : list fl :=
  map clip01 (firstn n action).

(** ... and [if np.sum(action) > 0: action = action / np.sum(action)]. *)
Definition normalize_action (action : list fl) (n : nat) : result (list fl) :=
  let action := clip_action action n in
  if fgt (np_sum action) (Num 0)
  then map_result (fun a => fdiv a (np_sum action)) action
  else Ok action.

Definition priority_multiplier (p : priority) : R :=
  match p with high => 2 | medium => 1 | low => 0.5 end.

(** [_calculate_agent_reward]. *)
Definition _calculate_agent_reward (a : agent) : fl :=
  let reward := Num 0 in
  let reward := fadd reward (fdiv_lit (throughput a) 100) in
  let reward := fmul reward (Num (priority_multiplier (agent_priority a))) in
  let reward := fadd reward (fmul (success_rate a) (Num 10)) in
  if fge (current_bandwidth a) (Num (bandwidth_demand a))
  then fadd reward (Num 5)
  else reward.

(** The body of the loop of [step] for one agent and its weight. *)
Definition allocate_agent (e : env) (w : fl) (a : agent) : result agent :=
  let allocated_bandwidth := fmul w (Num (total_bandwidth_mbps e)) in
  bandwidth_ratio <- fdiv allocated_bandwidth (Num (bandwidth_demand a)) ;;
  let cpu := pymin (fmul (Num (cpu_demand a)) bandwidth_ratio) (Num (max_cpu_cores e)) in
  let mem := pymin (fmul (Num (memory_demand a)) bandwidth_ratio) (Num (max_memory_gb e)) in
  ratio <- fdiv allocated_bandwidth (Num (bandwidth_demand a)) ;;
  let satisfaction_ratio := pymin ratio (Num 1) in
  Ok {| id := id a;
        agent_priority := agent_priority a;
        bandwidth_demand := bandwidth_demand a;
        cpu_demand := cpu_demand a;
        memory_demand := memory_demand a;
        file_size_gb := file_size_gb a;
        current_bandwidth := allocated_bandwidth;
        current_cpu := cpu;
        current_memory := mem;
        throughput := fmul (fmul allocated_bandwidth satisfaction_ratio) (Num 0.8);
        success_rate := satisfaction_ratio |}.

(** [action[i]] on an array: an index past the end raises. *)
Definition getitem (action : list fl) (i : nat) : result fl :=
  match nth_error action i with
  | Some w => Ok w
  | None => Raise IndexError
  end.

(** [for i, agent in enumerate(self.agents)]: the agents from position [i]
    on, with the reward accumulated so far. *)
Fixpoint step_agents (e : env) (action : list fl) (i : nat) (ags : list agent)
    (total_reward : fl) : result (list agent * fl) :=
  match ags with
  | [] => Ok ([], total_reward)
  | a :: rest =>
      w <- getitem action i ;;
      a' <- allocate_agent e w a ;;
      let total_reward := fadd total_reward (_calculate_agent_reward a') in
      ' (rest', r) <- step_agents e action (S i) rest total_reward ;;
      Ok (a' :: rest', r)
  end.

(** The over-allocation penalty.  The comparison is the exact one: the
    program compares rounded sums, and the sum of allocations whose weights
    add up to 1 can exceed the capacity by a rounding error. *)
Definition over_allocation (e : env) (ags : list agent) (total_reward : fl) : fl :=
  let total_allocated_bandwidth := np_sum (map current_bandwidth ags) in
  if fgt total_allocated_bandwidth (Num (total_bandwidth_mbps e))
  then fsub total_reward (Num 50)
  else total_reward.

(** The fairness penalty. *)
Definition fairness (ags : list agent) (total_reward : fl) : result fl :=
  if (1 <? length ags)%nat then
    let allocations := map current_bandwidth ags in
    m <- np_mean allocations ;;
    fairness_penalty <-
      (if fgt m (Num 0)
       then (s <- np_std allocations ;; fdiv s m)
       else Ok (Num 0)) ;;
    Ok (fsub total_reward (fmul fairness_penalty (Num 10)))
  else Ok total_reward.

(** What [_get_observation] takes from outside the environment: the three
    simulated system metrics it draws and the hour of the clock. *)
Record observation_draws : Type := {
  drawn_cpu_usage : R;
  drawn_memory_usage : R;
  drawn_network_congestion : R;
  clock_hour : Z
}.

(** The five entries [_get_observation] writes for agent slot [i].  They
    are written after the three totals have been divided by the same three
    capacities, so the divisors are not zero here. *)
Definition slot_observation (e : env) (i : nat) : list fl :=
  match nth_error (agents e) i with
  | Some agent =>
      [ fdiv_lit (current_bandwidth agent) (total_bandwidth_mbps e);
        fdiv_lit (current_cpu agent) (max_cpu_cores e);
        fdiv_lit (current_memory agent) (max_memory_gb e);
        fdiv_lit (throughput agent) 200;
        success_rate agent ]
  | None => [Num 0; Num 0; Num 0; Num 0; Num 0]
  end.

(** [_get_observation].  The agent count is divided by [max_agents] and the
    summed demands by the three capacities, all Python numbers: a zero
    divisor raises ZeroDivisionError, in the order of the divisions. *)
Definition _get_observation (e : env) (d : observation_draws) : result (list fl) :=
  if (max_agents e =? 0)%nat then Raise ZeroDivisionError
  else
    let total_bandwidth_demand := fold_left Rplus (map bandwidth_demand (agents e)) 0 in
    let total_cpu_demand := fold_left Rplus (map cpu_demand (agents e)) 0 in
    let total_memory_demand := fold_left Rplus (map memory_demand (agents e)) 0 in
    if Req_dec_T (total_bandwidth_mbps e) 0 then Raise ZeroDivisionError
    else if Req_dec_T (max_cpu_cores e) 0 then Raise ZeroDivisionError
    else if Req_dec_T (max_memory_gb e) 0 then Raise ZeroDivisionError
    else
      Ok ([ Num (INR (length (agents e)) / INR (max_agents e)) ]
          ++ [ Num (total_bandwidth_demand / total_bandwidth_mbps e);
               Num (total_cpu_demand / max_cpu_cores e);
               Num (total_memory_demand / max_memory_gb e) ]
          ++ flat_map (slot_observation e) (seq 0 (max_agents e))
          ++ [ Num (drawn_cpu_usage d);
               Num (drawn_memory_usage d);
               Num (drawn_network_congestion d);
               Num (IZR (clock_hour d mod 24) / 24) ]).

(** The environments whose observation can be taken: none of the
    capacities [_get_observation] divides by is zero. *)
Definition observable (e : env) : Prop :=
  max_agents e <> 0%nat
  /\ total_bandwidth_mbps e <> 0
  /\ max_cpu_cores e <> 0
  /\ max_memory_gb e <> 0.

(** The environment as [step] leaves it: the agents it has served and the
    step counter advanced. *)
Definition stepped (e : env) (ags : list agent) : env :=
  {| max_agents := max_agents e;
     total_bandwidth_mbps := total_bandwidth_mbps e;
     max_cpu_cores := max_cpu_cores e;
     max_memory_gb := max_memory_gb e;
     agents := ags;
     current_step := S (current_step e);
     max_steps := max_steps e |}.

(** [step]: the environment after the step, then the observation, the
    reward and the [done] flag the Python method returns (its empty info
    dictionary is left out).  The observation is taken last, from the
    environment the step has already changed. *)
Definition step (e : env) (action : list fl) (d : observation_draws)
    : result (env * list fl * fl * bool) :=
  action <- normalize_action action (length (agents e)) ;;
  ' (ags, total_reward) <- step_agents e action 0 (agents e) (Num 0) ;;
  let total_reward := over_allocation e ags total_reward in
  total_reward <- fairness ags total_reward ;;
  let e' := stepped e ags in
  let done := (max_steps e' <=? current_step e')%nat in
  obs <- _get_observation e' d ;;
  Ok (e', obs, total_reward, done).

End ResourceAllocationEnv.

(** ** The decision service for allocations: [ResourceAllocator] *)

Module ResourceAllocator.
Open Scope R_scope.

(** [d.get(key, default)] on an entry that may be absent. *)
Definition get {A : Type} (entry : option A) (default : A) : A :=
  match entry with Some v => v | None => default end.

(** [min(x / d, 1.0)] for a numpy number [x] and a demand [d] the caller
    supplies.  numpy answers a division by zero without raising: a positive
    [x] over zero is infinite, and [min] caps it at 1.0; a zero or negative
    [x] over zero is nan or minus infinity, which [min] hands on and the
    reals cannot hold. *)
Definition capped_ratio (x d : R) : result R :=
  if Req_dec_T d 0
  then (if Rlt_dec 0 x then Ok 1 else Raise DivideByZero)
  else Ok (Rmin (x / d) 1).

(** An agent dictionary as a caller passes it: every key may be absent. *)
Record agent_info : Type := {
  id : option Z;
  priority : option string;
  bandwidth_demand : option R;
  cpu_demand : option R;
  memory_demand : option R;
  current_bandwidth : option R;
  current_cpu : option R;
  current_memory : option R;
  throughput : option R;
  success_rate : option R
}.

(** The keys of [system_metrics] the allocator reads. *)
Record system_metrics : Type := {
  total_bandwidth_mbps : option R;
  cpu_usage : option R;
  memory_usage : option R;
  network_congestion : option R
}.

Record allocation : Type := {
  agent_id : Z;
  bandwidth_mbps : R;
  cpu_cores : R;
  memory_gb : R;
  priority_weight : R;
  expected_throughput : R
}.

Record plan : Type := {
  allocations : list allocation;
  total_bandwidth_allocated : R;
  total_cpu_allocated : R;
  total_memory_allocated : R;
  confidence : R;
  fairness_score : R;
  efficiency_score : R
}.

(** Python's [sum] of a list of numbers. *)
Definition sum (l : list R) : R := fold_left Rplus l 0.

(** [np.mean] and [np.std] (population standard deviation) of a list. *)
Definition mean (l : list R) : R := sum l / INR (length l).

Definition std (l : list R) : R :=
  sqrt (mean (map (fun x => (x - mean l) * (x - mean l)) l)).

(** [_get_priority_weight]. *)
Definition _get_priority_weight (priority : string) : R :=
  if String.eqb priority "high"%string then 2
  else if String.eqb priority "medium"%string then 1
  else if String.eqb priority "low"%string then 0.5
  else 1.

(** [_calculate_fairness_score]. *)
Definition _calculate_fairness_score (allocations : list allocation) : R :=
  if (length allocations <=? 1)%nat then 1
  else
    let bandwidths := map bandwidth_mbps allocations in
    let mean_bw := mean bandwidths in
    if Req_dec_T mean_bw 0 then 1
    else
      let cv := std bandwidths / mean_bw in
      Rmax 0 (1 - cv).

(** [_calculate_efficiency_score]. *)
Definition _calculate_efficiency_score (allocations : list allocation)
    (total_bandwidth : R) : R :=
  let total_allocated := sum (map bandwidth_mbps allocations) in
  let utilization :=
    if Rlt_dec 0 total_bandwidth then total_allocated / total_bandwidth else 0 in
  if Rle_dec 0.8 utilization then
    if Rle_dec utilization 0.9 then 1
    else Rmax 0 (1 - (utilization - 0.9) / 0.1)
  else utilization / 0.8.

(** The loop of [allocate_resources]: agents from position [i] on.  An
    agent whose position is past the end of the action gets no entry. *)
Fixpoint allocations_from (action : list R) (total_bandwidth : R) (i : nat)
    (agents : list agent_info) : result (list allocation) :=
  match agents with
  | [] => Ok []
  | agent :: rest =>
      match nth_error action i with
      | Some w =>
          let bandwidth_allocation := w * total_bandwidth in
          cpu_ratio <- capped_ratio bandwidth_allocation (get (bandwidth_demand agent) 100) ;;
          rest' <- allocations_from action total_bandwidth (S i) rest ;;
          Ok ({| agent_id := get (id agent) (Z.of_nat i);
                 bandwidth_mbps := bandwidth_allocation;
                 cpu_cores := get (cpu_demand agent) 2 * cpu_ratio;
                 memory_gb := get (memory_demand agent) 4 * cpu_ratio;
                 priority_weight := _get_priority_weight (get (priority agent) "medium"%string);
                 expected_throughput := bandwidth_allocation * 0.8 |} :: rest')
      | None => allocations_from action total_bandwidth (S i) rest
      end
  end.

(** The five features of agent slot [i] in [_agents_to_state]. *)
Definition slot_features (agents : list agent_info) (i : nat) : list R :=
  match nth_error agents i with
  | Some agent =>
      [ get (current_bandwidth agent) 0 / 1000;
        get (current_cpu agent) 0 / 16;
        get (current_memory agent) 0 / 64;
        get (throughput agent) 0 / 200;
        get (success_rate agent) 1 ]
  | None => [0; 0; 0; 0; 0]
  end.

(** The loop "Calculate discounted rewards" of [_update_policy]: the
    rewards are visited last to first, the running return is
    [reward + gamma * discounted_reward], and each return is inserted at the
    front of the list. *)
Definition discounted_rewards (gamma : R) (rewards : list R) : list R :=
  snd (fold_left
         (fun (st : R * list R) (reward : R) =>
            let discounted_reward := reward + gamma * fst st in
            (discounted_reward, discounted_reward :: snd st))
         (rev rewards) (0, [])).

(** [torch.Tensor.std]: the sample standard deviation (Bessel's
    correction). *)
Definition torch_std (l : list R) : R :=
  sqrt (sum (map (fun x => (x - mean l) * (x - mean l)) l) / (INR (length l) - 1)).

(** The normalization of the returns in [_update_policy],
    [(x - x.mean()) / (x.std() + 1e-8)].  With fewer than two returns the
    standard deviation, and with it every normalized return, is nan. *)
Definition normalize_returns (l : list R) : list NumPy.fl :=
  if (length l <? 2)%nat then map (fun _ => NumPy.NaN) l
  else map (fun x => NumPy.Num ((x - mean l) / (torch_std l + 1e-8))) l.

Section Actor.

(** The actor network is a parameter of the development: its weights, the
    dropout mask drawn by a forward pass (the module is never switched to
    evaluation mode) and the forward pass itself. *)
Variable actor_params : Type.
Variable dropout_mask : Type.
Variable PPOActor_forward : actor_params -> dropout_mask -> list R -> list R.

(** The fields of the allocator the decision path reads.  The critic, the
    optimizers and the PPO hyperparameters only matter to training. *)
Record allocator : Type := {
  max_agents : nat;
  actor : actor_params;
  model_metadata : list (string * string)
}.

(** [__init__], given the initial weights of the actor. *)
Definition init (max_agents : nat) (theta : actor_params) : allocator :=
  {| max_agents := max_agents; actor := theta; model_metadata := [] |}.

(** [_agents_to_state]; [hour] is [datetime.now().hour]. *)
Definition _agents_to_state (self : allocator) (agents : list agent_info)
    (metrics : system_metrics) (hour : Z) : result (list R) :=
  if (max_agents self =? 0)%nat then Raise ZeroDivisionError
  else
    let total_bandwidth_demand := sum (map (fun a => get (bandwidth_demand a) 100) agents) in
    let total_cpu_demand := sum (map (fun a => get (cpu_demand a) 2) agents) in
    let total_memory_demand := sum (map (fun a => get (memory_demand a) 4) agents) in
    Ok ([ INR (length agents) / INR (max_agents self) ]
        ++ [ total_bandwidth_demand / 1000; total_cpu_demand / 16; total_memory_demand / 64 ]
        ++ flat_map (slot_features agents) (seq 0 (max_agents self))
        ++ [ get (cpu_usage metrics) 50 / 100;
             get (memory_usage metrics) 60 / 100;
             get (network_congestion metrics) 50 / 100;
             IZR (hour mod 24) / 24 ]).

(** [get_action(state, deterministic=True)]: the actor's output and a log
    probability of zero. *)
Definition get_action (self : allocator) (mask : dropout_mask) (state : list R)
    : list R * R :=
  (PPOActor_forward (actor self) mask state, 0).

(** [get_action(state)] with the default [deterministic=False]: [noise] is
    the tensor [torch.normal] draws, of the shape of the actor's output; the
    sum is clamped to [0,1], and the log probability is the sum of the logs
    of the clamped components plus 1e-8. *)
Definition get_action_noisy (self : allocator) (mask : dropout_mask)
    (noise : list R) (state : list R) : list R * R :=
  let action_probs := PPOActor_forward (actor self) mask state in
  let action_probs :=
    map (fun pn => Rmin (Rmax (fst pn + snd pn) 0) 1) (combine action_probs noise) in
  (action_probs, sum (map (fun p => ln (p + 1e-8)) action_probs)).

(** [allocate_resources]. *)
Definition allocate_resources (self : allocator) (agents : list agent_info)
    (metrics : system_metrics) (hour : Z) (mask : dropout_mask) : result plan :=
  state <- _agents_to_state self agents metrics hour ;;
  let '(action, confidence) := get_action self mask state in
  let total_bandwidth := get (total_bandwidth_mbps metrics) 1000 in
  allocations <- allocations_from action total_bandwidth 0 agents ;;
  Ok {| allocations := allocations;
        total_bandwidth_allocated := sum (map bandwidth_mbps allocations);
        total_cpu_allocated := sum (map cpu_cores allocations);
        total_memory_allocated := sum (map memory_gb allocations);
        confidence := Rabs confidence;
        fairness_score := _calculate_fairness_score allocations;
        efficiency_score := _calculate_efficiency_score allocations total_bandwidth |}.

End Actor.

End ResourceAllocator.

(** ** Naive datetimes *)

Module Datetime.
Open Scope Z_scope.

(** A naive [datetime], as the number of microseconds since
    0001-01-01 00:00:00. *)
Record datetime : Set := { micros : Z }.

Definition micros_per_hour : Z := 3600000000.
Definition micros_per_minute : Z := 60000000.

(** [datetime.max] is 9999-12-31 23:59:59.999999, whose date has ordinal
    3652059. *)
Definition max_micros : Z := 3652059 * 24 * micros_per_hour - 1.

Definition micros_per_day : Z := 24 * micros_per_hour.

Definition hour (t : datetime) : Z := (micros t / micros_per_hour) mod 24.
Definition minute (t : datetime) : Z := (micros t / micros_per_minute) mod 60.

(** [t.weekday()], Monday being 0: 0001-01-01 is a Monday. *)
Definition weekday (t : datetime) : Z := (micros t / micros_per_day) mod 7.

(** [t + timedelta(hours=h)]. *)
Definition add_hours (t : datetime) (h : Z) : result datetime :=
  let m := micros t + h * micros_per_hour in
  if (0 <=? m) && (m <=? max_micros) then Ok {| micros := m |}
  else Raise OverflowError.

Definition two_digits (n : Z) : string :=
  let d (k : Z) := Ascii.ascii_of_nat (48 + Z.to_nat k) in
  String (d (n / 10)) (String (d (n mod 10)) EmptyString).

(** [t.strftime('%H:%M')]. *)
Definition strftime_HM (t : datetime) : string :=
  (two_digits (hour t) ++ ":" ++ two_digits (minute t))%string.

End Datetime.

(** ** The experience store: [ReplayBuffer] *)

Module ReplayBuffer.

Section Buffer.
Variable Experience : Type.

(** A [deque(maxlen=capacity)], oldest entry first. *)
Record t : Type := {
  maxlen : nat;
  buffer : list Experience
}.

(** [__init__]. *)
Definition init (capacity : nat) : t :=
  {| maxlen := capacity; buffer := [] |}.

(** [push]: [deque.append] adds on the right, and a full deque drops its
    leftmost entry to make room. *)
Definition push (self : t) (experience : Experience) : t :=
  let appended := buffer self ++ [experience] in
  {| maxlen := maxlen self;
     buffer := if (maxlen self <? length appended)%nat then tl appended else appended |}.

(** [__len__]. *)
Definition len (self : t) : nat := length (buffer self).

(** The entries at the drawn positions. *)
Definition pick (l : list Experience) (positions : list nat) : list Experience :=
  flat_map (fun i => match nth_error l i with Some e => [e] | None => [] end) positions.

(** [sample]: [random.sample(self.buffer, batch_size)].  [draw] lists the
    positions the generator selects (distinct and below the length); asking
    for more entries than are stored raises. *)
Definition sample (self : t) (batch_size : nat) (draw : list nat)
    : result (list Experience) :=
  if (len self <? batch_size)%nat then Raise ValueError
  else Ok (pick (buffer self) (firstn batch_size draw)).

End Buffer.

End ReplayBuffer.

(** ** The decision service for scheduling: [SchedulingOptimizer] *)

Module SchedulingOptimizer.
Import Datetime.
Open Scope Q_scope.

(** The [Experience] named tuple. *)
Record Experience : Type := {
  state : list Q;
  action : nat;
  reward : Q;
  next_state : list Q;
  done : bool
}.

(** The dictionary [get_optimal_schedule] returns. *)
Record schedule : Type := {
  sched_action : Z;
  scheduled_time : datetime;
  scheduled_hour : Z;
  delay_hours : Z;
  confidence : Q;
  exploration : bool;
  reasoning : string
}.

(** [random.choice(seq)] is [seq[_randbelow(len(seq))]]; [raw] is the
    generator's next output, reduced below the length. *)
Definition random_choice (raw : nat) (seq : list Z) : Z :=
  nth (raw mod length seq) seq 0%Z.

Definition Qgtb (a b : Q) : bool := negb (Qle_bool a b).

(** The epsilon update at the end of [train_step]. *)
Definition decay_epsilon (epsilon epsilon_min epsilon_decay : Q) : Q :=
  if Qgtb epsilon epsilon_min then epsilon * epsilon_decay else epsilon.

(** [_soft_update] on the flattened parameters: [zip] pairs target and
    online parameters and stops at the shorter list; a target parameter
    without a partner keeps its value. *)
Fixpoint _soft_update (tau : Q) (target_network q_network : list Q) : list Q :=
  match target_network, q_network with
  | target_param :: ts, local_param :: ls =>
      (tau * local_param + (1 - tau) * target_param) :: _soft_update tau ts ls
  | _, _ => target_network
  end.

(** [d.get(key, default)] on a dictionary of numbers, given as the list of
    its items. *)
Fixpoint dict_get (d : list (string * Q)) (key : string) (default : Q) : Q :=
  match d with
  | [] => default
  | (k, v) :: d' => if String.eqb k key then v else dict_get d' key default
  end.

(** [d.get(key, default)] on an entry that may be absent. *)
Definition get {A : Type} (entry : option A) (default : A) : A :=
  match entry with Some v => v | None => default end.

(** Python's built-in [min(a, b)] on numbers: the second argument when it
    is strictly smaller, the first otherwise. *)
Definition pymin (a b : Q) : Q := if Qgtb a b then b else a.

(** An entry of the transfer queue, as [_extract_state_features] reads
    it: every key may be absent. *)
Record transfer : Type := {
  status : option string;
  priority : option string;
  size_gb : option Q
}.

Definition has_status (s : string) (t : transfer) : bool :=
  match status t with Some s' => String.eqb s' s | None => false end.

Definition has_priority (p : string) (t : transfer) : bool :=
  String.eqb (get (priority t) "medium"%string) p.

Definition is_small (t : transfer) : bool := Qgtb 0.1 (get (size_gb t) 1).
Definition is_medium (t : transfer) : bool :=
  negb (is_small t) && Qgtb 10 (get (size_gb t) 1).
Definition is_large (t : transfer) : bool :=
  negb (is_small t) && negb (Qgtb 10 (get (size_gb t) 1)).

Definition count (f : transfer -> bool) (queue : list transfer) : Q :=
  inject_Z (Z.of_nat (length (filter f queue))).

(** The 22 features [_extract_state_features] computes before it pads or
    truncates. *)
Definition raw_features (current_time : datetime)
    (network_metrics system_metrics : list (string * Q))
    (transfer_queue : list transfer) : list Q :=
  let network_congestion :=
    dict_get network_metrics "bandwidth_utilization" 50 * 0.4
    + pymin (dict_get network_metrics "latency_ms" 50 / 2) 100 * 0.3
    + dict_get network_metrics "packet_loss_rate" 0.01 * 1000 * 0.3 in
  let system_load :=
    dict_get system_metrics "cpu_usage" 50 * 0.6
    + dict_get system_metrics "memory_usage" 60 * 0.4 in
  [ inject_Z (hour current_time);
    inject_Z (weekday current_time);
    if (5 <=? weekday current_time)%Z then 1 else 0;
    if ((9 <=? hour current_time) && (hour current_time <=? 17))%Z then 1 else 0 ]
  ++ [ dict_get network_metrics "bandwidth_utilization" 50;
       dict_get network_metrics "latency_ms" 50;
       dict_get network_metrics "packet_loss_rate" 0.01;
       dict_get network_metrics "throughput_mbps" 100 ]
  ++ [ dict_get system_metrics "cpu_usage" 50;
       dict_get system_metrics "memory_usage" 60 ]
  ++ [ network_congestion; system_load ]
  ++ [ dict_get network_metrics "success_rate_1h" 95;
       dict_get network_metrics "success_rate_24h" 97 ]
  ++ [ count (has_status "active") transfer_queue;
       count (has_status "queued") transfer_queue;
       count (has_priority "high") transfer_queue;
       count (has_priority "medium") transfer_queue;
       count (has_priority "low") transfer_queue;
       count is_small transfer_queue;
       count is_medium transfer_queue;
       count is_large transfer_queue ].

(** The dictionary [transfer_result] of [_calculate_reward]. *)
Record transfer_result : Type := {
  success : option bool;
  expected_duration_minutes : option Q;
  actual_duration_minutes : option Q;
  throughput_mbps : option Q;
  result_priority : option string
}.

(** [_calculate_reward]; [current_hour] is [datetime.now().hour]. *)
Definition _calculate_reward (action : Z) (transfer_result : transfer_result)
    (network_state : list (string * Q)) (current_hour : Z) : result Q :=
  let reward := 0 in
  let reward :=
    if get (success transfer_result) false then reward + 10 else reward - 20 in
  let expected_duration := get (expected_duration_minutes transfer_result) 60 in
  let actual_duration := get (actual_duration_minutes transfer_result) 60 in
  reward <-
    (if Qle_bool actual_duration expected_duration then Ok (reward + 5)
     else if Qeq_bool expected_duration 0 then Raise ZeroDivisionError
     else
       let delay_factor := (actual_duration - expected_duration) / expected_duration in
       Ok (reward - pymin (delay_factor * 10) 15)) ;;
  let throughput_mbps := get (throughput_mbps transfer_result) 0 in
  let reward :=
    if Qgtb throughput_mbps 100 then reward + 3
    else if Qgtb throughput_mbps 50 then reward + 1
    else if Qgtb 10 throughput_mbps then reward - 5
    else reward in
  let congestion_score := dict_get network_state "congestion_score" 50 in
  let reward :=
    if Qgtb congestion_score 80 then reward - 5
    else if Qgtb 30 congestion_score then reward + 2
    else reward in
  let priority := get (result_priority transfer_result) "medium"%string in
  let scheduled_hour := action in
  let target_hour := ((current_hour + scheduled_hour) mod 24)%Z in
  let reward :=
    if negb (String.eqb priority "critical") then
      if ((9 <=? target_hour) && (target_hour <=? 17))%Z then reward - 2
      else if ((22 <=? target_hour) || (target_hour <=? 6))%Z then reward + 3
      else reward
    else reward in
  let reward :=
    if String.eqb priority "critical" && (2 <? action)%Z then reward - 10
    else if String.eqb priority "low" && (action =? 0)%Z then reward - 3
    else reward in
  Ok reward.

Section Learner.

(** The gradient computation is a parameter of the development: the state
    of the Adam optimizer, the dropout mask of the forward passes, and the
    step from "Convert to tensors" to [self.optimizer.step()], which yields
    the new online parameters, the new optimizer state, the loss and the
    mean of the current Q-values. *)
Variable optim_state : Type.
Variable dropout_mask : Type.

Record update : Type := {
  new_q_network : list Q;
  new_optimizer : optim_state;
  loss : Q;
  q_mean : Q
}.

Variable gradient_step :
  list Q -> list Q -> optim_state -> Q -> list Experience -> dropout_mask -> update.

Record optimizer_t : Type := {
  state_size : nat;
  action_size : nat;
  q_network : list Q;
  target_network : list Q;
  optimizer : optim_state;
  epsilon : Q;
  epsilon_decay : Q;
  epsilon_min : Q;
  gamma : Q;
  tau : Q;
  batch_size : nat;
  update_every : nat;
  step_count : nat;
  memory : ReplayBuffer.t Experience;
  model_metadata : list (string * string)
}.

(** [__init__], given the initial parameters of the two networks and the
    initial state of the Adam optimizer. *)
Definition init (state_size action_size : nat) (theta theta_target : list Q)
    (adam : optim_state) : optimizer_t :=
  {| state_size := state_size;
     action_size := action_size;
     q_network := theta;
     target_network := theta_target;
     optimizer := adam;
     epsilon := 1;
     epsilon_decay := 0.995;
     epsilon_min := 0.01;
     gamma := 0.95;
     tau := 0.005;
     batch_size := 64;
     update_every := 4;
     step_count := 0;
     memory := ReplayBuffer.init Experience 50000;
     model_metadata := [] |}.

(** [get_optimal_schedule]; [raw] is the next output of the global random
    generator. *)
Definition get_optimal_schedule (self : optimizer_t) (current_time : datetime)
    (network_metrics system_metrics : list (string * Q))
    (transfer_queue : list (list (string * string)))
    (transfer_priority : string) (raw : nat) : result schedule :=
  let action :=
    if String.eqb transfer_priority "critical" then 0%Z
    else if String.eqb transfer_priority "low" then
      let current_hour := hour current_time in
      if ((9 <=? current_hour) && (current_hour <=? 17))%Z
      then random_choice raw [6; 7; 8; 9; 10]%Z
      else 0%Z
    else 0%Z in
  scheduled_time <- add_hours current_time action ;;
  Ok {| sched_action := action;
        scheduled_time := scheduled_time;
        scheduled_hour := hour scheduled_time;
        delay_hours := action;
        confidence := 0.8;
        exploration := false;
        reasoning := ("Scheduled for " ++ strftime_HM scheduled_time
                      ++ " based on " ++ transfer_priority ++ " priority")%string |}.

(** [_extract_state_features]: the features, padded with zeros or cut to
    [state_size]. *)
Definition _extract_state_features (self : optimizer_t) (current_time : datetime)
    (network_metrics system_metrics : list (string * Q))
    (transfer_queue : list transfer) : list Q :=
  let features :=
    raw_features current_time network_metrics system_metrics transfer_queue in
  firstn (state_size self)
    (features ++ repeat 0 (state_size self - length features)).

(** [store_experience]. *)
Definition store_experience (self : optimizer_t) (state : list Q) (action : nat)
    (reward : Q) (next_state : list Q) (done : bool) : optimizer_t :=
  let experience :=
    {| state := state; action := action; reward := reward;
       next_state := next_state; done := done |} in
  {| state_size := state_size self;
     action_size := action_size self;
     q_network := q_network self;
     target_network := target_network self;
     optimizer := optimizer self;
     epsilon := epsilon self;
     epsilon_decay := epsilon_decay self;
     epsilon_min := epsilon_min self;
     gamma := gamma self;
     tau := tau self;
     batch_size := batch_size self;
     update_every := update_every self;
     step_count := step_count self;
     memory := ReplayBuffer.push (memory self) experience;
     model_metadata := model_metadata self |}.

(** [train_step]: the optimizer after the call and the metrics dictionary.
    [draw] lists the positions [random.sample] selects and [mask] is the
    dropout mask of the forward passes. *)
Definition train_step (self : optimizer_t) (draw : list nat) (mask : dropout_mask)
    : result (optimizer_t * list (string * Q)) :=
  if (ReplayBuffer.len (memory self) <? batch_size self)%nat then Ok (self, [])
  else
    experiences <- ReplayBuffer.sample (memory self) (batch_size self) draw ;;
    let u := gradient_step (q_network self) (target_network self) (optimizer self)
               (gamma self) experiences mask in
    let target' := _soft_update (tau self) (target_network self) (new_q_network u) in
    let epsilon' := decay_epsilon (epsilon self) (epsilon_min self) (epsilon_decay self) in
    Ok ({| state_size := state_size self;
           action_size := action_size self;
           q_network := new_q_network u;
           target_network := target';
           optimizer := new_optimizer u;
           epsilon := epsilon';
           epsilon_decay := epsilon_decay self;
           epsilon_min := epsilon_min self;
           gamma := gamma self;
           tau := tau self;
           batch_size := batch_size self;
           update_every := update_every self;
           step_count := step_count self;
           memory := memory self;
           model_metadata := model_metadata self |},
        [ ("loss"%string, loss u);
          ("epsilon"%string, epsilon');
          ("q_mean"%string, q_mean u) ]).

(** The batch a training step learns from when the store holds enough
    entries, and the outcome of its gradient computation. *)
Definition batch_of (self : optimizer_t) (draw : list nat) : list Experience :=
  ReplayBuffer.pick (ReplayBuffer.buffer (memory self)) (firstn (batch_size self) draw).

Definition update_of (self : optimizer_t) (draw : list nat) (mask : dropout_mask)
    : update :=
  gradient_step (q_network self) (target_network self) (optimizer self) (gamma self)
    (batch_of self draw) mask.

(** A run of training steps, one draw and one mask per call. *)
Fixpoint train_steps (self : optimizer_t) (calls : list (list nat * dropout_mask))
    : result optimizer_t :=
  match calls with
  | [] => Ok self
  | (draw, mask) :: calls' =>
      ' (self', _) <- train_step self draw mask ;;
      train_steps self' calls'
  end.

(** The values [_simulate_episode] draws from the random generator, in
    the order of the draws: the four network metrics, the two system
    metrics, a priority and a size for each transfer of the queue (the
    length of the list is the drawn queue length), the number compared with
    0.1 for the success of the transfer, its throughput, its actual
    duration and its priority.  [draw_schedule] is the generator's next
    output at the time [get_optimal_schedule] is called. *)
Record episode_draws : Type := {
  draw_bandwidth_utilization : Q;
  draw_latency_ms : Q;
  draw_packet_loss_rate : Q;
  draw_congestion_score : Q;
  draw_cpu_usage : Q;
  draw_memory_usage : Q;
  draw_queue : list (nat * Q);
  draw_schedule : nat;
  draw_success : Q;
  draw_throughput : Q;
  draw_actual_duration : Q;
  draw_priority : nat
}.

(** [random.choice(['high', 'medium', 'low'])]. *)
Definition random_priority (raw : nat) : string :=
  nth (raw mod 3) ["high"; "medium"; "low"]%string "medium"%string.

(** A queue entry as [get_optimal_schedule] is handed it: the dictionary of
    its textual entries (the size, a number, is left out; the function
    does not read the queue). *)
Definition transfer_entries (t : transfer) : list (string * string) :=
  (match priority t with Some p => [("priority"%string, p)] | None => [] end)
  ++ (match status t with Some s => [("status"%string, s)] | None => [] end).

(** [_simulate_episode]: the optimizer after the episode and the total
    reward.  [current_time] is the clock read at the start of the episode
    and [reward_hour] the hour of the clock read inside
    [_calculate_reward]. *)
Definition _simulate_episode (self : optimizer_t) (current_time : datetime)
    (reward_hour : Z) (d : episode_draws) : result (optimizer_t * Q) :=
  let total_reward := 0 in
  let network_metrics :=
    [ ("bandwidth_utilization"%string, draw_bandwidth_utilization d);
      ("latency_ms"%string, draw_latency_ms d);
      ("packet_loss_rate"%string, draw_packet_loss_rate d);
      ("congestion_score"%string, draw_congestion_score d) ] in
  let system_metrics :=
    [ ("cpu_usage"%string, draw_cpu_usage d);
      ("memory_usage"%string, draw_memory_usage d) ] in
  let transfer_queue :=
    map (fun ps => {| status := Some "queued"%string;
                      priority := Some (random_priority (fst ps));
                      size_gb := Some (snd ps) |})
      (draw_queue d) in
  let state :=
    _extract_state_features self current_time network_metrics system_metrics
      transfer_queue in
  schedule_result <-
    get_optimal_schedule self current_time network_metrics system_metrics
      (map transfer_entries transfer_queue) "medium" (draw_schedule d) ;;
  let action := sched_action schedule_result in
  let transfer_result :=
    {| success := Some (Qgtb (draw_success d) 0.1);
       expected_duration_minutes := Some 30;
       actual_duration_minutes := Some (draw_actual_duration d);
       throughput_mbps := Some (draw_throughput d);
       result_priority := Some (random_priority (draw_priority d)) |} in
  reward <- _calculate_reward action transfer_result network_metrics reward_hour ;;
  let total_reward := total_reward + reward in
  next_time <- add_hours current_time 1 ;;
  let next_state :=
    _extract_state_features self next_time network_metrics system_metrics [] in
  Ok (store_experience self state (Z.to_nat action) reward next_state true,
      total_reward).

End Learner.

End SchedulingOptimizer.

(** ** Sample inputs *)

Module Samples.

(** The agents and the system metrics of the module's own usage example. *)
Definition request (i : Z) (p : string) (bw cpu mem : R) : ResourceAllocator.agent_info :=
  {| ResourceAllocator.id := Some i;
     ResourceAllocator.priority := Some p;
     ResourceAllocator.bandwidth_demand := Some bw;
     ResourceAllocator.cpu_demand := Some cpu;
     ResourceAllocator.memory_demand := Some mem;
     ResourceAllocator.current_bandwidth := None;
     ResourceAllocator.current_cpu := None;
     ResourceAllocator.current_memory := None;
     ResourceAllocator.throughput := None;
     ResourceAllocator.success_rate := None |}.

Definition test_agents : list ResourceAllocator.agent_info :=
  [ request 1 "high" 150 3 6; request 2 "medium" 100 2 4; request 3 "low" 50 1 2 ]%R.

Definition test_metrics : ResourceAllocator.system_metrics :=
  {| ResourceAllocator.total_bandwidth_mbps := Some 1000;
     ResourceAllocator.cpu_usage := Some 60;
     ResourceAllocator.memory_usage := Some 70;
     ResourceAllocator.network_congestion := Some 40 |}%R.

(** An actor for three agents whose output layer has zero weights and zero
    bias: every output is sigmoid(0), one half. *)
Definition half_actor (theta mask : unit) (state : list R) : list R :=
  [1 / 2; 1 / 2; 1 / 2]%R.

(** An allocation of the given bandwidth. *)
Definition grant (i : Z) (bw : R) : ResourceAllocator.allocation :=
  {| ResourceAllocator.agent_id := i;
     ResourceAllocator.bandwidth_mbps := bw;
     ResourceAllocator.cpu_cores := 1;
     ResourceAllocator.memory_gb := 1;
     ResourceAllocator.priority_weight := 1;
     ResourceAllocator.expected_throughput := (bw * 0.8)%R |}.

(** Three agents demanding 150, 100 and 50 Mbps of a capacity of 1000. *)
Definition three_agent_env : ResourceAllocationEnv.env :=
  ResourceAllocationEnv.reset (ResourceAllocationEnv.init 10 1000)
    [ (ResourceAllocationEnv.high, 150, 3, 6, 10);
      (ResourceAllocationEnv.medium, 100, 2, 4, 10);
      (ResourceAllocationEnv.low, 50, 1, 2, 10) ]%R.

(** One agent demanding 100 Mbps. *)
Definition one_agent_env : ResourceAllocationEnv.env :=
  ResourceAllocationEnv.reset (ResourceAllocationEnv.init 10 1000)
    [ (ResourceAllocationEnv.medium, 100, 2, 4, 10) ]%R.

(** System metrics in the middle of the ranges they are drawn from, read
    at noon. *)
Definition midday_draws : ResourceAllocationEnv.observation_draws :=
  {| ResourceAllocationEnv.drawn_cpu_usage := 0.55;
     ResourceAllocationEnv.drawn_memory_usage := 0.55;
     ResourceAllocationEnv.drawn_network_congestion := 0.55;
     ResourceAllocationEnv.clock_hour := 12 |}%R.

(** A network with a single parameter, trained by a step that moves the
    parameter by a tenth towards the summed reward of the batch. *)
Definition toy_gradient_step (q target : list Q) (adam : unit) (gamma : Q)
    (batch : list SchedulingOptimizer.Experience) (mask : unit)
    : SchedulingOptimizer.update unit :=
  let r := fold_right Qplus 0%Q (map SchedulingOptimizer.reward batch) in
  {| SchedulingOptimizer.new_q_network := map (fun w => w + (r - w) * 0.1)%Q q;
     SchedulingOptimizer.new_optimizer := adam;
     SchedulingOptimizer.loss := r * r;
     SchedulingOptimizer.q_mean := r |}.

Definition toy_experience : SchedulingOptimizer.Experience :=
  {| SchedulingOptimizer.state := [0%Q];
     SchedulingOptimizer.action := 0;
     SchedulingOptimizer.reward := 1%Q;
     SchedulingOptimizer.next_state := [0%Q];
     SchedulingOptimizer.done := true |}.

(** A freshly built optimizer with one online and one target parameter. *)
Definition fresh_optimizer : SchedulingOptimizer.optimizer_t unit :=
  SchedulingOptimizer.init 1 24 [1%Q] [0%Q] tt.

(** The same optimizer after [n] calls of [store_experience]. *)
Definition stocked_optimizer (n : nat) : SchedulingOptimizer.optimizer_t unit :=
  Nat.iter n
    (fun self => SchedulingOptimizer.store_experience self [0%Q] 0 1%Q [0%Q] true)
    fresh_optimizer.

(** Noon of 2024-01-01, whose date has ordinal 738886. *)
Definition noon : Datetime.datetime :=
  {| Datetime.micros := ((738886 - 1) * 24 + 12) * Datetime.micros_per_hour |}.

End Samples.

(** * Properties *)

(** ** The experience store *)

Section BufferFacts.
Local Open Scope nat_scope.
Variable E : Type.

Let pushes := fold_left (@ReplayBuffer.push E).

Lemma tl_skipn (k : nat) (l : list E) : tl (skipn k l) = skipn (S k) l.
Proof.
  revert l; induction k as [|k IH]; intros [|x l]; simpl; auto.
Qed.

Lemma maxlen_push (b : ReplayBuffer.t E) (e : E) :
  ReplayBuffer.maxlen (ReplayBuffer.push b e) = ReplayBuffer.maxlen b.
Proof. reflexivity. Qed.

Lemma maxlen_pushes (es : list E) (b : ReplayBuffer.t E) :
  ReplayBuffer.maxlen (pushes es b) = ReplayBuffer.maxlen b.
Proof.
  revert b; induction es as [|e es IH]; intro b; simpl; auto.
  rewrite IH. apply maxlen_push.
Qed.

(** Pushing onto a store that holds the last [c] of the entries inserted so
    far leaves it holding the last [c] of the entries inserted so far. *)
Lemma push_keeps_last (c : nat) (es : list E) (e : E) (b : ReplayBuffer.t E) :
  ReplayBuffer.maxlen b = c ->
  ReplayBuffer.buffer b = skipn (length es - c) es ->
  ReplayBuffer.buffer (ReplayBuffer.push b e)
  = skipn (length (es ++ [e]) - c) (es ++ [e]).
Proof.
  intros Hc Hb. unfold ReplayBuffer.push; simpl. rewrite Hc, Hb.
  destruct c as [|c'].
  - rewrite !Nat.sub_0_r, !skipn_all. reflexivity.
  - rewrite !length_app, length_skipn; simpl.
    destruct (Nat.ltb_spec (S c') (length es - (length es - S c') + 1)) as [Hfull|Hroom].
    + replace (length es + 1 - S c') with (S (length es - S c')) by lia.
      rewrite skipn_app.
      replace (S (length es - S c') - length es) with 0 by lia.
      change (skipn 0 [e]) with [e].
      rewrite <- tl_skipn.
      destruct (skipn (length es - S c') es) as [|x l] eqn:Hs; [|reflexivity].
      apply (f_equal (@length E)) in Hs. rewrite length_skipn in Hs. simpl in Hs. lia.
    + replace (length es - S c') with 0 by lia.
      replace (length es + 1 - S c') with 0 by lia. reflexivity.
Qed.

(** The store built by a run of pushes holds the last [c] entries pushed,
    oldest first. *)
Lemma pushes_keep_last (c : nat) (es : list E) :
  ReplayBuffer.buffer (pushes es (ReplayBuffer.init E c))
  = skipn (length es - c) es.
Proof.
  induction es as [|e es IH] using rev_ind.
  - reflexivity.
  - unfold pushes in *. rewrite fold_left_app. simpl.
    apply push_keeps_last; [|exact IH].
    apply maxlen_pushes.
Qed.

Lemma In_pick (l : list E) (positions : list nat) (x : E) :
  In x (ReplayBuffer.pick l positions) -> In x l.
Proof.
  unfold ReplayBuffer.pick. rewrite in_flat_map.
  intros [i [_ Hx]].
  destruct (nth_error l i) as [y|] eqn:Hi; simpl in Hx; [|contradiction].
  destruct Hx as [<-|[]]. eapply nth_error_In; eauto.
Qed.

End BufferFacts.

(** C5.  Whatever sequence of experiences is pushed onto a freshly built
    store of capacity [c]: the store never holds more than [c] entries; it
    holds exactly the last [c] entries pushed, in the order of their
    insertion; a push onto a full store drops the oldest entry and nothing
    else, while a push onto a store with room drops nothing; and after
    [c + 1] insertions the store holds the [c] latest ones, so that no
    sample returns the first. *)
Theorem replay_buffer_bounded_fifo (E : Type) (c : nat) (es : list E) :
  (ReplayBuffer.len (fold_left (@ReplayBuffer.push E) es (ReplayBuffer.init E c)) <= c)%nat
  /\ ReplayBuffer.buffer (fold_left (@ReplayBuffer.push E) es (ReplayBuffer.init E c))
     = skipn (length es - c) es
  /\ (forall e : E,
        ReplayBuffer.len (fold_left (@ReplayBuffer.push E) es (ReplayBuffer.init E c)) = c ->
        ReplayBuffer.buffer
          (ReplayBuffer.push (fold_left (@ReplayBuffer.push E) es (ReplayBuffer.init E c)) e)
        = tl (ReplayBuffer.buffer
                (fold_left (@ReplayBuffer.push E) es (ReplayBuffer.init E c)) ++ [e]))
  /\ (forall e : E,
        (ReplayBuffer.len (fold_left (@ReplayBuffer.push E) es (ReplayBuffer.init E c)) < c)%nat ->
        ReplayBuffer.buffer
          (ReplayBuffer.push (fold_left (@ReplayBuffer.push E) es (ReplayBuffer.init E c)) e)
        = ReplayBuffer.buffer
            (fold_left (@ReplayBuffer.push E) es (ReplayBuffer.init E c)) ++ [e])
  /\ (forall e0 : E,
        length es = c ->
        ReplayBuffer.buffer
          (fold_left (@ReplayBuffer.push E) (e0 :: es) (ReplayBuffer.init E c)) = es
        /\ forall (k : nat) (draw : list nat) (batch : list E),
             ReplayBuffer.sample
               (fold_left (@ReplayBuffer.push E) (e0 :: es) (ReplayBuffer.init E c)) k draw
             = Ok batch ->
             incl batch es).
Proof.
  assert (Hlast : forall l : list E,
             ReplayBuffer.buffer (fold_left (@ReplayBuffer.push E) l (ReplayBuffer.init E c))
             = skipn (length l - c) l) by apply pushes_keep_last.
  assert (Hmax : ReplayBuffer.maxlen
                   (fold_left (@ReplayBuffer.push E) es (ReplayBuffer.init E c)) = c)
    by apply maxlen_pushes.
  assert (Hes := Hlast es).
  set (store := fold_left (@ReplayBuffer.push E) es (ReplayBuffer.init E c)) in *.
  repeat split.
  - unfold ReplayBuffer.len. rewrite Hes, length_skipn. lia.
  - exact Hes.
  - intros e Hfull. unfold ReplayBuffer.len in Hfull.
    unfold ReplayBuffer.push. simpl.
    rewrite Hmax, length_app, Hfull. simpl.
    destruct (Nat.ltb_spec c (c + 1)); [reflexivity | lia].
  - intros e Hroom. unfold ReplayBuffer.len in Hroom.
    unfold ReplayBuffer.push. simpl.
    rewrite Hmax, length_app. simpl.
    destruct (Nat.ltb_spec c (length (ReplayBuffer.buffer store) + 1));
      [lia | reflexivity].
  - rewrite (Hlast (e0 :: es)). simpl length.
    replace (S (length es) - c)%nat with 1%nat by lia. reflexivity.
  - intros k draw batch Hs x Hx.
    assert (Hfull := Hlast (e0 :: es)). simpl length in Hfull.
    replace (S (length es) - c)%nat with 1%nat in Hfull by lia.
    change (skipn 1 (e0 :: es)) with es in Hfull.
    set (full := fold_left (@ReplayBuffer.push E) (e0 :: es) (ReplayBuffer.init E c)) in *.
    unfold ReplayBuffer.sample in Hs.
    destruct (ReplayBuffer.len full <? k)%nat; [discriminate|].
    injection Hs as <-. apply In_pick in Hx.
    rewrite Hfull in Hx. exact Hx.
Qed.

Lemma replay_buffer_bounded_fifo_witness :
  ReplayBuffer.buffer
    (fold_left (@ReplayBuffer.push nat) [0; 1; 2]%nat (ReplayBuffer.init nat 2))
  = [1; 2]%nat.
Proof.
  exact (proj1 (proj2 (proj2 (proj2 (proj2
           (replay_buffer_bounded_fifo 2 [1; 2]%nat))))
         0%nat eq_refl)).
Defined.

(** ** The discrete value optimizer *)

Section LearnerFacts.
Import SchedulingOptimizer.

Variable optim_state : Type.
Variable dropout_mask : Type.
Variable gradient_step :
  list Q -> list Q -> optim_state -> Q -> list Experience -> dropout_mask
  -> update optim_state.

Let optimizer_t := optimizer_t optim_state.
Let train_step := train_step gradient_step.
Let train_steps := train_steps gradient_step.
Let update_of := update_of gradient_step.

(** A training step on a store that holds a full batch, spelled out. *)
Lemma train_step_updates (self : optimizer_t) (draw : list nat) (mask : dropout_mask) :
  (batch_size self <= ReplayBuffer.len (memory self))%nat ->
  exists (self' : optimizer_t) (metrics : list (string * Q)),
    train_step self draw mask = Ok (self', metrics)
    /\ q_network self' = new_q_network (update_of self draw mask)
    /\ target_network self'
       = _soft_update (tau self) (target_network self) (q_network self')
    /\ epsilon self' = decay_epsilon (epsilon self) (epsilon_min self) (epsilon_decay self)
    /\ epsilon_min self' = epsilon_min self
    /\ epsilon_decay self' = epsilon_decay self
    /\ tau self' = tau self
    /\ batch_size self' = batch_size self
    /\ memory self' = memory self.
Proof.
  intro Hfull.
  unfold train_step, SchedulingOptimizer.train_step, ReplayBuffer.sample.
  destruct (Nat.ltb_spec (ReplayBuffer.len (memory self)) (batch_size self)) as [Hlt|_];
    [lia|].
  simpl. eexists. eexists. split; [reflexivity|]. simpl.
  repeat split; reflexivity.
Qed.

(** A training step on a store that holds less than a batch. *)
Lemma train_step_few_experiences (self : optimizer_t) (draw : list nat)
    (mask : dropout_mask) :
  (ReplayBuffer.len (memory self) < batch_size self)%nat ->
  train_step self draw mask = Ok (self, []).
Proof.
  intro Hfew. unfold train_step, SchedulingOptimizer.train_step.
  destruct (Nat.ltb_spec (ReplayBuffer.len (memory self)) (batch_size self))
    as [_|Hge]; [reflexivity|lia].
Qed.

Lemma soft_update_length (tau : Q) (target online : list Q) :
  length (_soft_update tau target online) = length target.
Proof.
  revert online; induction target as [|t ts IH]; intros [|o os]; simpl; auto.
Qed.

Lemma soft_update_nth (tau : Q) (target online : list Q) (i : nat) (t o : Q) :
  nth_error target i = Some t ->
  nth_error online i = Some o ->
  nth_error (_soft_update tau target online) i = Some (tau * o + (1 - tau) * t)%Q.
Proof.
  revert online i; induction target as [|t' ts IH]; intros [|o' os] [|i]; simpl;
    try discriminate.
  - intros [= ->] [= ->]. reflexivity.
  - apply IH.
Qed.

Lemma soft_update_unpaired (tau : Q) (target online : list Q) (i : nat) :
  nth_error online i = None ->
  nth_error (_soft_update tau target online) i = nth_error target i.
Proof.
  revert online i; induction target as [|t' ts IH]; intros [|o' os] [|i]; simpl;
    try discriminate; auto.
Qed.

(** The exploration rate after a run of training steps on a store that
    holds a full batch. *)
Lemma train_steps_epsilon (calls : list (list nat * dropout_mask)) (self : optimizer_t) :
  (batch_size self <= ReplayBuffer.len (memory self))%nat ->
  exists self' : optimizer_t,
    train_steps self calls = Ok self'
    /\ epsilon self'
       = Nat.iter (length calls)
           (fun e => decay_epsilon e (epsilon_min self) (epsilon_decay self))
           (epsilon self)
    /\ epsilon_min self' = epsilon_min self.
Proof.
  revert self; induction calls as [|[draw mask] calls IH]; intros self Hfull.
  - exists self. repeat split.
  - destruct (train_step_updates self draw mask Hfull)
      as (self1 & metrics & Hstep & _ & _ & Heps & Hmin & Hdecay & _ & Hbatch & Hmem).
    destruct (IH self1) as (self' & Hrun & Heps' & Hmin').
    { rewrite Hbatch, Hmem. exact Hfull. }
    exists self'. split; [|split].
    + unfold train_steps, train_step in *. simpl. rewrite Hstep. simpl. exact Hrun.
    + rewrite Heps', Hmin, Hdecay, Heps. simpl length.
      rewrite Nat.iter_succ_r. reflexivity.
    + congruence.
Qed.

End LearnerFacts.

Section EpsilonFacts.
Import SchedulingOptimizer.
Local Open Scope Q_scope.

Lemma Qgtb_true (a b : Q) : Qgtb a b = true -> b < a.
Proof.
  unfold Qgtb. destruct (Qle_bool a b) eqn:Hle; [discriminate|]. intros _.
  apply Qnot_le_lt. intro H. apply Qle_bool_iff in H. congruence.
Qed.

(** One update never raises a non-negative exploration rate, for a decay
    factor of at most 1. *)
Lemma decay_epsilon_le (e m d : Q) :
  0 <= e -> d <= 1 -> decay_epsilon e m d <= e.
Proof.
  intros He Hd. unfold decay_epsilon.
  destruct (Qgtb e m); [Lqa.nra | apply Qle_refl].
Qed.

(** One update keeps the exploration rate at or above the floor times the
    decay factor. *)
Lemma decay_epsilon_floor (e m d : Q) :
  0 <= d -> m * d <= e -> m * d <= decay_epsilon e m d.
Proof.
  intros Hd He. unfold decay_epsilon.
  destruct (Qgtb e m) eqn:Hgt; [|exact He].
  apply Qgtb_true in Hgt. Lqa.nra.
Qed.

Variable optim_state : Type.
Variable dropout_mask : Type.
Variable gradient_step :
  list Q -> list Q -> optim_state -> Q -> list Experience -> dropout_mask
  -> update optim_state.

(** The exploration rate is non-increasing from one training step to the
    next, and stays at or above the floor times the decay factor. *)
Lemma train_step_epsilon_bounds (self self' : optimizer_t optim_state)
    (draw : list nat) (mask : dropout_mask) (metrics : list (string * Q)) :
  train_step gradient_step self draw mask = Ok (self', metrics) ->
  0 <= epsilon self ->
  0 <= epsilon_decay self <= 1 ->
  epsilon_min self * epsilon_decay self <= epsilon self ->
  epsilon self' <= epsilon self
  /\ epsilon_min self' * epsilon_decay self' <= epsilon self'.
Proof.
  intros Hstep Hpos [Hd0 Hd1] Hfloor.
  destruct (Nat.ltb_spec (ReplayBuffer.len (memory self)) (batch_size self))
    as [Hfew|Hfull].
  - rewrite (train_step_few_experiences gradient_step self draw mask Hfew)
      in Hstep.
    injection Hstep as <- _. split; [apply Qle_refl | exact Hfloor].
  - destruct (train_step_updates gradient_step self draw mask Hfull)
      as (s1 & m1 & Hs1 & _ & _ & Heps & Hmin & Hdecay & _).
    rewrite Hs1 in Hstep. injection Hstep as <- _.
    rewrite Heps, Hmin, Hdecay. split.
    + apply decay_epsilon_le; assumption.
    + apply decay_epsilon_floor; assumption.
Qed.

End EpsilonFacts.

(** C10.  When the store holds fewer experiences than the batch size,
    [train_step] returns the optimizer it was given, unchanged in every
    field (online and target parameters, exploration rate, store), together
    with an empty metrics dictionary. *)
Theorem train_step_below_batch_is_noop
    (optim_state dropout_mask : Type)
    (gradient_step : list Q -> list Q -> optim_state -> Q
                     -> list SchedulingOptimizer.Experience -> dropout_mask
                     -> SchedulingOptimizer.update optim_state)
    (self : SchedulingOptimizer.optimizer_t optim_state)
    (draw : list nat) (mask : dropout_mask) :
  (ReplayBuffer.len (SchedulingOptimizer.memory self)
   < SchedulingOptimizer.batch_size self)%nat ->
  SchedulingOptimizer.train_step gradient_step self draw mask = Ok (self, []).
Proof.
  apply train_step_few_experiences.
Qed.

(** C6.  A training step on a store that holds a full batch replaces the
    online parameters by the outcome of the gradient computation and every
    target parameter [t] by [tau * o + (1 - tau) * t], where [o] is the
    online parameter at the same position after that gradient computation;
    the target network keeps its shape. *)
Theorem train_step_soft_updates_target
    (optim_state dropout_mask : Type)
    (gradient_step : list Q -> list Q -> optim_state -> Q
                     -> list SchedulingOptimizer.Experience -> dropout_mask
                     -> SchedulingOptimizer.update optim_state)
    (self : SchedulingOptimizer.optimizer_t optim_state)
    (draw : list nat) (mask : dropout_mask) :
  (SchedulingOptimizer.batch_size self
   <= ReplayBuffer.len (SchedulingOptimizer.memory self))%nat ->
  exists (self' : SchedulingOptimizer.optimizer_t optim_state)
         (metrics : list (string * Q)),
    SchedulingOptimizer.train_step gradient_step self draw mask = Ok (self', metrics)
    /\ SchedulingOptimizer.q_network self'
       = SchedulingOptimizer.new_q_network
           (SchedulingOptimizer.update_of gradient_step self draw mask)
    /\ length (SchedulingOptimizer.target_network self')
       = length (SchedulingOptimizer.target_network self)
    /\ forall (i : nat) (t o : Q),
         nth_error (SchedulingOptimizer.target_network self) i = Some t ->
         nth_error (SchedulingOptimizer.q_network self') i = Some o ->
         nth_error (SchedulingOptimizer.target_network self') i
         = Some (SchedulingOptimizer.tau self * o
                 + (1 - SchedulingOptimizer.tau self) * t)%Q.
Proof.
  intro Hfull.
  destruct (train_step_updates gradient_step self draw mask Hfull)
    as (self' & metrics & Hstep & Hq & Htarget & _).
  exists self', metrics. split; [exact Hstep|]. split; [exact Hq|].
  rewrite Htarget. split.
  - apply soft_update_length.
  - intros i t o Ht Ho. apply soft_update_nth; assumption.
Qed.

(** C4 (the floor).  An optimizer whose exploration rate is 1, with decay
    0.995 and floor 0.01 as [__init__] sets them, and whose store holds a
    full batch, has after 919 training steps an exploration rate strictly
    below the floor. *)
Theorem epsilon_falls_below_floor
    (optim_state dropout_mask : Type)
    (gradient_step : list Q -> list Q -> optim_state -> Q
                     -> list SchedulingOptimizer.Experience -> dropout_mask
                     -> SchedulingOptimizer.update optim_state)
    (self : SchedulingOptimizer.optimizer_t optim_state)
    (calls : list (list nat * dropout_mask)) :
  SchedulingOptimizer.epsilon self = 1%Q ->
  SchedulingOptimizer.epsilon_decay self = 0.995%Q ->
  SchedulingOptimizer.epsilon_min self = 0.01%Q ->
  (SchedulingOptimizer.batch_size self
   <= ReplayBuffer.len (SchedulingOptimizer.memory self))%nat ->
  length calls = 919%nat ->
  exists self' : SchedulingOptimizer.optimizer_t optim_state,
    SchedulingOptimizer.train_steps gradient_step self calls = Ok self'
    /\ (SchedulingOptimizer.epsilon self' < SchedulingOptimizer.epsilon_min self')%Q.
Proof.
  intros Heps Hdecay Hmin Hfull Hlen.
  destruct (train_steps_epsilon gradient_step calls self Hfull)
    as (self' & Hrun & Heps' & Hmin').
  exists self'. split; [exact Hrun|].
  rewrite Heps', Hmin', Heps, Hdecay, Hmin, Hlen.
  vm_compute. reflexivity.
Qed.

Lemma train_step_below_batch_is_noop_witness :
  SchedulingOptimizer.train_step Samples.toy_gradient_step
    (Samples.stocked_optimizer 3) [0; 1; 2]%nat tt
  = Ok (Samples.stocked_optimizer 3, []).
Proof.
  apply train_step_below_batch_is_noop. vm_compute. lia.
Defined.

Lemma train_step_soft_updates_target_witness :
  exists (self' : SchedulingOptimizer.optimizer_t unit) (metrics : list (string * Q)),
    SchedulingOptimizer.train_step Samples.toy_gradient_step
      (Samples.stocked_optimizer 64) (seq 0 64) tt = Ok (self', metrics)
    /\ nth_error (SchedulingOptimizer.target_network self') 0
       = Some (0.005 * (1 + (64 - 1) * 0.1) + (1 - 0.005) * 0)%Q.
Proof.
  destruct (@train_step_soft_updates_target unit unit Samples.toy_gradient_step
              (Samples.stocked_optimizer 64) (seq 0 64) tt)
    as (self' & metrics & Hstep & Hq & _ & Hsoft).
  - vm_compute. lia.
  - exists self', metrics. split; [exact Hstep|].
    apply (Hsoft 0%nat 0%Q (1 + (64 - 1) * 0.1)%Q).
    + reflexivity.
    + rewrite Hq. vm_compute. reflexivity.
Defined.

Lemma epsilon_falls_below_floor_witness :
  exists self' : SchedulingOptimizer.optimizer_t unit,
    SchedulingOptimizer.train_steps Samples.toy_gradient_step
      (Samples.stocked_optimizer 64) (repeat (seq 0 64, tt) 919) = Ok self'
    /\ (SchedulingOptimizer.epsilon self' < SchedulingOptimizer.epsilon_min self')%Q.
Proof.
  apply epsilon_falls_below_floor.
  - reflexivity.
  - reflexivity.
  - reflexivity.
  - vm_compute. lia.
  - apply repeat_length.
Defined.

(** ** The scheduling decision *)

Lemma random_choice_offsets (raw : nat) :
  In (SchedulingOptimizer.random_choice raw [6; 7; 8; 9; 10]%Z) [6; 7; 8; 9; 10]%Z.
Proof.
  unfold SchedulingOptimizer.random_choice. simpl length.
  assert (Hlt : (raw mod 5 < 5)%nat) by (apply Nat.mod_upper_bound; lia).
  destruct (raw mod 5)%nat as [|[|[|[|[|k]]]]]; simpl; auto 6; lia.
Qed.

(** The delay [get_optimal_schedule] decides on. *)
Lemma get_optimal_schedule_delay
    (optim_state : Type) (self : SchedulingOptimizer.optimizer_t optim_state)
    (current_time : Datetime.datetime)
    (network_metrics system_metrics : list (string * Q))
    (transfer_queue : list (list (string * string)))
    (transfer_priority : string) (raw : nat) (r : SchedulingOptimizer.schedule) :
  SchedulingOptimizer.get_optimal_schedule self current_time network_metrics
    system_metrics transfer_queue transfer_priority raw = Ok r ->
  Datetime.micros (SchedulingOptimizer.scheduled_time r)
  = (Datetime.micros current_time
     + SchedulingOptimizer.sched_action r * Datetime.micros_per_hour)%Z
  /\ SchedulingOptimizer.delay_hours r = SchedulingOptimizer.sched_action r
  /\ (transfer_priority <> "low"%string
      \/ ~ (9 <= Datetime.hour current_time <= 17)%Z ->
      SchedulingOptimizer.sched_action r = 0%Z)
  /\ (transfer_priority = "low"%string ->
      (9 <= Datetime.hour current_time <= 17)%Z ->
      SchedulingOptimizer.sched_action r
      = SchedulingOptimizer.random_choice raw [6; 7; 8; 9; 10]%Z).
Proof.
  unfold SchedulingOptimizer.get_optimal_schedule.
  match goal with
  | |- context [Datetime.add_hours current_time ?a] => set (action := a)
  end.
  assert (Hzero : transfer_priority <> "low"%string
                  \/ ~ (9 <= Datetime.hour current_time <= 17)%Z ->
                  action = 0%Z).
  { intro Hcase. unfold action.
    destruct (String.eqb transfer_priority "critical"); [reflexivity|].
    destruct (String.eqb_spec transfer_priority "low") as [Hlow|_]; [|reflexivity].
    destruct (Z.leb_spec 9 (Datetime.hour current_time));
      destruct (Z.leb_spec (Datetime.hour current_time) 17); simpl;
      try reflexivity.
    destruct Hcase as [Hne|Hout]; [contradiction | exfalso; apply Hout; lia]. }
  assert (Hdrawn : transfer_priority = "low"%string ->
                   (9 <= Datetime.hour current_time <= 17)%Z ->
                   action = SchedulingOptimizer.random_choice raw [6; 7; 8; 9; 10]%Z).
  { intros -> Hbusy. unfold action. simpl String.eqb.
    destruct (Z.leb_spec 9 (Datetime.hour current_time)); [|lia].
    destruct (Z.leb_spec (Datetime.hour current_time) 17); [|lia].
    reflexivity. }
  clearbody action.
  unfold Datetime.add_hours.
  destruct (_ && _)%bool; cbn [bind]; [|discriminate].
  intros [= <-]. cbn. auto.
Qed.

(** C8, as the code has it.  Unless the priority is low and the current
    hour lies in 9..17, the decision does not depend on the random
    generator: the delay is 0 and the scheduled time is the current time,
    for every current time a datetime can hold.  In that one case the delay
    is whichever of 6, 7, 8, 9, 10 the generator picks. *)
Theorem get_optimal_schedule_deterministic_unless_low_in_business_hours
    (optim_state : Type) (self : SchedulingOptimizer.optimizer_t optim_state)
    (current_time : Datetime.datetime)
    (network_metrics system_metrics : list (string * Q))
    (transfer_queue : list (list (string * string)))
    (transfer_priority : string) :
  (transfer_priority <> "low"%string
   \/ ~ (9 <= Datetime.hour current_time <= 17)%Z ->
   (forall raw1 raw2 : nat,
       SchedulingOptimizer.get_optimal_schedule self current_time network_metrics
         system_metrics transfer_queue transfer_priority raw1
       = SchedulingOptimizer.get_optimal_schedule self current_time network_metrics
           system_metrics transfer_queue transfer_priority raw2)
   /\ (forall (raw : nat) (r : SchedulingOptimizer.schedule),
         SchedulingOptimizer.get_optimal_schedule self current_time network_metrics
           system_metrics transfer_queue transfer_priority raw = Ok r ->
         SchedulingOptimizer.sched_action r = 0%Z
         /\ SchedulingOptimizer.delay_hours r = 0%Z
         /\ Datetime.micros (SchedulingOptimizer.scheduled_time r)
            = Datetime.micros current_time)
   /\ ((0 <= Datetime.micros current_time <= Datetime.max_micros)%Z ->
       forall raw : nat,
       exists r : SchedulingOptimizer.schedule,
         SchedulingOptimizer.get_optimal_schedule self current_time network_metrics
           system_metrics transfer_queue transfer_priority raw = Ok r))
  /\ (transfer_priority = "low"%string ->
      (9 <= Datetime.hour current_time <= 17)%Z ->
      forall (raw : nat) (r : SchedulingOptimizer.schedule),
        SchedulingOptimizer.get_optimal_schedule self current_time network_metrics
          system_metrics transfer_queue transfer_priority raw = Ok r ->
        SchedulingOptimizer.sched_action r
        = SchedulingOptimizer.random_choice raw [6; 7; 8; 9; 10]%Z
        /\ In (SchedulingOptimizer.sched_action r) [6; 7; 8; 9; 10]%Z).
Proof.
  split.
  - intro Hcase.
    assert (Haction :
              (if String.eqb transfer_priority "critical" then 0%Z
               else if String.eqb transfer_priority "low" then
                 if ((9 <=? Datetime.hour current_time)
                     && (Datetime.hour current_time <=? 17))%Z
                 then SchedulingOptimizer.random_choice 0 [6; 7; 8; 9; 10]%Z
                 else 0%Z
               else 0%Z) = 0%Z
              /\ forall raw1 raw2 : nat,
                   SchedulingOptimizer.get_optimal_schedule self current_time
                     network_metrics system_metrics transfer_queue
                     transfer_priority raw1
                   = SchedulingOptimizer.get_optimal_schedule self current_time
                       network_metrics system_metrics transfer_queue
                       transfer_priority raw2).
    { unfold SchedulingOptimizer.get_optimal_schedule.
      destruct (String.eqb transfer_priority "critical"); [split; reflexivity|].
      destruct (String.eqb_spec transfer_priority "low") as [Hlow|Hother];
        [|split; reflexivity].
      destruct (Z.leb_spec 9 (Datetime.hour current_time));
        destruct (Z.leb_spec (Datetime.hour current_time) 17); simpl;
        try (split; reflexivity).
      destruct Hcase as [Hne|Hout]; [contradiction | exfalso; apply Hout; lia]. }
    destruct Haction as [_ Hsame].
    split; [exact Hsame|]. split.
    + intros raw r Hr.
      destruct (get_optimal_schedule_delay _ _ _ _ _ _ _ Hr)
        as (Htime & Hdelay & Hzero & _).
      specialize (Hzero Hcase). rewrite Hdelay, Hzero in *.
      split; [reflexivity|]. split; [reflexivity|]. rewrite Htime. lia.
    + intros Hrange raw.
      rewrite (Hsame raw 0%nat).
      unfold SchedulingOptimizer.get_optimal_schedule.
      match goal with
      | |- context [Datetime.add_hours current_time ?a] =>
          assert (Ha : a = 0%Z); [|rewrite Ha]
      end.
      { destruct (String.eqb transfer_priority "critical"); [reflexivity|].
        destruct (String.eqb_spec transfer_priority "low") as [Hlow|_];
          [|reflexivity].
        destruct (Z.leb_spec 9 (Datetime.hour current_time));
          destruct (Z.leb_spec (Datetime.hour current_time) 17); simpl;
          try reflexivity.
        destruct Hcase as [Hne|Hout]; [contradiction | exfalso; apply Hout; lia]. }
      unfold Datetime.add_hours.
      destruct (Z.leb_spec 0 (Datetime.micros current_time
                               + 0 * Datetime.micros_per_hour)); [|lia].
      destruct (Z.leb_spec (Datetime.micros current_time
                            + 0 * Datetime.micros_per_hour) Datetime.max_micros);
        [|lia].
      cbn [andb bind]. eexists. reflexivity.
  - intros Hlow Hbusy raw r Hr.
    destruct (get_optimal_schedule_delay _ _ _ _ _ _ _ Hr) as (_ & _ & _ & Hdrawn).
    rewrite (Hdrawn Hlow Hbusy). split; [reflexivity | apply random_choice_offsets].
Qed.

Lemma get_optimal_schedule_deterministic_unless_low_in_business_hours_witness :
  (SchedulingOptimizer.get_optimal_schedule Samples.fresh_optimizer Samples.noon
     [] [] [] "medium" 0
   = SchedulingOptimizer.get_optimal_schedule Samples.fresh_optimizer Samples.noon
       [] [] [] "medium" 1)
  /\ exists r : SchedulingOptimizer.schedule,
       SchedulingOptimizer.get_optimal_schedule Samples.fresh_optimizer Samples.noon
         [] [] [] "medium" 0 = Ok r
       /\ SchedulingOptimizer.sched_action r = 0%Z
       /\ Datetime.micros (SchedulingOptimizer.scheduled_time r)
          = Datetime.micros Samples.noon.
Proof.
  destruct (proj1 (get_optimal_schedule_deterministic_unless_low_in_business_hours
                     Samples.fresh_optimizer Samples.noon [] [] [] "medium"))
    as (Hsame & Hzero & Hret).
  - left. discriminate.
  - split; [exact (Hsame 0%nat 1%nat)|].
    destruct (Hret ltac:(vm_compute; split; discriminate) 0%nat) as [r Hr].
    exists r. split; [exact Hr|].
    destruct (Hzero 0%nat r Hr) as (H0 & _ & Ht). split; [exact H0 | exact Ht].
Defined.

(** C8, as stated, fails: at noon, for a low-priority transfer, two calls
    on the same arguments return the delays 6 and 7, and the times 18:00
    and 19:00, when the generator picks differently. *)
Lemma get_optimal_schedule_two_answers :
  exists r1 r2 : SchedulingOptimizer.schedule,
    SchedulingOptimizer.get_optimal_schedule Samples.fresh_optimizer Samples.noon
      [] [] [] "low" 0 = Ok r1
    /\ SchedulingOptimizer.get_optimal_schedule Samples.fresh_optimizer Samples.noon
         [] [] [] "low" 1 = Ok r2
    /\ SchedulingOptimizer.sched_action r1 = 6%Z
    /\ SchedulingOptimizer.sched_action r2 = 7%Z
    /\ Datetime.strftime_HM (SchedulingOptimizer.scheduled_time r1) = "18:00"%string
    /\ Datetime.strftime_HM (SchedulingOptimizer.scheduled_time r2) = "19:00"%string
    /\ SchedulingOptimizer.scheduled_time r1 <> SchedulingOptimizer.scheduled_time r2.
Proof.
  eexists. eexists.
  split; [vm_compute; reflexivity|].
  split; [vm_compute; reflexivity|].
  repeat split; try reflexivity.
  vm_compute. discriminate.
Qed.

(** ** Sums and numeric floats *)

Section NumericFacts.
Import NumPy.
Local Open Scope R_scope.

Let sum := ResourceAllocator.sum.

Lemma fold_left_Rplus_acc (l : list R) (a : R) :
  fold_left Rplus l a = a + fold_left Rplus l 0.
Proof.
  revert a; induction l as [|x l IH]; intro a; simpl.
  - lra.
  - rewrite (IH (a + x)), (IH (0 + x)). lra.
Qed.

Lemma sum_cons (x : R) (l : list R) : sum (x :: l) = x + sum l.
Proof.
  unfold sum, ResourceAllocator.sum. simpl.
  rewrite fold_left_Rplus_acc. lra.
Qed.

Lemma sum_nil : sum [] = 0.
Proof. reflexivity. Qed.

Lemma sum_nonneg (l : list R) : Forall (fun x => 0 <= x) l -> 0 <= sum l.
Proof.
  induction 1 as [|x l Hx _ IH].
  - rewrite sum_nil. lra.
  - rewrite sum_cons. lra.
Qed.

Lemma sum_ge_member (l : list R) (x : R) :
  Forall (fun y => 0 <= y) l -> In x l -> x <= sum l.
Proof.
  induction 1 as [|y l Hy Hl IH]; simpl; [contradiction|].
  rewrite sum_cons. pose proof (sum_nonneg Hl) as Hs.
  intros [->|Hin]; [lra|]. specialize (IH Hin). lra.
Qed.

Lemma sum_all_zero (l : list R) : Forall (fun y => y = 0) l -> sum l = 0.
Proof.
  induction 1 as [|y l Hy _ IH]; [reflexivity|].
  rewrite sum_cons. lra.
Qed.

Lemma sum_map_div (l : list R) (s : R) :
  sum (map (fun x => x / s) l) = sum l / s.
Proof.
  induction l as [|x l IH]; simpl.
  - rewrite sum_nil. unfold Rdiv. lra.
  - rewrite !sum_cons, IH. unfold Rdiv. lra.
Qed.

Lemma fold_left_fadd_num (l : list R) (a : R) :
  fold_left fadd (map Num l) (Num a) = Num (fold_left Rplus l a).
Proof.
  revert a; induction l as [|x l IH]; intro a; simpl; auto.
Qed.

Lemma np_sum_num (l : list R) : np_sum (map Num l) = Num (sum l).
Proof. apply fold_left_fadd_num. Qed.

Lemma fdiv_num (x y : R) : y <> 0 -> fdiv (Num x) (Num y) = Ok (Num (x / y)).
Proof.
  intro Hy. unfold fdiv. destruct (Req_dec_T y 0); [contradiction|reflexivity].
Qed.

Lemma map_result_fdiv_num (l : list R) (s : R) :
  s <> 0 ->
  map_result (fun a => fdiv a (Num s)) (map Num l)
  = Ok (map Num (map (fun x => x / s) l)).
Proof.
  intro Hs. induction l as [|x l IH]; cbn [map map_result]; [reflexivity|].
  rewrite (fdiv_num x Hs). cbn [bind]. rewrite IH. reflexivity.
Qed.

Lemma clip_action_num (action : list R) (n : nat) :
  ResourceAllocationEnv.clip_action (map Num action) n
  = map Num (map (fun x => Rmin (Rmax x 0) 1) (firstn n action)).
Proof.
  unfold ResourceAllocationEnv.clip_action.
  rewrite firstn_map, !map_map. reflexivity.
Qed.

Lemma clip_in_unit (x : R) : 0 <= Rmin (Rmax x 0) 1 <= 1.
Proof.
  unfold Rmin, Rmax.
  destruct (Rle_dec x 0); destruct (Rle_dec _ 1); lra.
Qed.

Lemma clipped_in_unit (action : list R) :
  Forall (fun x => 0 <= x <= 1) (map (fun x => Rmin (Rmax x 0) 1) action).
Proof.
  rewrite Forall_map. apply Forall_forall. intros x _. apply clip_in_unit.
Qed.

(** Normalizing a vector of numbers: the clipped vector when its sum is
    not positive, the clipped vector over its sum otherwise. *)
Lemma normalize_action_num (action : list R) (n : nat) :
  ResourceAllocationEnv.normalize_action (map Num action) n
  = Ok (map Num
          (if Rlt_dec 0 (sum (map (fun x => Rmin (Rmax x 0) 1) (firstn n action)))
           then map (fun x =>
                       x / sum (map (fun x => Rmin (Rmax x 0) 1) (firstn n action)))
                  (map (fun x => Rmin (Rmax x 0) 1) (firstn n action))
           else map (fun x => Rmin (Rmax x 0) 1) (firstn n action))).
Proof.
  unfold ResourceAllocationEnv.normalize_action.
  rewrite clip_action_num, np_sum_num. simpl fgt. fold sum.
  destruct (Rlt_dec 0 _) as [Hpos|Hnot]; [|reflexivity].
  apply map_result_fdiv_num. lra.
Qed.

Lemma map_result_fdiv_total (l : list fl) (s : R) :
  s <> 0 -> exists w : list fl, map_result (fun a => fdiv a (Num s)) l = Ok w.
Proof.
  intro Hs. induction l as [|a l [w IH]]; cbn [map_result].
  - eauto.
  - rewrite IH. destruct a as [|x]; cbn [fdiv bind]; [eauto|].
    destruct (Req_dec_T s 0); [contradiction|]. cbn [bind]. eauto.
Qed.

(** The normalization divides by a positive sum or not at all, whatever
    the vector holds. *)
Lemma normalize_action_total (action : list fl) (n : nat) :
  exists w : list fl, ResourceAllocationEnv.normalize_action action n = Ok w.
Proof.
  unfold ResourceAllocationEnv.normalize_action.
  destruct (np_sum (ResourceAllocationEnv.clip_action action n)) as [|s];
    simpl fgt; [eauto|].
  destruct (Rlt_dec 0 s) as [Hpos|Hnot]; [|eauto].
  apply map_result_fdiv_total. lra.
Qed.

End NumericFacts.

(** ** The environment on numeric actions *)

Section EnvFacts.
Import NumPy ResourceAllocationEnv.
Local Open Scope R_scope.

Let sum := ResourceAllocator.sum.
Let mean := ResourceAllocator.mean.
Let std := ResourceAllocator.std.

Lemma INR_length_nonzero (A : Type) (l : list A) : l <> [] -> INR (length l) <> 0.
Proof.
  destruct l as [|x l]; [congruence|]. intros _.
  apply not_0_INR. simpl. lia.
Qed.

Lemma np_mean_num (l : list R) :
  l <> [] -> np_mean (map Num l) = Ok (Num (mean l)).
Proof.
  intro Hl. unfold np_mean. rewrite np_sum_num, length_map.
  apply fdiv_num. apply INR_length_nonzero. exact Hl.
Qed.

Lemma mean_nonneg (l : list R) : Forall (fun x => 0 <= x) l -> 0 <= mean l.
Proof.
  intro Hl. unfold mean, ResourceAllocator.mean.
  pose proof (sum_nonneg Hl) as Hs. pose proof (pos_INR (length l)) as Hn.
  destruct (Req_dec_T (INR (length l)) 0) as [H0|Hne].
  - rewrite H0. unfold Rdiv. rewrite Rinv_0. lra.
  - apply Rmult_le_pos; [exact Hs|].
    apply Rlt_le, Rinv_0_lt_compat. lra.
Qed.

Lemma squares_nonneg (l : list R) (m : R) :
  Forall (fun x => 0 <= x) (map (fun x => (x - m) * (x - m)) l).
Proof.
  rewrite Forall_map. apply Forall_forall. intros x _. exact (Rle_0_sqr (x - m)).
Qed.

Lemma np_std_num (l : list R) :
  l <> [] -> np_std (map Num l) = Ok (Num (std l)).
Proof.
  intro Hl. unfold np_std. rewrite (np_mean_num Hl). cbn [bind].
  rewrite map_map. cbn [fsub fmul].
  rewrite <- (map_map (fun x => (x - mean l) * (x - mean l)) Num).
  rewrite np_mean_num by (destruct l; [congruence | discriminate]).
  cbn [bind fsqrt].
  destruct (Rlt_dec _ 0) as [Hneg|_]; [|reflexivity].
  pose proof (mean_nonneg (squares_nonneg l (mean l))). unfold mean in *. lra.
Qed.

Lemma skipn_cons_nth (A : Type) (i : nat) (l : list A) (x : A) (t : list A) :
  skipn i l = x :: t -> nth_error l i = Some x /\ skipn (S i) l = t.
Proof.
  revert l; induction i as [|i IH]; intros [|y l] H; simpl in H;
    try discriminate H.
  - injection H as -> ->. auto.
  - destruct (IH l H) as [H1 H2]. split; [exact H1 | exact H2].
Qed.

(** The reward of an agent whose entries are numbers is a number. *)
Lemma agent_reward_num (a : agent) (b t s : R) :
  current_bandwidth a = Num b ->
  throughput a = Num t ->
  success_rate a = Num s ->
  exists rr : R, _calculate_agent_reward a = Num rr.
Proof.
  intros Hb Ht Hs. unfold _calculate_agent_reward.
  rewrite Hb, Ht, Hs. cbn [fdiv_lit fadd fmul fge].
  destruct (Rle_dec _ _); cbn [fadd]; eauto.
Qed.

(** One agent, one numeric weight: the allocation is the weight times the
    total bandwidth and the agent's reward is a number. *)
Lemma allocate_agent_num (e : env) (x : R) (a : agent) :
  bandwidth_demand a <> 0 ->
  exists (a' : agent) (rr : R),
    allocate_agent e (Num x) a = Ok a'
    /\ current_bandwidth a' = Num (x * total_bandwidth_mbps e)
    /\ _calculate_agent_reward a' = Num rr.
Proof.
  intro Hd. unfold allocate_agent. cbn [fmul].
  rewrite (fdiv_num _ Hd). cbn [bind].
  set (ratio := x * total_bandwidth_mbps e / bandwidth_demand a).
  assert (Hsat : exists s, pymin (Num ratio) (Num 1) = Num s).
  { unfold pymin, flt, fgt. destruct (Rlt_dec _ _); eauto. }
  destruct Hsat as [s Hsat]. rewrite Hsat. cbn [fmul].
  eexists.
  destruct (@agent_reward_num
              {| id := id a;
                 agent_priority := agent_priority a;
                 bandwidth_demand := bandwidth_demand a;
                 cpu_demand := cpu_demand a;
                 memory_demand := memory_demand a;
                 file_size_gb := file_size_gb a;
                 current_bandwidth := Num (x * total_bandwidth_mbps e);
                 current_cpu :=
                   pymin (Num (cpu_demand a * ratio)) (Num (max_cpu_cores e));
                 current_memory :=
                   pymin (Num (memory_demand a * ratio)) (Num (max_memory_gb e));
                 throughput := Num (x * total_bandwidth_mbps e * s * 0.8);
                 success_rate := Num s |}
              (x * total_bandwidth_mbps e) (x * total_bandwidth_mbps e * s * 0.8) s
              eq_refl eq_refl eq_refl) as [rr Hrr].
  exists rr. split; [reflexivity|]. split; [reflexivity | exact Hrr].
Qed.

(** The loop of [step] on numeric weights that cover the agents. *)
Lemma step_agents_num (e : env) (ags : list agent) :
  forall (ws : list fl) (tail : list R) (i : nat) (r0 : R),
    skipn i ws = map Num tail ->
    (length ags <= length tail)%nat ->
    Forall (fun a => bandwidth_demand a <> 0) ags ->
    exists (ags' : list agent) (r : R),
      step_agents e ws i ags (Num r0) = Ok (ags', Num r)
      /\ map current_bandwidth ags'
         = map (fun x => Num (x * total_bandwidth_mbps e)) (firstn (length ags) tail).
Proof.
  induction ags as [|a rest IH]; intros ws tail i r0 Hskip Hlen Hdem.
  - exists [], r0. split; reflexivity.
  - destruct tail as [|x tail]; [simpl in Hlen; lia|].
    destruct (@skipn_cons_nth _ i ws (Num x) (map Num tail) Hskip) as [Hnth Hrest].
    inversion Hdem as [|? ? Ha Hdem']; subst.
    destruct (@allocate_agent_num e x a Ha) as (a' & rr & Halloc & Hbw & Hrew).
    destruct (IH ws tail (S i) (r0 + rr) Hrest) as (rest' & r & Hloop & Hmap);
      [simpl in Hlen; lia | exact Hdem' |].
    exists (a' :: rest'), r. split.
    + cbn [step_agents]. unfold getitem. rewrite Hnth. cbn [bind].
      rewrite Halloc. cbn [bind]. rewrite Hrew. cbn [fadd].
      rewrite Hloop. reflexivity.
    + cbn [length firstn map]. rewrite Hbw, Hmap. reflexivity.
Qed.

Lemma over_allocation_num (e : env) (ags : list agent) (bs : list R) (r : R) :
  map current_bandwidth ags = map Num bs ->
  exists r' : R, over_allocation e ags (Num r) = Num r'.
Proof.
  intro Hbs. unfold over_allocation. rewrite Hbs, np_sum_num. cbn [fgt].
  destruct (Rlt_dec _ _); cbn [fsub]; eauto.
Qed.

Lemma fairness_num (ags : list agent) (bs : list R) (r : R) :
  map current_bandwidth ags = map Num bs ->
  exists r' : R, fairness ags (Num r) = Ok (Num r').
Proof.
  intro Hbs. unfold fairness.
  destruct (Nat.ltb_spec 1 (length ags)) as [Hmany|_]; [|eauto].
  assert (Hne : bs <> []).
  { intros ->. apply (f_equal (@length fl)) in Hbs.
    rewrite length_map in Hbs. simpl in Hbs. lia. }
  rewrite Hbs, (np_mean_num Hne). cbn [bind fgt].
  destruct (Rlt_dec 0 (mean bs)) as [Hpos|_].
  - rewrite (np_std_num Hne). cbn [bind].
    rewrite fdiv_num by lra. cbn [bind fmul fsub]. eauto.
  - cbn [bind fmul fsub]. eauto.
Qed.

Lemma skipn_nil_nth (A : Type) (i : nat) (l : list A) :
  skipn i l = [] -> nth_error l i = None.
Proof.
  intro H. apply nth_error_None.
  apply (f_equal (@length A)) in H. rewrite length_skipn in H. simpl in H. lia.
Qed.

(** The loop of [step] on numeric weights that run out before the agents
    do. *)
Lemma step_agents_short (e : env) (ags : list agent) :
  forall (ws : list fl) (tail : list R) (i : nat) (r0 : R),
    skipn i ws = map Num tail ->
    (length tail < length ags)%nat ->
    Forall (fun a => bandwidth_demand a <> 0) ags ->
    step_agents e ws i ags (Num r0) = Raise IndexError.
Proof.
  induction ags as [|a rest IH]; intros ws tail i r0 Hskip Hlen Hdem.
  - simpl in Hlen. lia.
  - inversion Hdem as [|? ? Ha Hdem']; subst. cbn [step_agents].
    destruct tail as [|x tail].
    + unfold getitem. rewrite (skipn_nil_nth _ _ Hskip). reflexivity.
    + destruct (@skipn_cons_nth _ i ws (Num x) (map Num tail) Hskip) as [Hnth Hrest].
      destruct (@allocate_agent_num e x a Ha) as (a' & rr & Halloc & _ & Hrew).
      unfold getitem. rewrite Hnth. cbn [bind]. rewrite Halloc. cbn [bind].
      rewrite Hrew. cbn [fadd].
      rewrite (IH ws tail (S i) (r0 + rr) Hrest); [reflexivity | | exact Hdem'].
      simpl in Hlen. lia.
Qed.

Lemma flat_map_length_const (A B : Type) (f : A -> list B) (k : nat) (l : list A) :
  (forall x, length (f x) = k) -> length (flat_map f l) = (k * length l)%nat.
Proof.
  intro Hf. induction l as [|x l IH]; simpl; [lia|].
  rewrite length_app, Hf, IH. lia.
Qed.

(** The observation of an observable environment can be taken: one entry
    for the agent count, three for the demands, five for each of the
    [max_agents] slots and four system metrics. *)
Lemma get_observation_returns (e : env) (d : observation_draws) :
  observable e ->
  exists obs : list fl,
    _get_observation e d = Ok obs
    /\ length obs = (8 + 5 * max_agents e)%nat.
Proof.
  intros (Hn & Hb & Hc & Hm). unfold _get_observation.
  destruct (Nat.eqb_spec (max_agents e) 0) as [H0|_]; [contradiction|].
  destruct (Req_dec_T (total_bandwidth_mbps e) 0) as [H0|_]; [contradiction|].
  destruct (Req_dec_T (max_cpu_cores e) 0) as [H0|_]; [contradiction|].
  destruct (Req_dec_T (max_memory_gb e) 0) as [H0|_]; [contradiction|].
  eexists. split; [reflexivity|].
  rewrite !length_app.
  rewrite (@flat_map_length_const _ _ (slot_observation e) 5%nat).
  - rewrite length_seq. simpl. lia.
  - intro i. unfold slot_observation. destruct (nth_error (agents e) i); reflexivity.
Qed.

(** The observation of any other environment raises. *)
Lemma get_observation_raises (e : env) (d : observation_draws) :
  ~ observable e -> _get_observation e d = Raise ZeroDivisionError.
Proof.
  intro Hno. unfold _get_observation.
  destruct (Nat.eqb_spec (max_agents e) 0) as [_|Hn]; [reflexivity|].
  destruct (Req_dec_T (total_bandwidth_mbps e) 0) as [_|Hb]; [reflexivity|].
  destruct (Req_dec_T (max_cpu_cores e) 0) as [_|Hc]; [reflexivity|].
  destruct (Req_dec_T (max_memory_gb e) 0) as [_|Hm]; [reflexivity|].
  exfalso. apply Hno. repeat split; assumption.
Qed.


(** [step] on a vector of numbers that covers the agents of an observable
    environment: it returns, the allocations are the normalized weights
    times the total bandwidth, and the reward is a number. *)
Lemma step_num (e : env) (d : observation_draws) (action w : list R) :
  normalize_action (map Num action) (length (agents e)) = Ok (map Num w) ->
  (length (agents e) <= length w)%nat ->
  Forall (fun a => bandwidth_demand a <> 0) (agents e) ->
  observable e ->
  exists (e' : env) (obs : list fl) (r : R) (done : bool),
    step e (map Num action) d = Ok (e', obs, Num r, done)
    /\ map current_bandwidth (agents e')
       = map (fun x => Num (x * total_bandwidth_mbps e))
           (firstn (length (agents e)) w).
Proof.
  intros Hnorm Hlen Hdem Hobs. unfold step. rewrite Hnorm. cbn [bind].
  destruct (@step_agents_num e (agents e) (map Num w) w 0%nat 0 eq_refl Hlen Hdem)
    as (ags' & r1 & Hloop & Hmap).
  rewrite Hloop. cbn [bind].
  rewrite <- (map_map (fun x => x * total_bandwidth_mbps e) Num) in Hmap.
  destruct (@over_allocation_num e ags' _ r1 Hmap) as [r2 Hover]. rewrite Hover.
  destruct (@fairness_num ags' _ r2 Hmap) as [r3 Hfair]. rewrite Hfair. cbn [bind].
  cbv zeta.
  destruct (@get_observation_returns (stepped e ags') d Hobs) as (obs & Hget & _).
  rewrite Hget. cbn [bind].
  eexists. exists obs, r3. eexists. split; [reflexivity|].
  cbn [agents stepped]. rewrite Hmap, map_map. reflexivity.
Qed.

(** *** nan in the action *)

Lemma fold_fadd_nan (l : list fl) : fold_left fadd l NaN = NaN.
Proof. induction l as [|x l IH]; [reflexivity | exact IH]. Qed.

Lemma fadd_nan_r (a : fl) : fadd a NaN = NaN.
Proof. destruct a; reflexivity. Qed.

Lemma fold_fadd_in_nan (l : list fl) :
  In NaN l -> forall acc : fl, fold_left fadd l acc = NaN.
Proof.
  induction l as [|x l IH]; intros Hin acc; [contradiction|].
  cbn [fold_left]. destruct Hin as [->|Hin].
  - rewrite fadd_nan_r. apply fold_fadd_nan.
  - apply IH. exact Hin.
Qed.

(** [np.sum] of an array that holds a nan is nan. *)
Lemma np_sum_nan (l : list fl) : In NaN l -> np_sum l = NaN.
Proof. intro Hin. unfold np_sum. apply fold_fadd_in_nan. exact Hin. Qed.

(** A vector with a nan among the components [step] keeps is clipped and
    not rescaled: nan is not greater than zero. *)
Lemma normalize_action_nan (action : list fl) (n : nat) :
  In NaN (firstn n action) ->
  normalize_action action n = Ok (clip_action action n).
Proof.
  intro Hin. unfold normalize_action.
  rewrite np_sum_nan; [reflexivity|].
  unfold clip_action. change NaN with (clip01 NaN). apply in_map. exact Hin.
Qed.

(** The loop body on a nan weight: the allocation and the reward of the
    agent are nan, whatever its demand. *)
Lemma allocate_agent_nan (e : env) (a : agent) :
  exists a' : agent,
    allocate_agent e NaN a = Ok a'
    /\ current_bandwidth a' = NaN
    /\ _calculate_agent_reward a' = NaN.
Proof. eexists. split; [reflexivity|]. split; reflexivity. Qed.

(** The loop of [step] on weights that cover the agents, nan or not: every
    allocation is the weight times the total bandwidth, and the summed
    reward is nan as soon as one of the weights is. *)
Lemma step_agents_fl (e : env) (ags : list agent) :
  forall (ws tail : list fl) (i : nat) (r0 : fl),
    skipn i ws = tail ->
    (length ags <= length tail)%nat ->
    Forall (fun a => bandwidth_demand a <> 0) ags ->
    exists (ags' : list agent) (r : fl),
      step_agents e ws i ags r0 = Ok (ags', r)
      /\ map current_bandwidth ags'
         = map (fun w => fmul w (Num (total_bandwidth_mbps e)))
             (firstn (length ags) tail)
      /\ (r0 = NaN \/ In NaN (firstn (length ags) tail) -> r = NaN).
Proof.
  induction ags as [|a rest IH]; intros ws tail i r0 Hskip Hlen Hdem.
  - exists [], r0. split; [reflexivity|]. split; [reflexivity|].
    intros [H|H]; [exact H | contradiction].
  - destruct tail as [|x tail]; [simpl in Hlen; lia|].
    inversion Hdem as [|? ? Ha Hdem']; subst.
    destruct (@skipn_cons_nth _ i ws x tail Hskip) as [Hnth Hrest].
    assert (Hbody : exists a' : agent,
               allocate_agent e x a = Ok a'
               /\ current_bandwidth a' = fmul x (Num (total_bandwidth_mbps e))
               /\ (x = NaN -> _calculate_agent_reward a' = NaN)).
    { destruct x as [|x].
      - destruct (allocate_agent_nan e a) as (a' & H1 & H2 & H3).
        exists a'. split; [exact H1|]. split; [exact H2|]. intros _. exact H3.
      - destruct (@allocate_agent_num e x a Ha) as (a' & rr & H1 & H2 & _).
        exists a'. split; [exact H1|]. split; [exact H2|]. discriminate. }
    destruct Hbody as (a' & Halloc & Hbw & Hrew).
    destruct (IH ws tail (S i) (fadd r0 (_calculate_agent_reward a')) Hrest)
      as (rest' & r & Hloop & Hmap & Hnan);
      [simpl in Hlen; lia | exact Hdem' |].
    exists (a' :: rest'), r. split; [|split].
    + cbn [step_agents]. unfold getitem. rewrite Hnth. cbn [bind].
      rewrite Halloc. cbn [bind]. rewrite Hloop. reflexivity.
    + cbn [length firstn map]. rewrite Hbw, Hmap. reflexivity.
    + cbn [length firstn]. intros [->|[->|Hin]]; apply Hnan.
      * left. reflexivity.
      * left. rewrite (Hrew eq_refl). apply fadd_nan_r.
      * right. exact Hin.
Qed.

Lemma over_allocation_nan (e : env) (ags : list agent) (r : fl) :
  In NaN (map current_bandwidth ags) -> over_allocation e ags r = r.
Proof.
  intro Hin. unfold over_allocation. rewrite (np_sum_nan _ Hin). reflexivity.
Qed.

Lemma fairness_nan (ags : list agent) :
  In NaN (map current_bandwidth ags) -> fairness ags NaN = Ok NaN.
Proof.
  intro Hin. unfold fairness.
  destruct (1 <? length ags)%nat; [|reflexivity].
  unfold np_mean. rewrite (np_sum_nan _ Hin). reflexivity.
Qed.

(** A nan at a position [step] keeps is still there after the clipping. *)
Lemma clip_action_nan (action : list fl) (n i : nat) :
  (i < n)%nat ->
  nth_error action i = Some NaN ->
  nth_error (clip_action action n) i = Some NaN.
Proof.
  intros Hi Hnth. unfold clip_action.
  assert (Hcut : nth_error (firstn n action) i = Some NaN).
  { rewrite nth_error_firstn.
    destruct (Nat.ltb_spec i n) as [_|Hge]; [exact Hnth | lia]. }
  exact (map_nth_error clip01 _ _ Hcut).
Qed.

(** [step] on a vector that covers the agents of an observable environment
    and holds a nan at the position of one of them: the step returns, the
    allocation of that agent is nan and so is the reward. *)
Lemma step_nan (e : env) (d : observation_draws) (action : list fl) (i : nat) :
  (length (agents e) <= length action)%nat ->
  (i < length (agents e))%nat ->
  nth_error action i = Some NaN ->
  Forall (fun a => bandwidth_demand a <> 0) (agents e) ->
  observable e ->
  exists (e' : env) (obs : list fl) (done : bool),
    step e action d = Ok (e', obs, NaN, done)
    /\ nth_error (map current_bandwidth (agents e')) i = Some NaN.
Proof.
  intros Hcover Hi Hnth Hdem Hobs.
  set (n := length (agents e)) in *.
  assert (Hcut : nth_error (firstn n action) i = Some NaN).
  { rewrite nth_error_firstn.
    destruct (Nat.ltb_spec i n) as [_|Hge]; [exact Hnth | lia]. }
  assert (Hclip : nth_error (clip_action action n) i = Some NaN).
  { unfold clip_action. exact (map_nth_error clip01 _ _ Hcut). }
  assert (Hlen : length (clip_action action n) = n).
  { unfold clip_action. rewrite length_map, length_firstn. lia. }
  unfold step. fold n.
  rewrite (normalize_action_nan action n (nth_error_In _ _ Hcut)). cbn [bind].
  destruct (@step_agents_fl e (agents e) (clip_action action n) _ 0%nat (Num 0)
              eq_refl) as (ags' & r & Hloop & Hmap & Hnan);
    [fold n; cbn [skipn]; lia | exact Hdem |].
  cbn [skipn] in Hmap, Hnan. fold n in Hmap, Hnan.
  rewrite firstn_all2 in Hmap, Hnan by lia.
  rewrite Hloop. cbn [bind].
  assert (Hbw : nth_error (map current_bandwidth ags') i = Some NaN).
  { rewrite Hmap.
    exact (map_nth_error (fun w => fmul w (Num (total_bandwidth_mbps e))) _ _ Hclip). }
  rewrite (Hnan (or_intror (nth_error_In _ _ Hclip))).
  rewrite (over_allocation_nan e ags' _ (nth_error_In _ _ Hbw)).
  rewrite (fairness_nan ags' (nth_error_In _ _ Hbw)). cbn [bind]. cbv zeta.
  destruct (@get_observation_returns (stepped e ags') d Hobs) as (obs & Hget & _).
  rewrite Hget. cbn [bind].
  eexists. exists obs. eexists. split; [reflexivity | exact Hbw].
Qed.

End EnvFacts.

Section WeightFacts.
Local Open Scope R_scope.

Lemma clip_id (x : R) : 0 <= x <= 1 -> Rmin (Rmax x 0) 1 = x.
Proof.
  intro Hx. unfold Rmin, Rmax.
  destruct (Rle_dec x 0); destruct (Rle_dec _ 1); lra.
Qed.

(** Non-negative numbers over their positive sum lie in [0,1]. *)
Lemma share_in_unit (l : list R) :
  Forall (fun x => 0 <= x) l ->
  0 < ResourceAllocator.sum l ->
  Forall (fun x => 0 <= x <= 1) (map (fun x => x / ResourceAllocator.sum l) l).
Proof.
  intros Hpos Hsum. rewrite Forall_map. apply Forall_forall. intros x Hx.
  pose proof (@sum_ge_member l x Hpos Hx) as Hle.
  rewrite Forall_forall in Hpos. specialize (Hpos x Hx). cbv beta in Hpos.
  split.
  - apply Rmult_le_pos; [exact Hpos|].
    apply Rlt_le, Rinv_0_lt_compat. exact Hsum.
  - apply (Rmult_le_reg_r (ResourceAllocator.sum l)); [exact Hsum|].
    unfold Rdiv. rewrite Rmult_assoc, Rinv_l by lra. lra.
Qed.

(** The weights [step] computes from a vector of numbers: as many as the
    cut vector has components, each in [0,1]. *)
Lemma normalized_weights (action : list R) (n : nat) :
  exists w : list R,
    ResourceAllocationEnv.normalize_action (map NumPy.Num action) n
    = Ok (map NumPy.Num w)
    /\ length w = Nat.min n (length action)
    /\ Forall (fun x => 0 <= x <= 1) w.
Proof.
  eexists. split; [apply normalize_action_num|].
  pose proof (clipped_in_unit (firstn n action)) as Hunit.
  destruct (Rlt_dec 0 _) as [Hsum|_].
  - split; [rewrite !length_map; apply length_firstn|].
    apply share_in_unit; [|exact Hsum].
    eapply Forall_impl; [|exact Hunit]. cbv beta. intros x Hx. lra.
  - split; [rewrite length_map; apply length_firstn | exact Hunit].
Qed.

End WeightFacts.

Lemma sample_envs_observable :
  ResourceAllocationEnv.observable Samples.three_agent_env
  /\ ResourceAllocationEnv.observable Samples.one_agent_env.
Proof.
  split; unfold ResourceAllocationEnv.observable; simpl;
    (split; [discriminate|]); repeat split; lra.
Qed.

(** C1, as the code has it.  [step] on a vector of numbers, in an
    environment with [n] agents: the vector is cut to its first [n]
    components and each is clipped to [0,1]; the normalization returns
    without dividing by zero (on every vector, nan included); when the
    clipped components have a positive sum the weights are the clipped
    components over that sum, they add up to 1 and each lies in [0,1]; when
    they are all zero the weights are those zeros.  When moreover the vector
    has a component for every agent, no demand is zero and the environment
    is observable, the step returns and hands every agent its weight times
    the total bandwidth: zero for every agent when the clipped components
    are all zero. *)
Theorem step_normalizes_action
    (e : ResourceAllocationEnv.env) (d : ResourceAllocationEnv.observation_draws)
    (action clipped : list R) :
  clipped = map (fun x => Rmin (Rmax x 0) 1)
              (firstn (length (ResourceAllocationEnv.agents e)) action) ->
  ResourceAllocationEnv.clip_action (map NumPy.Num action)
    (length (ResourceAllocationEnv.agents e)) = map NumPy.Num clipped
  /\ length clipped = Nat.min (length (ResourceAllocationEnv.agents e)) (length action)
  /\ Forall (fun x => 0 <= x <= 1)%R clipped
  /\ (forall raw : list NumPy.fl,
        exists w : list NumPy.fl,
          ResourceAllocationEnv.normalize_action raw
            (length (ResourceAllocationEnv.agents e)) = Ok w)
  /\ exists w : list R,
       ResourceAllocationEnv.normalize_action (map NumPy.Num action)
         (length (ResourceAllocationEnv.agents e)) = Ok (map NumPy.Num w)
       /\ ((0 < ResourceAllocator.sum clipped)%R ->
           w = map (fun x => x / ResourceAllocator.sum clipped)%R clipped
           /\ ResourceAllocator.sum w = 1%R
           /\ Forall (fun x => 0 <= x <= 1)%R w)
       /\ (Forall (fun x => x = 0%R) clipped -> w = clipped)
       /\ ((length (ResourceAllocationEnv.agents e) <= length action)%nat ->
           Forall (fun a => ResourceAllocationEnv.bandwidth_demand a <> 0%R)
             (ResourceAllocationEnv.agents e) ->
           ResourceAllocationEnv.observable e ->
           exists (e' : ResourceAllocationEnv.env) (obs : list NumPy.fl) (r : R)
                  (done : bool),
             ResourceAllocationEnv.step e (map NumPy.Num action) d
             = Ok (e', obs, NumPy.Num r, done)
             /\ map ResourceAllocationEnv.current_bandwidth
                  (ResourceAllocationEnv.agents e')
                = map (fun x => NumPy.Num
                                  (x * ResourceAllocationEnv.total_bandwidth_mbps e))
                    w
             /\ (Forall (fun x => x = 0%R) clipped ->
                 Forall (fun a => ResourceAllocationEnv.current_bandwidth a
                                  = NumPy.Num 0)
                   (ResourceAllocationEnv.agents e'))).
Proof.
  intros ->.
  set (n := length (ResourceAllocationEnv.agents e)).
  set (clipped := map (fun x => Rmin (Rmax x 0) 1) (firstn n action)).
  assert (Hunit : Forall (fun x => 0 <= x <= 1)%R clipped) by apply clipped_in_unit.
  assert (Hpos : Forall (fun x => 0 <= x)%R clipped).
  { eapply Forall_impl; [|exact Hunit]. cbv beta. intros x Hx. lra. }
  split; [apply clip_action_num|].
  split; [unfold clipped; rewrite length_map; apply length_firstn|].
  split; [exact Hunit|].
  split; [intro raw; apply normalize_action_total|].
  eexists. split; [apply normalize_action_num|]. fold clipped.
  set (w := if Rlt_dec 0 (ResourceAllocator.sum clipped)
            then map (fun x => (x / ResourceAllocator.sum clipped)%R) clipped
            else clipped).
  assert (Hzero_w : Forall (fun x => x = 0%R) clipped -> w = clipped).
  { intro Hzero. pose proof (sum_all_zero Hzero) as Hsum. unfold w.
    destruct (Rlt_dec 0 (ResourceAllocator.sum clipped)); [lra | reflexivity]. }
  split; [|split; [exact Hzero_w|]].
  - intro Hsum. unfold w.
    destruct (Rlt_dec 0 (ResourceAllocator.sum clipped)) as [_|Hno];
      [|contradiction].
    split; [reflexivity|]. split.
    + rewrite sum_map_div. apply Rdiv_diag. lra.
    + apply share_in_unit; assumption.
  - intros Hcover Hdem Hobs.
    assert (Hlen : length w = n).
    { unfold w. destruct (Rlt_dec 0 _); unfold clipped;
        rewrite ?length_map, length_firstn; lia. }
    destruct (@step_num e d action w) as (e' & obs & r & done & Hstep & Hmap).
    + rewrite normalize_action_num. reflexivity.
    + fold n. lia.
    + exact Hdem.
    + exact Hobs.
    + exists e', obs, r, done. split; [exact Hstep|].
      fold n in Hmap. rewrite firstn_all2 in Hmap by lia.
      split; [exact Hmap|].
      intro Hzero.
      rewrite <- Forall_map with (f := ResourceAllocationEnv.current_bandwidth)
                                 (P := fun b => b = NumPy.Num 0).
      rewrite Hmap, (Hzero_w Hzero), Forall_map.
      eapply Forall_impl; [|exact Hzero]. cbv beta. intros x ->.
      f_equal. apply Rmult_0_l.
Qed.

Lemma step_normalizes_action_witness :
  exists (w : list R) (e' : ResourceAllocationEnv.env) (obs : list NumPy.fl)
         (r : R) (done : bool),
    ResourceAllocationEnv.normalize_action (map NumPy.Num [1; 1; 1]%R) 3
    = Ok (map NumPy.Num w)
    /\ ResourceAllocator.sum w = 1%R
    /\ Forall (fun x => 0 <= x <= 1)%R w
    /\ ResourceAllocationEnv.step Samples.three_agent_env
         (map NumPy.Num [1; 1; 1]%R) Samples.midday_draws
       = Ok (e', obs, NumPy.Num r, done)
    /\ map ResourceAllocationEnv.current_bandwidth (ResourceAllocationEnv.agents e')
       = map (fun x => NumPy.Num
                         (x * ResourceAllocationEnv.total_bandwidth_mbps
                                Samples.three_agent_env))
           w.
Proof.
  destruct (@step_normalizes_action Samples.three_agent_env Samples.midday_draws
              [1; 1; 1]%R _ eq_refl)
    as (_ & _ & _ & _ & w & Hnorm & Hpos & _ & Hstep).
  destruct Hstep as (e' & obs & r & done & Hstep & Hbw & _).
  - simpl. lia.
  - repeat constructor; simpl; lra.
  - exact (proj1 sample_envs_observable).
  - exists w, e', obs, r, done. split; [exact Hnorm|].
    assert (Hsum : (0 < ResourceAllocator.sum
                          (map (fun x => Rmin (Rmax x 0) 1)
                             (firstn
                                (length (ResourceAllocationEnv.agents
                                           Samples.three_agent_env))
                                [1; 1; 1])))%R).
    { simpl. rewrite (@clip_id 1) by lra.
      unfold ResourceAllocator.sum. simpl. lra. }
    destruct (Hpos Hsum) as (_ & H1 & H01).
    split; [exact H1|]. split; [exact H01|]. split; [exact Hstep | exact Hbw].
Defined.

(** C1, as stated, fails.  Two zeros for three agents are clipped to two
    zeros, and the step raises IndexError where every agent should receive
    a bandwidth of zero; and a vector that holds a nan is left as it is,
    neither clipped into [0,1] nor rescaled to add up to 1. *)
Lemma step_zero_action_too_short :
  ResourceAllocationEnv.clip_action (map NumPy.Num [0; 0]%R)
    (length (ResourceAllocationEnv.agents Samples.three_agent_env))
  = map NumPy.Num [0; 0]%R
  /\ ResourceAllocationEnv.step Samples.three_agent_env (map NumPy.Num [0; 0]%R)
       Samples.midday_draws
     = Raise IndexError
  /\ ResourceAllocationEnv.normalize_action
       [NumPy.NaN; NumPy.Num 1; NumPy.Num 1] 3
     = Ok [NumPy.NaN; NumPy.Num 1; NumPy.Num 1].
Proof.
  split; [|split].
  - rewrite clip_action_num. simpl. rewrite (@clip_id 0) by lra. reflexivity.
  - destruct (normalized_weights [0; 0]%R
                (length (ResourceAllocationEnv.agents Samples.three_agent_env)))
      as (w & Hnorm & Hlen & _).
    unfold ResourceAllocationEnv.step. rewrite Hnorm. cbn [bind].
    rewrite (@step_agents_short Samples.three_agent_env
               (ResourceAllocationEnv.agents Samples.three_agent_env)
               (map NumPy.Num w) w 0%nat 0%R eq_refl);
      [reflexivity | simpl in *; lia | repeat constructor; simpl; lra].
  - rewrite normalize_action_nan by (left; reflexivity).
    unfold ResourceAllocationEnv.clip_action. cbn [firstn map NumPy.clip01].
    rewrite (@clip_id 1) by lra. reflexivity.
Qed.

(** C9, as the code has it.  In an observable environment of positive
    capacity whose agents have non-zero demands: on a vector of numbers,
    whatever their sign or size, with a component for every agent, every
    component is clipped into [0,1] before it is used, the step returns,
    every bandwidth allocation is a non-negative number and the reward is a
    number; on a vector with a component for every agent that holds a nan
    at the position of an agent, the nan passes the clipping, the step
    returns, and the bandwidth allocation of that agent and the reward are
    nan. *)
Theorem step_clamps_numbers
    (e : ResourceAllocationEnv.env) (d : ResourceAllocationEnv.observation_draws) :
  Forall (fun a => ResourceAllocationEnv.bandwidth_demand a <> 0%R)
    (ResourceAllocationEnv.agents e) ->
  ResourceAllocationEnv.observable e ->
  (0 < ResourceAllocationEnv.total_bandwidth_mbps e)%R ->
  (forall action : list R,
      (length (ResourceAllocationEnv.agents e) <= length action)%nat ->
      (exists clipped : list R,
          ResourceAllocationEnv.clip_action (map NumPy.Num action)
            (length (ResourceAllocationEnv.agents e)) = map NumPy.Num clipped
          /\ Forall (fun x => 0 <= x <= 1)%R clipped)
      /\ exists (e' : ResourceAllocationEnv.env) (obs : list NumPy.fl) (r : R)
                (done : bool) (bs : list R),
           ResourceAllocationEnv.step e (map NumPy.Num action) d
           = Ok (e', obs, NumPy.Num r, done)
           /\ map ResourceAllocationEnv.current_bandwidth
                (ResourceAllocationEnv.agents e')
              = map NumPy.Num bs
           /\ Forall (fun b => 0 <= b)%R bs)
  /\ (forall (action : list NumPy.fl) (i : nat),
        (length (ResourceAllocationEnv.agents e) <= length action)%nat ->
        (i < length (ResourceAllocationEnv.agents e))%nat ->
        nth_error action i = Some NumPy.NaN ->
        nth_error
          (ResourceAllocationEnv.clip_action action
             (length (ResourceAllocationEnv.agents e))) i
        = Some NumPy.NaN
        /\ exists (e' : ResourceAllocationEnv.env) (obs : list NumPy.fl)
                  (done : bool),
             ResourceAllocationEnv.step e action d = Ok (e', obs, NumPy.NaN, done)
             /\ nth_error
                  (map ResourceAllocationEnv.current_bandwidth
                     (ResourceAllocationEnv.agents e')) i
                = Some NumPy.NaN).
Proof.
  intros Hdem Hobs Hcap. split.
  - intros action Hcover. split.
    + eexists. split; [apply clip_action_num | apply clipped_in_unit].
    + destruct (normalized_weights action (length (ResourceAllocationEnv.agents e)))
        as (w & Hnorm & Hlen & Hunit).
      destruct (@step_num e d action w Hnorm) as (e' & obs & r & done & Hstep & Hmap);
        [lia | exact Hdem | exact Hobs |].
      exists e', obs, r, done. eexists. split; [exact Hstep|]. split.
      * rewrite Hmap, <- (map_map _ NumPy.Num). reflexivity.
      * rewrite Forall_map. apply Forall_forall. intros x Hx.
        assert (Hin : In x w).
        { rewrite <- (firstn_skipn (length (ResourceAllocationEnv.agents e)) w).
          apply in_or_app. left. exact Hx. }
        rewrite Forall_forall in Hunit. specialize (Hunit x Hin). cbv beta in Hunit.
        apply Rmult_le_pos; lra.
  - intros action i Hcover Hi Hnth. split.
    + apply clip_action_nan; assumption.
    + apply step_nan; assumption.
Qed.

Lemma step_clamps_numbers_witness :
  exists (e' : ResourceAllocationEnv.env) (obs : list NumPy.fl) (r : R)
         (done : bool) (bs : list R),
    ResourceAllocationEnv.step Samples.one_agent_env (map NumPy.Num [-3; 7]%R)
      Samples.midday_draws
    = Ok (e', obs, NumPy.Num r, done)
    /\ map ResourceAllocationEnv.current_bandwidth (ResourceAllocationEnv.agents e')
       = map NumPy.Num bs
    /\ Forall (fun b => 0 <= b)%R bs.
Proof.
  destruct (@step_clamps_numbers Samples.one_agent_env Samples.midday_draws)
    as [Hnum _].
  - repeat constructor; simpl; lra.
  - exact (proj2 sample_envs_observable).
  - simpl. lra.
  - destruct (Hnum [-3; 7]%R) as [_ Hstep]; [simpl; lia | exact Hstep].
Defined.

(** C9, as stated, fails: a nan component passes the clipping, and the
    allocation and the reward of the step are nan. *)
Lemma step_propagates_nan :
  ResourceAllocationEnv.clip_action [NumPy.NaN] 1 = [NumPy.NaN]
  /\ exists (e' : ResourceAllocationEnv.env) (obs : list NumPy.fl) (done : bool),
       ResourceAllocationEnv.step Samples.one_agent_env [NumPy.NaN]
         Samples.midday_draws
       = Ok (e', obs, NumPy.NaN, done)
       /\ nth_error
            (map ResourceAllocationEnv.current_bandwidth
               (ResourceAllocationEnv.agents e')) 0
          = Some NumPy.NaN.
Proof.
  split; [reflexivity|].
  apply step_nan.
  - simpl. lia.
  - simpl. lia.
  - reflexivity.
  - repeat constructor; simpl; lra.
  - exact (proj2 sample_envs_observable).
Qed.

(** ** The allocation decision *)

Section AllocatorFacts.
Import ResourceAllocator.
Local Open Scope R_scope.

Lemma skipn_nth_cons (A : Type) (i : nat) (l : list A) (x : A) :
  nth_error l i = Some x -> skipn i l = x :: skipn (S i) l.
Proof.
  revert l; induction i as [|i IH]; intros [|y l] H; simpl in H; try discriminate H.
  - injection H as ->. reflexivity.
  - exact (IH l H).
Qed.

(** The capped ratio over a demand that is not zero. *)
Lemma capped_ratio_num (x d : R) :
  d <> 0 -> capped_ratio x d = Ok (Rmin (x / d) 1).
Proof.
  intro Hd. unfold capped_ratio.
  destruct (Req_dec_T d 0) as [H0|_]; [contradiction | reflexivity].
Qed.

(** The capped ratio is a number unless a bandwidth that is not positive is
    divided by a demand of zero. *)
Lemma capped_ratio_returns (x d : R) :
  d <> 0 \/ 0 < x -> exists c : R, capped_ratio x d = Ok c.
Proof.
  intro H. unfold capped_ratio.
  destruct (Req_dec_T d 0) as [H0|_]; [|eauto].
  destruct (Rlt_dec 0 x) as [_|Hno]; [eauto|].
  destruct H as [H|H]; contradiction.
Qed.

(** The loop of [allocate_resources]: every agent whose position the
    action covers gets its raw weight times the total bandwidth. *)
Lemma allocations_from_raw (action : list R) (total_bandwidth : R)
    (agents : list agent_info) :
  forall i : nat,
    (forall (a : agent_info) (w : R),
        In a agents -> In w action ->
        get (bandwidth_demand a) 100 <> 0 \/ 0 < w * total_bandwidth) ->
    exists allocs : list allocation,
      allocations_from action total_bandwidth i agents = Ok allocs
      /\ map bandwidth_mbps allocs
         = map (fun w => w * total_bandwidth) (firstn (length agents) (skipn i action)).
Proof.
  induction agents as [|agent rest IH]; intros i Hdem.
  - exists []. split; reflexivity.
  - destruct (IH (S i)) as (allocs & Hloop & Hmap).
    { intros a w Ha Hw. apply Hdem; [right; exact Ha | exact Hw]. }
    cbn [allocations_from].
    destruct (nth_error action i) as [w|] eqn:Hw.
    + destruct (@capped_ratio_returns (w * total_bandwidth)
                  (get (bandwidth_demand agent) 100)) as [c Hc].
      { apply Hdem; [left; reflexivity | exact (nth_error_In _ _ Hw)]. }
      rewrite Hc. cbn [bind]. rewrite Hloop. cbn [bind].
      eexists. split; [reflexivity|].
      rewrite (skipn_nth_cons _ _ Hw). cbn [length firstn map bandwidth_mbps].
      rewrite Hmap. reflexivity.
    + exists allocs. split; [exact Hloop|].
      rewrite Hmap. apply nth_error_None in Hw.
      rewrite !skipn_all2 by lia. rewrite !firstn_nil. reflexivity.
Qed.

Variable actor_params : Type.
Variable dropout_mask : Type.
Variable PPOActor_forward : actor_params -> dropout_mask -> list R -> list R.

(** [allocate_resources] returns whenever the allocator has room for at
    least one agent and no bandwidth that is not positive meets a demand of
    zero; the bandwidths of its plan are the actor's raw outputs times the
    total bandwidth. *)
Lemma allocate_resources_raw (self : allocator actor_params)
    (agents : list agent_info) (metrics : system_metrics) (hour : Z)
    (mask : dropout_mask) :
  max_agents self <> 0%nat ->
  Forall (fun a => get (bandwidth_demand a) 100 <> 0) agents
  \/ (0 < get (total_bandwidth_mbps metrics) 1000
      /\ forall state : list R,
           Forall (fun w => 0 < w) (PPOActor_forward (actor self) mask state)) ->
  exists (state : list R) (p : plan),
    _agents_to_state self agents metrics hour = Ok state
    /\ allocate_resources PPOActor_forward self agents metrics hour mask = Ok p
    /\ map bandwidth_mbps (allocations p)
       = map (fun w => w * get (total_bandwidth_mbps metrics) 1000)
           (firstn (length agents) (PPOActor_forward (actor self) mask state))
    /\ total_bandwidth_allocated p = sum (map bandwidth_mbps (allocations p)).
Proof.
  intros Hmax Hdem. unfold allocate_resources, _agents_to_state.
  destruct (Nat.eqb_spec (max_agents self) 0) as [H0|_]; [contradiction|].
  cbn [bind get_action].
  match goal with
  | |- context [PPOActor_forward (actor self) mask ?st] => set (state := st)
  end.
  destruct (@allocations_from_raw (PPOActor_forward (actor self) mask state)
              (get (total_bandwidth_mbps metrics) 1000) agents 0%nat)
    as (allocs & Hloop & Hmap).
  { intros a w Ha Hw. destruct Hdem as [Hdem|[Hcap Hout]].
    - left. rewrite Forall_forall in Hdem. exact (Hdem a Ha).
    - right. specialize (Hout state). rewrite Forall_forall in Hout.
      apply Rmult_lt_0_compat; [exact (Hout w Hw) | exact Hcap]. }
  rewrite Hloop. cbn [bind].
  exists state. eexists. split; [reflexivity|]. split; [reflexivity|].
  cbn [allocations total_bandwidth_allocated]. split; [exact Hmap | reflexivity].
Qed.

End AllocatorFacts.

Lemma add_hours_in_range (t : Datetime.datetime) (h : Z) :
  (0 <= Datetime.micros t)%Z ->
  (Datetime.micros t + 10 * Datetime.micros_per_hour <= Datetime.max_micros)%Z ->
  (0 <= h <= 10)%Z ->
  Datetime.add_hours t h
  = Ok {| Datetime.micros := Datetime.micros t + h * Datetime.micros_per_hour |}.
Proof.
  intros Hlo Hhi Hh. unfold Datetime.add_hours.
  unfold Datetime.micros_per_hour in *.
  destruct (Z.leb_spec 0 (Datetime.micros t + h * 3600000000)); [|lia].
  destruct (Z.leb_spec (Datetime.micros t + h * 3600000000) Datetime.max_micros);
    [reflexivity | lia].
Qed.

(** C2, as the code has it.  Neither decision checks that a model has been
    trained or loaded.  On a freshly built allocator with room for at
    least one agent, [allocate_resources] returns a plan computed from the
    initial weights of the actor: for every agent list without a zero
    bandwidth demand, and for every agent list at all when the total
    bandwidth is positive and the actor's outputs are positive, as those of
    its sigmoid are.  On a freshly built optimizer, [get_optimal_schedule]
    returns a schedule for every current time at least ten hours before
    [datetime.max]: its delay is 0, unless the priority is low and the
    current hour lies in 9..17, when it is one of 6, 7, 8, 9, 10. *)
Theorem fresh_services_answer
    (actor_params mask_t optim_state : Type)
    (PPOActor_forward : actor_params -> mask_t -> list R -> list R) :
  (forall (max_agents : nat) (theta : actor_params)
          (agents : list ResourceAllocator.agent_info)
          (metrics : ResourceAllocator.system_metrics) (hour : Z) (mask : mask_t),
      max_agents <> 0%nat ->
      Forall (fun a => ResourceAllocator.get (ResourceAllocator.bandwidth_demand a) 100
                       <> 0)%R agents
      \/ ((0 < ResourceAllocator.get
                 (ResourceAllocator.total_bandwidth_mbps metrics) 1000)%R
          /\ forall state : list R,
               Forall (fun w => 0 < w)%R (PPOActor_forward theta mask state)) ->
      exists (state : list R) (p : ResourceAllocator.plan),
        ResourceAllocator._agents_to_state (ResourceAllocator.init max_agents theta)
          agents metrics hour = Ok state
        /\ ResourceAllocator.allocate_resources PPOActor_forward
             (ResourceAllocator.init max_agents theta) agents metrics hour mask = Ok p
        /\ map ResourceAllocator.bandwidth_mbps (ResourceAllocator.allocations p)
           = map (fun w => w * ResourceAllocator.get
                                 (ResourceAllocator.total_bandwidth_mbps metrics) 1000)%R
               (firstn (length agents) (PPOActor_forward theta mask state)))
  /\ (forall (state_size action_size : nat) (theta theta_target : list Q)
             (adam : optim_state) (current_time : Datetime.datetime)
             (network_metrics system_metrics : list (string * Q))
             (transfer_queue : list (list (string * string)))
             (transfer_priority : string) (raw : nat),
         (0 <= Datetime.micros current_time)%Z ->
         (Datetime.micros current_time + 10 * Datetime.micros_per_hour
          <= Datetime.max_micros)%Z ->
         exists r : SchedulingOptimizer.schedule,
           SchedulingOptimizer.get_optimal_schedule
             (SchedulingOptimizer.init state_size action_size theta theta_target adam)
             current_time network_metrics system_metrics transfer_queue
             transfer_priority raw = Ok r
           /\ Datetime.micros (SchedulingOptimizer.scheduled_time r)
              = (Datetime.micros current_time
                 + SchedulingOptimizer.sched_action r * Datetime.micros_per_hour)%Z
           /\ (transfer_priority <> "low"%string
               \/ ~ (9 <= Datetime.hour current_time <= 17)%Z ->
               SchedulingOptimizer.sched_action r = 0%Z)
           /\ (transfer_priority = "low"%string ->
               (9 <= Datetime.hour current_time <= 17)%Z ->
               SchedulingOptimizer.sched_action r
               = SchedulingOptimizer.random_choice raw [6; 7; 8; 9; 10]%Z
               /\ In (SchedulingOptimizer.sched_action r) [6; 7; 8; 9; 10]%Z)).
Proof.
  split.
  - intros max_agents theta agents metrics hour mask Hmax Hdem.
    destruct (@allocate_resources_raw actor_params mask_t PPOActor_forward
                (ResourceAllocator.init max_agents theta) agents metrics hour mask
                Hmax Hdem) as (state & p & Hstate & Hplan & Hbw & _).
    exists state, p. auto.
  - intros state_size action_size theta theta_target adam current_time
      network_metrics system_metrics transfer_queue transfer_priority raw Hlo Hhi.
    assert (Hret : exists r : SchedulingOptimizer.schedule,
               SchedulingOptimizer.get_optimal_schedule
                 (SchedulingOptimizer.init state_size action_size theta theta_target
                    adam)
                 current_time network_metrics system_metrics transfer_queue
                 transfer_priority raw = Ok r).
    { unfold SchedulingOptimizer.get_optimal_schedule.
      match goal with
      | |- context [Datetime.add_hours current_time ?a] => set (action := a)
      end.
      assert (Haction : (0 <= action <= 10)%Z).
      { unfold action.
        destruct (String.eqb transfer_priority "critical"); [lia|].
        destruct (String.eqb transfer_priority "low"); [|lia].
        destruct (_ && _); [|lia].
        pose proof (random_choice_offsets raw) as Hin. simpl in Hin.
        intuition lia. }
      rewrite (add_hours_in_range current_time Hlo Hhi Haction). cbn [bind].
      eexists. reflexivity. }
    destruct Hret as [r Hr]. exists r. split; [exact Hr|].
    destruct (get_optimal_schedule_delay _ _ _ _ _ _ _ Hr)
      as (Htime & _ & Hzero & Hdrawn).
    split; [exact Htime|]. split; [exact Hzero|].
    intros Hlow Hbusy. rewrite (Hdrawn Hlow Hbusy).
    split; [reflexivity | apply random_choice_offsets].
Qed.

(** A plan for the three test agents, and one for an agent that demands no
    bandwidth at all. *)
Lemma fresh_services_answer_witness :
  (exists (state : list R) (p : ResourceAllocator.plan),
      ResourceAllocator._agents_to_state (ResourceAllocator.init 3 tt)
        Samples.test_agents Samples.test_metrics 12 = Ok state
      /\ ResourceAllocator.allocate_resources Samples.half_actor
           (ResourceAllocator.init 3 tt) Samples.test_agents Samples.test_metrics 12 tt
         = Ok p
      /\ map ResourceAllocator.bandwidth_mbps (ResourceAllocator.allocations p)
         = map (fun w => w * ResourceAllocator.get
                               (ResourceAllocator.total_bandwidth_mbps
                                  Samples.test_metrics) 1000)%R
             (firstn (length Samples.test_agents) (Samples.half_actor tt tt state)))
  /\ (exists (state : list R) (p : ResourceAllocator.plan),
        ResourceAllocator._agents_to_state (ResourceAllocator.init 3 tt)
          [Samples.request 1 "high" 0 3 6] Samples.test_metrics 12 = Ok state
        /\ ResourceAllocator.allocate_resources Samples.half_actor
             (ResourceAllocator.init 3 tt) [Samples.request 1 "high" 0 3 6]
             Samples.test_metrics 12 tt
           = Ok p
        /\ map ResourceAllocator.bandwidth_mbps (ResourceAllocator.allocations p)
           = map (fun w => w * ResourceAllocator.get
                                 (ResourceAllocator.total_bandwidth_mbps
                                    Samples.test_metrics) 1000)%R
               (firstn 1 (Samples.half_actor tt tt state))).
Proof.
  split.
  - apply (proj1 (@fresh_services_answer unit unit unit Samples.half_actor)).
    + discriminate.
    + left. repeat constructor; simpl; lra.
  - apply (proj1 (@fresh_services_answer unit unit unit Samples.half_actor)
             3%nat tt [Samples.request 1 "high" 0 3 6] Samples.test_metrics 12%Z tt).
    + discriminate.
    + right. split; [simpl; lra|].
      intro state. unfold Samples.half_actor. repeat constructor; lra.
Defined.

Section HalfActor.
Local Open Scope R_scope.

(** The plan of an allocator never trained, whose actor answers one half
    for each of three agents. *)
Lemma half_actor_plan :
  exists p : ResourceAllocator.plan,
    ResourceAllocator.allocate_resources Samples.half_actor
      (ResourceAllocator.init 3 tt) Samples.test_agents Samples.test_metrics 12 tt
    = Ok p
    /\ map ResourceAllocator.bandwidth_mbps (ResourceAllocator.allocations p)
       = [500; 500; 500]
    /\ ResourceAllocator.total_bandwidth_allocated p = 1500.
Proof.
  destruct (@allocate_resources_raw unit unit Samples.half_actor
              (ResourceAllocator.init 3 tt) Samples.test_agents Samples.test_metrics
              12%Z tt) as (state & p & _ & Hplan & Hbw & Htotal).
  - discriminate.
  - left. repeat constructor; simpl; lra.
  - assert (Hbw' : map ResourceAllocator.bandwidth_mbps (ResourceAllocator.allocations p)
                   = [500; 500; 500]).
    { rewrite Hbw. simpl. repeat f_equal; lra. }
    exists p. split; [exact Hplan|]. split; [exact Hbw'|].
    rewrite Htotal, Hbw'. unfold ResourceAllocator.sum. simpl. lra.
Qed.

Lemma half_weights_normalized :
  ResourceAllocationEnv.normalize_action (map NumPy.Num [1 / 2; 1 / 2; 1 / 2]) 3
  = Ok (map NumPy.Num [1 / 3; 1 / 3; 1 / 3]).
Proof.
  rewrite normalize_action_num. cbn [firstn map].
  rewrite (@clip_id (1 / 2)) by lra.
  assert (Hs : ResourceAllocator.sum [1 / 2; 1 / 2; 1 / 2] = 3 / 2).
  { unfold ResourceAllocator.sum. simpl. lra. }
  rewrite Hs. destruct (Rlt_dec 0 (3 / 2)) as [_|Hno]; [|lra].
  replace (1 / 2 / (3 / 2)) with (1 / 3) by field. reflexivity.
Qed.

End HalfActor.

(** C2, as stated, fails: an allocator and an optimizer that were built
    and never trained answer with numbers, 500 Mbps for each of three
    agents and an immediate start at 12:00. *)
Lemma untrained_services_return_results :
  (exists p : ResourceAllocator.plan,
     ResourceAllocator.allocate_resources Samples.half_actor
       (ResourceAllocator.init 3 tt) Samples.test_agents Samples.test_metrics 12 tt
     = Ok p
     /\ map ResourceAllocator.bandwidth_mbps (ResourceAllocator.allocations p)
        = [500; 500; 500]%R)
  /\ (exists r : SchedulingOptimizer.schedule,
        SchedulingOptimizer.get_optimal_schedule Samples.fresh_optimizer Samples.noon
          [] [] [] "medium" 0 = Ok r
        /\ SchedulingOptimizer.sched_action r = 0%Z
        /\ Datetime.strftime_HM (SchedulingOptimizer.scheduled_time r)
           = "12:00"%string).
Proof.
  split.
  - destruct half_actor_plan as (p & Hplan & Hbw & _). exists p. auto.
  - eexists. split; [vm_compute; reflexivity|]. split; reflexivity.
Qed.

(** C3 (the raw weights).  For three agents and an actor that answers one
    half for each, [allocate_resources] hands out the raw weights times
    the total bandwidth, 500 Mbps each and 1500 Mbps of a capacity of 1000
    in all, where the environment normalizes the same output to one third
    each. *)
Theorem allocate_resources_skips_normalization :
  exists p : ResourceAllocator.plan,
    ResourceAllocator.allocate_resources Samples.half_actor
      (ResourceAllocator.init 3 tt) Samples.test_agents Samples.test_metrics 12 tt
    = Ok p
    /\ map ResourceAllocator.bandwidth_mbps (ResourceAllocator.allocations p)
       = map (fun w => w * 1000)%R [1 / 2; 1 / 2; 1 / 2]%R
    /\ ResourceAllocator.total_bandwidth_allocated p = 1500%R
    /\ ResourceAllocationEnv.normalize_action
         (map NumPy.Num (Samples.half_actor tt tt [])) 3
       = Ok (map NumPy.Num [1 / 3; 1 / 3; 1 / 3]%R)
    /\ map ResourceAllocator.bandwidth_mbps (ResourceAllocator.allocations p)
       <> map (fun w => w * 1000)%R [1 / 3; 1 / 3; 1 / 3]%R.
Proof.
  destruct half_actor_plan as (p & Hplan & Hbw & Htotal).
  exists p. split; [exact Hplan|]. rewrite Hbw.
  split; [simpl; repeat f_equal; lra|].
  split; [exact Htotal|].
  split; [exact half_weights_normalized|].
  simpl. intro H. injection H as H _ _. lra.
Qed.

(** ** The fairness score *)

Section FairnessFacts.
Import ResourceAllocator.
Local Open Scope R_scope.

Lemma std_nonneg (l : list R) : 0 <= std l.
Proof. unfold std. apply sqrt_pos. Qed.

End FairnessFacts.

(** C7, as the code has it.  The fairness score of any list of allocations
    is at least 0, and at most 1 when the mean bandwidth is not negative;
    it is 1 when the list has at most one allocation and when the mean
    bandwidth is zero, the two cases the code tests for; in every other
    case, that of equal bandwidths included, it is
    [max(0, 1 - std / mean)] of the bandwidths. *)
Theorem fairness_score_cases (allocations : list ResourceAllocator.allocation) :
  (0 <= ResourceAllocator._calculate_fairness_score allocations)%R
  /\ ((0 <= ResourceAllocator.mean (map ResourceAllocator.bandwidth_mbps allocations))%R ->
      (ResourceAllocator._calculate_fairness_score allocations <= 1)%R)
  /\ ((length allocations <= 1)%nat ->
      ResourceAllocator._calculate_fairness_score allocations = 1%R)
  /\ (ResourceAllocator.mean (map ResourceAllocator.bandwidth_mbps allocations) = 0%R ->
      ResourceAllocator._calculate_fairness_score allocations = 1%R)
  /\ ((1 < length allocations)%nat ->
      ResourceAllocator.mean (map ResourceAllocator.bandwidth_mbps allocations) <> 0%R ->
      ResourceAllocator._calculate_fairness_score allocations
      = Rmax 0 (1 - ResourceAllocator.std (map ResourceAllocator.bandwidth_mbps allocations)
                    / ResourceAllocator.mean
                        (map ResourceAllocator.bandwidth_mbps allocations))).
Proof.
  unfold ResourceAllocator._calculate_fairness_score.
  set (bws := map ResourceAllocator.bandwidth_mbps allocations).
  pose proof (std_nonneg bws) as Hstd.
  destruct (Nat.leb_spec (length allocations) 1) as [Hfew|Hmany].
  { repeat split; intros; try reflexivity; try lra; lia. }
  destruct (Req_dec_T (ResourceAllocator.mean bws) 0) as [Hzero|Hmean].
  { repeat split; intros; try reflexivity; try lra; try lia; contradiction. }
  repeat split.
  - apply Rmax_l.
  - intro Hpos. apply Rmax_lub; [lra|].
    assert (0 <= ResourceAllocator.std bws / ResourceAllocator.mean bws)%R.
    { apply Rmult_le_pos; [exact Hstd|].
      apply Rlt_le, Rinv_0_lt_compat. lra. }
    lra.
  - lia.
  - intro H0. contradiction.
Qed.

(** Two allocations of 500 and 300 Mbps, of mean 400, score at most 1. *)
Lemma fairness_score_cases_witness :
  (ResourceAllocator._calculate_fairness_score
     [Samples.grant 1 500; Samples.grant 2 300]%R <= 1)%R.
Proof.
  apply (proj1 (proj2 (fairness_score_cases
                         [Samples.grant 1 500; Samples.grant 2 300]%R))).
  unfold ResourceAllocator.mean, ResourceAllocator.sum. simpl. lra.
Defined.

(** C7, as stated, fails: two allocations of -1 and -3 Mbps, as a negative
    total bandwidth in the system metrics yields them, score 1.5. *)
Lemma fairness_score_above_one :
  ResourceAllocator._calculate_fairness_score
    [Samples.grant 1 (-1); Samples.grant 2 (-3)]%R = 1.5%R
  /\ ~ (ResourceAllocator._calculate_fairness_score
          [Samples.grant 1 (-1); Samples.grant 2 (-3)]%R <= 1)%R.
Proof.
  assert (Hscore : ResourceAllocator._calculate_fairness_score
                     [Samples.grant 1 (-1); Samples.grant 2 (-3)]%R = 1.5%R).
  { unfold ResourceAllocator._calculate_fairness_score. cbn [length Nat.leb map].
    cbn [Samples.grant ResourceAllocator.bandwidth_mbps].
    assert (Hmean : ResourceAllocator.mean [-1; -3]%R = (-2)%R).
    { unfold ResourceAllocator.mean, ResourceAllocator.sum. simpl. lra. }
    assert (Hstd : ResourceAllocator.std [-1; -3]%R = 1%R).
    { unfold ResourceAllocator.std. rewrite Hmean. cbn [map].
      replace (ResourceAllocator.mean _) with 1%R; [apply sqrt_1|].
      unfold ResourceAllocator.mean, ResourceAllocator.sum. simpl. lra. }
    rewrite Hmean, Hstd.
    destruct (Req_dec_T (-2) 0) as [H|_]; [lra|].
    rewrite Rmax_right; lra. }
  split; [exact Hscore|]. rewrite Hscore. lra.
Qed.

(** * Further properties of the environment *)

Section StepFacts.
Import NumPy ResourceAllocationEnv.
Local Open Scope R_scope.

Lemma pymin_num (u v : R) : pymin (Num u) (Num v) = Num (Rmin u v).
Proof.
  unfold pymin, flt, fgt, Rmin.
  destruct (Rlt_dec v u); destruct (Rle_dec u v); try reflexivity; try lra.
Qed.

(** What the loop body of [step] writes into an agent for a numeric
    weight. *)
Lemma allocate_agent_fields (e : env) (x : R) (a : agent) :
  bandwidth_demand a <> 0 ->
  exists a' : agent,
    allocate_agent e (Num x) a = Ok a'
    /\ id a' = id a
    /\ agent_priority a' = agent_priority a
    /\ bandwidth_demand a' = bandwidth_demand a
    /\ cpu_demand a' = cpu_demand a
    /\ memory_demand a' = memory_demand a
    /\ file_size_gb a' = file_size_gb a
    /\ current_bandwidth a' = Num (x * total_bandwidth_mbps e)
    /\ current_cpu a'
       = Num (Rmin (cpu_demand a * (x * total_bandwidth_mbps e / bandwidth_demand a))
                (max_cpu_cores e))
    /\ current_memory a'
       = Num (Rmin (memory_demand a * (x * total_bandwidth_mbps e / bandwidth_demand a))
                (max_memory_gb e))
    /\ success_rate a'
       = Num (Rmin (x * total_bandwidth_mbps e / bandwidth_demand a) 1)
    /\ throughput a'
       = Num (x * total_bandwidth_mbps e
              * Rmin (x * total_bandwidth_mbps e / bandwidth_demand a) 1 * 0.8).
Proof.
  intro Hd. unfold allocate_agent. cbn [fmul].
  rewrite (fdiv_num _ Hd). cbn [bind fmul]. rewrite !pymin_num. cbn [fmul].
  eexists. split; [reflexivity|]. cbn. repeat split; reflexivity.
Qed.

Lemma Forall2_map_eq (A B C : Type) (R : A -> B -> Prop) (f : A -> C) (g : B -> C)
    (l : list A) (l' : list B) :
  Forall2 R l l' -> (forall x y, R x y -> f x = g y) -> map f l = map g l'.
Proof.
  intros H Hfg. induction H as [|x y l l' Hxy _ IH]; simpl; [reflexivity|].
  rewrite (Hfg x y Hxy), IH. reflexivity.
Qed.

Lemma Forall2_Forall_r (A B : Type) (R : A -> B -> Prop) (P : A -> Prop)
    (Q : B -> Prop) (l : list A) (l' : list B) :
  Forall2 R l l' -> Forall P l -> (forall x y, P x -> R x y -> Q y) -> Forall Q l'.
Proof.
  intros H HP HQ. induction H as [|x y l l' Hxy _ IH]; [constructor|].
  inversion HP; subst. constructor; eauto.
Qed.

(** The loop of [step] on numeric weights that cover the agents: each
    agent is rewritten by the loop body with its own weight, and the
    reward is the sum of the agents' rewards. *)
Lemma step_agents_rel (e : env) (ags : list agent) :
  forall (ws : list fl) (tail : list R) (i : nat) (r0 : R),
    skipn i ws = map Num tail ->
    (length ags <= length tail)%nat ->
    Forall (fun a => bandwidth_demand a <> 0) ags ->
    exists (ags' : list agent) (r : R),
      step_agents e ws i ags (Num r0) = Ok (ags', Num r)
      /\ Forall2 (fun ax a' => allocate_agent e (Num (snd ax)) (fst ax) = Ok a')
           (combine ags tail) ags'
      /\ Num r = fold_left fadd (map _calculate_agent_reward ags') (Num r0).
Proof.
  induction ags as [|a rest IH]; intros ws tail i r0 Hskip Hlen Hdem.
  - exists [], r0. repeat split. constructor.
  - destruct tail as [|x tail]; [simpl in Hlen; lia|].
    destruct (@skipn_cons_nth _ i ws (Num x) (map Num tail) Hskip) as [Hnth Hrest].
    inversion Hdem as [|? ? Ha Hdem']; subst.
    destruct (@allocate_agent_num e x a Ha) as (a' & rr & Halloc & _ & Hrew).
    destruct (IH ws tail (S i) (r0 + rr) Hrest) as (rest' & r & Hloop & Hrel & Hsum);
      [simpl in Hlen; lia | exact Hdem' |].
    exists (a' :: rest'), r. split; [|split].
    + cbn [step_agents]. unfold getitem. rewrite Hnth. cbn [bind].
      rewrite Halloc. cbn [bind]. rewrite Hrew. cbn [fadd].
      rewrite Hloop. reflexivity.
    + cbn [combine]. constructor; [exact Halloc | exact Hrel].
    + cbn [map fold_left]. rewrite Hrew. cbn [fadd]. exact Hsum.
Qed.

(** [step] on a vector of numbers that covers the agents of an observable
    environment, with the environment it returns written out. *)
Lemma step_rel (e : env) (d : observation_draws) (action w : list R) :
  normalize_action (map Num action) (length (agents e)) = Ok (map Num w) ->
  (length (agents e) <= length w)%nat ->
  Forall (fun a => bandwidth_demand a <> 0) (agents e) ->
  observable e ->
  exists (ags' : list agent) (obs : list fl) (r : R),
    step e (map Num action) d
    = Ok (stepped e ags', obs, Num r, (max_steps e <=? S (current_step e))%nat)
    /\ Forall2 (fun ax a' => allocate_agent e (Num (snd ax)) (fst ax) = Ok a')
         (combine (agents e) w) ags'.
Proof.
  intros Hnorm Hlen Hdem Hobs.
  destruct (@step_agents_rel e (agents e) (map Num w) w 0%nat 0 eq_refl Hlen Hdem)
    as (ags' & r1 & Hloop & Hrel & _).
  assert (Hmap : map current_bandwidth ags'
                 = map Num (map (fun ax => snd ax * total_bandwidth_mbps e)
                              (combine (agents e) w))).
  { rewrite map_map. symmetry.
    apply (Forall2_map_eq _ _ Hrel). intros [a x] a' Ha. cbn [fst snd] in *.
    assert (Hd : bandwidth_demand a <> 0).
    { intro H0. unfold allocate_agent in Ha. cbn [fmul] in Ha.
      unfold fdiv in Ha. destruct (Req_dec_T _ 0); [discriminate | contradiction]. }
    destruct (@allocate_agent_fields e x a Hd) as (a2 & Ha2 & Hf).
    rewrite Ha in Ha2. injection Ha2 as <-. symmetry. apply Hf. }
  destruct (@over_allocation_num e ags' _ r1 Hmap) as [r2 Hover].
  destruct (@fairness_num ags' _ r2 Hmap) as [r3 Hfair].
  destruct (@get_observation_returns (stepped e ags') d Hobs) as (obs & Hget & _).
  exists ags', obs, r3. split; [|exact Hrel].
  unfold step. rewrite Hnorm. cbn [bind]. rewrite Hloop. cbn [bind].
  rewrite Hover, Hfair. cbn [bind]. cbv zeta. rewrite Hget. reflexivity.
Qed.

(** [step] on a vector of numbers that covers the agents, up to the
    observation it ends with. *)
Lemma step_to_observation (e : env) (d : observation_draws) (action : list R) :
  (length (agents e) <= length action)%nat ->
  Forall (fun a => bandwidth_demand a <> 0) (agents e) ->
  exists (ags' : list agent) (r : R),
    step e (map Num action) d
    = (obs <- _get_observation (stepped e ags') d ;;
       Ok (stepped e ags', obs, Num r, (max_steps e <=? S (current_step e))%nat)).
Proof.
  intros Hcover Hdem.
  destruct (normalized_weights action (length (agents e))) as (w & Hnorm & Hlen & _).
  destruct (@step_agents_num e (agents e) (map Num w) w 0%nat 0 eq_refl)
    as (ags' & r1 & Hloop & Hmap); [lia | exact Hdem |].
  rewrite <- (map_map (fun x => x * total_bandwidth_mbps e) Num) in Hmap.
  destruct (@over_allocation_num e ags' _ r1 Hmap) as [r2 Hover].
  destruct (@fairness_num ags' _ r2 Hmap) as [r3 Hfair].
  exists ags', r3.
  unfold step. rewrite Hnorm. cbn [bind]. rewrite Hloop. cbn [bind].
  rewrite Hover, Hfair. reflexivity.
Qed.

End StepFacts.

Section StepProperties.
Import NumPy ResourceAllocationEnv.
Local Open Scope R_scope.

Lemma Forall_combine (A B : Type) (P : A -> Prop) (Q : B -> Prop)
    (l : list A) (l' : list B) :
  Forall P l -> Forall Q l' -> Forall (fun p => P (fst p) /\ Q (snd p)) (combine l l').
Proof.
  intro HP. revert l'. induction HP as [|x l Hx _ IH]; intros l' HQ; simpl;
    [constructor|].
  destruct HQ as [|y l' Hy HQ]; constructor; auto.
Qed.

End StepProperties.

(** X1.  [step] on a vector of numbers with fewer components than there
    are agents (whose demands are not zero) raises IndexError. *)
Theorem step_short_action_raises
    (e : ResourceAllocationEnv.env) (d : ResourceAllocationEnv.observation_draws)
    (action : list R) :
  (length action < length (ResourceAllocationEnv.agents e))%nat ->
  Forall (fun a => ResourceAllocationEnv.bandwidth_demand a <> 0%R)
    (ResourceAllocationEnv.agents e) ->
  ResourceAllocationEnv.step e (map NumPy.Num action) d = Raise IndexError.
Proof.
  intros Hshort Hdem.
  destruct (normalized_weights action (length (ResourceAllocationEnv.agents e)))
    as (w & Hnorm & Hlen & _).
  unfold ResourceAllocationEnv.step. rewrite Hnorm. cbn [bind].
  rewrite (@step_agents_short e (ResourceAllocationEnv.agents e) (map NumPy.Num w) w
             0%nat 0%R eq_refl); [reflexivity | lia | exact Hdem].
Qed.

Lemma step_short_action_raises_witness :
  ResourceAllocationEnv.step Samples.three_agent_env (map NumPy.Num [1; 1]%R)
    Samples.midday_draws
  = Raise IndexError.
Proof.
  apply step_short_action_raises.
  - simpl. lia.
  - repeat constructor; simpl; lra.
Defined.

Section StepInvariants.
Import NumPy ResourceAllocationEnv.
Local Open Scope R_scope.

(** What a successful run of the loop body has written. *)
Lemma allocate_agent_ok_fields (e : env) (x : R) (a a' : agent) :
  allocate_agent e (Num x) a = Ok a' ->
  bandwidth_demand a <> 0
  /\ id a' = id a
  /\ agent_priority a' = agent_priority a
  /\ bandwidth_demand a' = bandwidth_demand a
  /\ cpu_demand a' = cpu_demand a
  /\ memory_demand a' = memory_demand a
  /\ file_size_gb a' = file_size_gb a
  /\ current_bandwidth a' = Num (x * total_bandwidth_mbps e)
  /\ current_cpu a'
     = Num (Rmin (cpu_demand a * (x * total_bandwidth_mbps e / bandwidth_demand a))
              (max_cpu_cores e))
  /\ current_memory a'
     = Num (Rmin (memory_demand a * (x * total_bandwidth_mbps e / bandwidth_demand a))
              (max_memory_gb e))
  /\ success_rate a'
     = Num (Rmin (x * total_bandwidth_mbps e / bandwidth_demand a) 1)
  /\ throughput a'
     = Num (x * total_bandwidth_mbps e
            * Rmin (x * total_bandwidth_mbps e / bandwidth_demand a) 1 * 0.8).
Proof.
  intro Ha.
  assert (Hd : bandwidth_demand a <> 0).
  { intro H0. unfold allocate_agent in Ha. cbn [fmul] in Ha.
    unfold fdiv in Ha. destruct (Req_dec_T _ 0); [discriminate | contradiction]. }
  split; [exact Hd|].
  destruct (@allocate_agent_fields e x a Hd) as (a2 & Ha2 & Hf).
  rewrite Ha in Ha2. injection Ha2 as <-. exact Hf.
Qed.

(** The reward of an agent the loop body has served, in closed form. *)
Lemma served_reward_value (e : env) (x : R) (a a' : agent) :
  allocate_agent e (Num x) a = Ok a' ->
  _calculate_agent_reward a'
  = Num ((0 + x * total_bandwidth_mbps e
               * Rmin (x * total_bandwidth_mbps e / bandwidth_demand a) 1 * 0.8 / 100)
         * priority_multiplier (agent_priority a)
         + Rmin (x * total_bandwidth_mbps e / bandwidth_demand a) 1 * 10
         + (if Rle_dec (bandwidth_demand a) (x * total_bandwidth_mbps e) then 5 else 0)).
Proof.
  intro Ha.
  destruct (@allocate_agent_ok_fields e x a a' Ha)
    as (_ & _ & Hp & Hd & _ & _ & _ & Hb & _ & _ & Hs & Ht).
  unfold _calculate_agent_reward. rewrite Hb, Hs, Ht, Hp, Hd.
  cbn [fdiv_lit fadd fmul fge].
  destruct (Rle_dec _ _); cbn [fadd]; f_equal; lra.
Qed.

End StepInvariants.

Section ServedAgents.
Import NumPy ResourceAllocationEnv.
Local Open Scope R_scope.

Lemma ratio_nonneg (b d : R) : 0 <= b -> 0 < d -> 0 <= b / d.
Proof.
  intros Hb Hd. apply Rmult_le_pos; [exact Hb|].
  apply Rlt_le, Rinv_0_lt_compat. exact Hd.
Qed.

Lemma ratio_ge_one (b d : R) : 0 < d -> d <= b -> 1 <= b / d.
Proof.
  intros Hd Hb. apply (Rmult_le_reg_r d); [exact Hd|].
  unfold Rdiv. rewrite Rmult_assoc, Rinv_l by lra. lra.
Qed.

Lemma ratio_lt_one (b d : R) : 0 < d -> b < d -> b / d < 1.
Proof.
  intros Hd Hb. apply (Rmult_lt_reg_r d); [exact Hd|].
  unfold Rdiv. rewrite Rmult_assoc, Rinv_l by lra. lra.
Qed.

End ServedAgents.

(** X4.  After a step on a vector of numbers that covers the agents, in
    an observable environment of positive capacity whose agents have
    positive demands, every agent holds: a bandwidth between 0 and the capacity; a
    cpu and a memory allocation capped at the hardware maxima; a success
    rate in [0,1]; a throughput between 0 and 0.8 times its bandwidth; and,
    when its bandwidth meets its demand, a success rate of 1 and a
    throughput of exactly 0.8 times its bandwidth. *)
Theorem step_agent_bounds
    (e : ResourceAllocationEnv.env) (d : ResourceAllocationEnv.observation_draws)
    (action : list R) :
  (length (ResourceAllocationEnv.agents e) <= length action)%nat ->
  Forall (fun a => 0 < ResourceAllocationEnv.bandwidth_demand a)%R
    (ResourceAllocationEnv.agents e) ->
  ResourceAllocationEnv.observable e ->
  (0 < ResourceAllocationEnv.total_bandwidth_mbps e)%R ->
  exists (e' : ResourceAllocationEnv.env) (obs : list NumPy.fl) (r : R)
         (done : bool),
    ResourceAllocationEnv.step e (map NumPy.Num action) d
    = Ok (e', obs, NumPy.Num r, done)
    /\ Forall
         (fun a' =>
            exists b c m s t : R,
              ResourceAllocationEnv.current_bandwidth a' = NumPy.Num b
              /\ ResourceAllocationEnv.current_cpu a' = NumPy.Num c
              /\ ResourceAllocationEnv.current_memory a' = NumPy.Num m
              /\ ResourceAllocationEnv.success_rate a' = NumPy.Num s
              /\ ResourceAllocationEnv.throughput a' = NumPy.Num t
              /\ (0 <= b <= ResourceAllocationEnv.total_bandwidth_mbps e)%R
              /\ (c <= ResourceAllocationEnv.max_cpu_cores e)%R
              /\ (m <= ResourceAllocationEnv.max_memory_gb e)%R
              /\ (0 <= s <= 1)%R
              /\ (0 <= t <= 0.8 * b)%R
              /\ ((ResourceAllocationEnv.bandwidth_demand a' <= b)%R ->
                  s = 1%R /\ t = (0.8 * b)%R))
         (ResourceAllocationEnv.agents e').
Proof.
  intros Hcover Hdem Hobs Hcap.
  assert (Hdem' : Forall (fun a => ResourceAllocationEnv.bandwidth_demand a <> 0%R)
                    (ResourceAllocationEnv.agents e)).
  { eapply Forall_impl; [|exact Hdem]. cbv beta. intros a Ha. lra. }
  destruct (normalized_weights action (length (ResourceAllocationEnv.agents e)))
    as (w & Hnorm & Hlen & Hunit).
  destruct (@step_rel e d action w Hnorm) as (ags' & obs & r & Hstep & Hrel);
    [lia | exact Hdem' | exact Hobs |].
  eexists. exists obs, r. eexists. split; [exact Hstep|].
  cbn [ResourceAllocationEnv.agents ResourceAllocationEnv.stepped].
  eapply Forall2_Forall_r;
    [exact Hrel | exact (@Forall_combine _ _ _ _ _ _ Hdem Hunit) |].
  intros [a x] a' [Hd Hx] Ha. cbn [fst snd] in *.
  destruct (@allocate_agent_ok_fields e x a a' Ha)
    as (_ & _ & _ & Hd' & _ & _ & _ & Hb & Hc & Hm & Hs & Ht).
  set (T := ResourceAllocationEnv.total_bandwidth_mbps e) in *.
  set (dem := ResourceAllocationEnv.bandwidth_demand a) in *.
  assert (Hb0 : (0 <= x * T)%R) by (apply Rmult_le_pos; lra).
  assert (HbT : (x * T <= T)%R) by nra.
  pose proof (ratio_nonneg Hb0 Hd) as Hq.
  assert (Hs01 : (0 <= Rmin (x * T / dem) 1 <= 1)%R).
  { split; [apply Rmin_glb; lra | apply Rmin_r]. }
  do 5 eexists.
  split; [exact Hb|]. split; [exact Hc|]. split; [exact Hm|].
  split; [exact Hs|]. split; [exact Ht|].
  split; [lra|]. split; [apply Rmin_r|]. split; [apply Rmin_r|].
  split; [exact Hs01|]. split; [nra|].
  rewrite Hd'. intro Hmet.
  pose proof (ratio_ge_one Hd Hmet) as Hone.
  rewrite Rmin_right by exact Hone. split; [reflexivity | lra].
Qed.

Lemma step_agent_bounds_witness :
  exists (e' : ResourceAllocationEnv.env) (obs : list NumPy.fl) (r : R)
         (done : bool),
    ResourceAllocationEnv.step Samples.three_agent_env (map NumPy.Num [1; 1; 1]%R)
      Samples.midday_draws
    = Ok (e', obs, NumPy.Num r, done)
    /\ Forall
         (fun a' =>
            exists b c m s t : R,
              ResourceAllocationEnv.current_bandwidth a' = NumPy.Num b
              /\ ResourceAllocationEnv.current_cpu a' = NumPy.Num c
              /\ ResourceAllocationEnv.current_memory a' = NumPy.Num m
              /\ ResourceAllocationEnv.success_rate a' = NumPy.Num s
              /\ ResourceAllocationEnv.throughput a' = NumPy.Num t
              /\ (0 <= b <= ResourceAllocationEnv.total_bandwidth_mbps
                              Samples.three_agent_env)%R
              /\ (c <= ResourceAllocationEnv.max_cpu_cores Samples.three_agent_env)%R
              /\ (m <= ResourceAllocationEnv.max_memory_gb Samples.three_agent_env)%R
              /\ (0 <= s <= 1)%R
              /\ (0 <= t <= 0.8 * b)%R
              /\ ((ResourceAllocationEnv.bandwidth_demand a' <= b)%R ->
                  s = 1%R /\ t = (0.8 * b)%R))
         (ResourceAllocationEnv.agents e').
Proof.
  apply step_agent_bounds.
  - simpl. lia.
  - repeat constructor; simpl; lra.
  - exact (proj1 sample_envs_observable).
  - simpl. lra.
Defined.

(** X5.  The reward of an agent of positive demand that the loop body of
    [step] has served with a non-negative bandwidth [b]: when [b] meets the
    demand, 0.8 b / 100 times the priority multiplier, plus 15; when it
    falls short, 0.8 b (b / demand) / 100 times the priority multiplier,
    plus 10 b / demand. *)
Theorem served_agent_reward
    (e : ResourceAllocationEnv.env) (x : R) (a : ResourceAllocationEnv.agent) :
  (0 < ResourceAllocationEnv.bandwidth_demand a)%R ->
  (0 <= x * ResourceAllocationEnv.total_bandwidth_mbps e)%R ->
  exists (a' : ResourceAllocationEnv.agent) (rr : R),
    ResourceAllocationEnv.allocate_agent e (NumPy.Num x) a = Ok a'
    /\ ResourceAllocationEnv._calculate_agent_reward a' = NumPy.Num rr
    /\ ((ResourceAllocationEnv.bandwidth_demand a
         <= x * ResourceAllocationEnv.total_bandwidth_mbps e)%R ->
        rr = (0.8 * (x * ResourceAllocationEnv.total_bandwidth_mbps e) / 100
              * ResourceAllocationEnv.priority_multiplier
                  (ResourceAllocationEnv.agent_priority a)
              + 15)%R)
    /\ ((x * ResourceAllocationEnv.total_bandwidth_mbps e
         < ResourceAllocationEnv.bandwidth_demand a)%R ->
        rr = (0.8 * (x * ResourceAllocationEnv.total_bandwidth_mbps e)
              * (x * ResourceAllocationEnv.total_bandwidth_mbps e
                 / ResourceAllocationEnv.bandwidth_demand a) / 100
              * ResourceAllocationEnv.priority_multiplier
                  (ResourceAllocationEnv.agent_priority a)
              + 10 * (x * ResourceAllocationEnv.total_bandwidth_mbps e
                      / ResourceAllocationEnv.bandwidth_demand a))%R).
Proof.
  intros Hd Hb.
  assert (Hd0 : ResourceAllocationEnv.bandwidth_demand a <> 0%R) by lra.
  destruct (@allocate_agent_fields e x a Hd0) as (a' & Ha & _).
  exists a'. eexists. split; [exact Ha|].
  split; [exact (@served_reward_value e x a a' Ha)|].
  set (b := (x * ResourceAllocationEnv.total_bandwidth_mbps e)%R) in *.
  set (d := ResourceAllocationEnv.bandwidth_demand a) in *.
  split.
  - intro Hmet. rewrite Rmin_right by (apply ratio_ge_one; assumption).
    destruct (Rle_dec d b); [lra | contradiction].
  - intro Hshort. rewrite Rmin_left by (apply Rlt_le, ratio_lt_one; assumption).
    destruct (Rle_dec d b); [lra | lra].
Qed.

Lemma served_agent_reward_witness :
  exists (a' : ResourceAllocationEnv.agent) (rr : R),
    ResourceAllocationEnv.allocate_agent Samples.one_agent_env (NumPy.Num 1)
      (ResourceAllocationEnv.spawn 0 (ResourceAllocationEnv.medium, 100, 2, 4, 10)%R)
    = Ok a'
    /\ ResourceAllocationEnv._calculate_agent_reward a' = NumPy.Num rr
    /\ rr = 23%R.
Proof.
  destruct (@served_agent_reward Samples.one_agent_env 1%R
              (ResourceAllocationEnv.spawn 0
                 (ResourceAllocationEnv.medium, 100, 2, 4, 10)%R))
    as (a' & rr & Ha & Hr & Hmet & _).
  - simpl. lra.
  - simpl. lra.
  - exists a', rr. split; [exact Ha|]. split; [exact Hr|].
    rewrite Hmet by (simpl; lra). simpl. lra.
Defined.

(** X23.  A step on a vector of numbers that covers the agents (whose
    demands are not zero) ends with the observation.  In an observable
    environment it returns, and the observation has 8 + 5 [max_agents]
    entries; in an environment with [max_agents] zero, or with a total
    bandwidth, a cpu capacity or a memory capacity of zero, it raises
    ZeroDivisionError. *)
Theorem step_observation
    (e : ResourceAllocationEnv.env) (d : ResourceAllocationEnv.observation_draws)
    (action : list R) :
  (length (ResourceAllocationEnv.agents e) <= length action)%nat ->
  Forall (fun a => ResourceAllocationEnv.bandwidth_demand a <> 0%R)
    (ResourceAllocationEnv.agents e) ->
  (ResourceAllocationEnv.observable e ->
   exists (e' : ResourceAllocationEnv.env) (obs : list NumPy.fl) (r : R)
          (done : bool),
     ResourceAllocationEnv.step e (map NumPy.Num action) d
     = Ok (e', obs, NumPy.Num r, done)
     /\ length obs = (8 + 5 * ResourceAllocationEnv.max_agents e)%nat)
  /\ (~ ResourceAllocationEnv.observable e ->
      ResourceAllocationEnv.step e (map NumPy.Num action) d
      = Raise ZeroDivisionError).
Proof.
  intros Hcover Hdem.
  destruct (@step_to_observation e d action Hcover Hdem) as (ags' & r & Hstep).
  rewrite Hstep. split.
  - intro Hobs.
    destruct (@get_observation_returns (ResourceAllocationEnv.stepped e ags') d Hobs)
      as (obs & Hget & Hlen).
    rewrite Hget. cbn [bind]. eexists. exists obs, r. eexists.
    split; [reflexivity | exact Hlen].
  - intro Hno.
    rewrite (@get_observation_raises (ResourceAllocationEnv.stepped e ags') d Hno).
    reflexivity.
Qed.

(** One agent in an environment whose total bandwidth is zero. *)
Lemma step_observation_witness :
  ResourceAllocationEnv.step
    (ResourceAllocationEnv.reset (ResourceAllocationEnv.init 10 0)
       [(ResourceAllocationEnv.medium, 100, 2, 4, 10)%R])
    (map NumPy.Num [1]%R) Samples.midday_draws
  = Raise ZeroDivisionError.
Proof.
  apply (@step_observation
           (ResourceAllocationEnv.reset (ResourceAllocationEnv.init 10 0)
              [(ResourceAllocationEnv.medium, 100, 2, 4, 10)%R])
           Samples.midday_draws [1]%R).
  - simpl. lia.
  - repeat constructor; simpl; lra.
  - intros (_ & Hb & _). apply Hb. reflexivity.
Defined.

(** * Further properties of the allocator *)

Section PlanFacts.
Import ResourceAllocator.
Local Open Scope R_scope.

(** The entries the loop of [allocate_resources] writes, agent by agent. *)
Lemma allocations_from_fields (action : list R) (total_bandwidth : R)
    (agents : list agent_info) :
  forall i : nat,
    Forall (fun a => get (bandwidth_demand a) 100 <> 0) agents ->
    exists allocs : list allocation,
      allocations_from action total_bandwidth i agents = Ok allocs
      /\ Forall2
           (fun aw al =>
              bandwidth_mbps al = snd aw * total_bandwidth
              /\ cpu_cores al
                 = get (cpu_demand (fst aw)) 2
                   * Rmin (snd aw * total_bandwidth
                           / get (bandwidth_demand (fst aw)) 100) 1
              /\ memory_gb al
                 = get (memory_demand (fst aw)) 4
                   * Rmin (snd aw * total_bandwidth
                           / get (bandwidth_demand (fst aw)) 100) 1
              /\ priority_weight al
                 = _get_priority_weight (get (priority (fst aw)) "medium"%string)
              /\ expected_throughput al = snd aw * total_bandwidth * 0.8)
           (combine agents (skipn i action)) allocs.
Proof.
  induction agents as [|agent rest IH]; intros i Hdem.
  - exists []. split; [reflexivity | constructor].
  - inversion Hdem as [|? ? Ha Hrest]; subst.
    destruct (IH (S i) Hrest) as (allocs & Hloop & Hrel).
    cbn [allocations_from].
    destruct (nth_error action i) as [w|] eqn:Hw.
    + rewrite (capped_ratio_num _ Ha).
      cbn [bind]. rewrite Hloop. cbn [bind].
      eexists. split; [reflexivity|].
      rewrite (skipn_nth_cons _ _ Hw). cbn [combine].
      constructor; [|exact Hrel]. cbn. repeat split; reflexivity.
    + apply nth_error_None in Hw.
      rewrite skipn_all2 in * by lia. rewrite combine_nil in *.
      exists allocs. split; [exact Hloop|]. exact Hrel.
Qed.

Lemma slot_features_length (agents : list agent_info) (i : nat) :
  length (slot_features agents i) = 5%nat.
Proof.
  unfold slot_features. destruct (nth_error agents i); reflexivity.
Qed.

End PlanFacts.

Section AllocatorProperties.
Local Open Scope R_scope.

(** X7.  [_agents_to_state] raises ZeroDivisionError for an allocator
    without agent slots; otherwise it returns a vector of
    [8 + 5 * max_agents] components, the size of the environment's
    observations, however many agents it is given. *)
Theorem agents_to_state_length
    (actor_params : Type) (self : ResourceAllocator.allocator actor_params)
    (agents : list ResourceAllocator.agent_info)
    (metrics : ResourceAllocator.system_metrics) (hour : Z) :
  (ResourceAllocator.max_agents self = 0%nat ->
   ResourceAllocator._agents_to_state self agents metrics hour
   = Raise ZeroDivisionError)
  /\ (ResourceAllocator.max_agents self <> 0%nat ->
      exists state : list R,
        ResourceAllocator._agents_to_state self agents metrics hour = Ok state
        /\ length state = (8 + 5 * ResourceAllocator.max_agents self)%nat).
Proof.
  unfold ResourceAllocator._agents_to_state. split.
  - intros ->. reflexivity.
  - intro Hmax.
    destruct (Nat.eqb_spec (ResourceAllocator.max_agents self) 0) as [H0|_];
      [contradiction|].
    eexists. split; [reflexivity|].
    rewrite !length_app.
    rewrite (flat_map_length_const _ _ (slot_features_length agents)).
    rewrite length_seq. simpl. lia.
Qed.

Lemma agents_to_state_length_witness :
  exists state : list R,
    ResourceAllocator._agents_to_state (ResourceAllocator.init 3 tt)
      Samples.test_agents Samples.test_metrics 12 = Ok state
    /\ length state = 23%nat.
Proof.
  apply (proj2 (@agents_to_state_length unit (ResourceAllocator.init 3 tt)
                  Samples.test_agents Samples.test_metrics 12%Z)).
  discriminate.
Defined.

(** X8.  For an allocator with at least one agent slot and agents without
    a zero bandwidth demand, [allocate_resources] returns a plan with one
    allocation for each agent the actor's output covers, in order, and none
    for the others; the confidence it reports is always 0; each allocation
    expects a throughput of 0.8 times its bandwidth; and its cpu and memory
    shares never exceed the agent's demand when that demand is not
    negative, and equal it when the bandwidth meets a positive bandwidth
    demand. *)
Theorem allocate_resources_plan_shape
    (actor_params mask_t : Type)
    (PPOActor_forward : actor_params -> mask_t -> list R -> list R)
    (self : ResourceAllocator.allocator actor_params)
    (agents : list ResourceAllocator.agent_info)
    (metrics : ResourceAllocator.system_metrics) (hour : Z) (mask : mask_t) :
  ResourceAllocator.max_agents self <> 0%nat ->
  Forall (fun a => ResourceAllocator.get (ResourceAllocator.bandwidth_demand a) 100
                   <> 0)%R agents ->
  exists (state : list R) (p : ResourceAllocator.plan),
    ResourceAllocator._agents_to_state self agents metrics hour = Ok state
    /\ ResourceAllocator.allocate_resources PPOActor_forward self agents metrics hour mask
       = Ok p
    /\ length (ResourceAllocator.allocations p)
       = Nat.min (length agents)
           (length (PPOActor_forward (ResourceAllocator.actor self) mask state))
    /\ ResourceAllocator.confidence p = 0%R
    /\ Forall2
         (fun aw al =>
            ResourceAllocator.bandwidth_mbps al
            = (snd aw * ResourceAllocator.get
                          (ResourceAllocator.total_bandwidth_mbps metrics) 1000)%R
            /\ ResourceAllocator.expected_throughput al
               = (0.8 * ResourceAllocator.bandwidth_mbps al)%R
            /\ ((0 <= ResourceAllocator.get (ResourceAllocator.cpu_demand (fst aw)) 2)%R ->
                (ResourceAllocator.cpu_cores al
                 <= ResourceAllocator.get (ResourceAllocator.cpu_demand (fst aw)) 2)%R)
            /\ ((0 <= ResourceAllocator.get (ResourceAllocator.memory_demand (fst aw)) 4)%R ->
                (ResourceAllocator.memory_gb al
                 <= ResourceAllocator.get (ResourceAllocator.memory_demand (fst aw)) 4)%R)
            /\ ((0 < ResourceAllocator.get (ResourceAllocator.bandwidth_demand (fst aw)) 100
                 <= ResourceAllocator.bandwidth_mbps al)%R ->
                ResourceAllocator.cpu_cores al
                = ResourceAllocator.get (ResourceAllocator.cpu_demand (fst aw)) 2%R
                /\ ResourceAllocator.memory_gb al
                   = ResourceAllocator.get (ResourceAllocator.memory_demand (fst aw)) 4%R))
         (combine agents (PPOActor_forward (ResourceAllocator.actor self) mask state))
         (ResourceAllocator.allocations p).
Proof.
  intros Hmax Hdem.
  unfold ResourceAllocator.allocate_resources, ResourceAllocator._agents_to_state.
  destruct (Nat.eqb_spec (ResourceAllocator.max_agents self) 0) as [H0|_];
    [contradiction|].
  cbn [bind ResourceAllocator.get_action].
  match goal with
  | |- context [PPOActor_forward (ResourceAllocator.actor self) mask ?st] =>
      set (state := st)
  end.
  set (action := PPOActor_forward (ResourceAllocator.actor self) mask state).
  set (tb := ResourceAllocator.get (ResourceAllocator.total_bandwidth_mbps metrics) 1000).
  destruct (@allocations_from_fields action tb agents 0%nat Hdem)
    as (allocs & Hloop & Hrel).
  change (skipn 0 action) with action in Hrel.
  rewrite Hloop. cbn [bind].
  exists state. eexists. split; [reflexivity|]. split; [reflexivity|].
  cbn [ResourceAllocator.allocations ResourceAllocator.confidence].
  split; [|split].
  - rewrite <- (Forall2_length Hrel). apply length_combine.
  - apply Rabs_R0.
  - eapply Forall2_impl; [|exact Hrel].
    intros [a w] al (Hb & Hc & Hm & _ & Ht). cbn [fst snd] in *.
    pose proof (Rmin_r (w * tb / ResourceAllocator.get
                                   (ResourceAllocator.bandwidth_demand a) 100) 1) as Hr.
    split; [exact Hb|]. split; [rewrite Ht, Hb; lra|].
    split; [intro H; rewrite Hc; nra|]. split; [intro H; rewrite Hm; nra|].
    intros [Hd Hmet]. rewrite Hb in Hmet.
    rewrite Hc, Hm, Rmin_right by (apply ratio_ge_one; assumption).
    split; lra.
Qed.

Lemma allocate_resources_plan_shape_witness :
  exists (state : list R) (p : ResourceAllocator.plan),
    ResourceAllocator._agents_to_state (ResourceAllocator.init 3 tt)
      Samples.test_agents Samples.test_metrics 12 = Ok state
    /\ ResourceAllocator.allocate_resources Samples.half_actor
         (ResourceAllocator.init 3 tt) Samples.test_agents Samples.test_metrics 12 tt
       = Ok p
    /\ length (ResourceAllocator.allocations p) = 3%nat
    /\ ResourceAllocator.confidence p = 0%R.
Proof.
  destruct (@allocate_resources_plan_shape unit unit Samples.half_actor
              (ResourceAllocator.init 3 tt) Samples.test_agents Samples.test_metrics
              12%Z tt) as (state & p & Hstate & Hplan & Hlen & Hconf & _).
  - discriminate.
  - repeat constructor; simpl; lra.
  - exists state, p. split; [exact Hstate|]. split; [exact Hplan|].
    split; [exact Hlen | exact Hconf].
Defined.

(** X9.  The efficiency score, with [u] the allocated bandwidth over a
    positive total bandwidth: it is 0 when the total bandwidth is not
    positive; it lies in [0,1] when the allocated bandwidth is not
    negative; and it is 1 exactly when [u] lies in the band from 0.8 to
    0.9. *)
Theorem efficiency_score_cases
    (allocations : list ResourceAllocator.allocation) (total_bandwidth : R) :
  ((total_bandwidth <= 0)%R ->
   ResourceAllocator._calculate_efficiency_score allocations total_bandwidth = 0%R)
  /\ ((0 < total_bandwidth)%R ->
      ((0 <= ResourceAllocator.sum (map ResourceAllocator.bandwidth_mbps allocations))%R ->
       (0 <= ResourceAllocator._calculate_efficiency_score allocations total_bandwidth
        <= 1)%R)
      /\ (ResourceAllocator._calculate_efficiency_score allocations total_bandwidth = 1%R
          <-> (0.8 <= ResourceAllocator.sum
                        (map ResourceAllocator.bandwidth_mbps allocations)
                      / total_bandwidth <= 0.9)%R)).
Proof.
  unfold ResourceAllocator._calculate_efficiency_score.
  set (total := ResourceAllocator.sum (map ResourceAllocator.bandwidth_mbps allocations)).
  split.
  - intro Hnone. destruct (Rlt_dec 0 total_bandwidth) as [Hpos|_]; [lra|].
    destruct (Rle_dec 0.8 0); lra.
  - intro Hpos. destruct (Rlt_dec 0 total_bandwidth) as [_|Hno]; [|contradiction].
    set (u := (total / total_bandwidth)%R).
    assert (Hu : (0 <= total -> 0 <= u)%R).
    { intro H. apply ratio_nonneg; assumption. }
    destruct (Rle_dec 0.8 u) as [Hlow|Hlow]; [destruct (Rle_dec u 0.9) as [Hup|Hup]|].
    + repeat split; intros; lra.
    + unfold Rmax. destruct (Rle_dec 0 (1 - (u - 0.9) / 0.1)) as [H0|H0].
      * repeat split; intros; try lra.
      * repeat split; intros; try lra.
    + split.
      * intro H. specialize (Hu H). lra.
      * split; intro H; lra.
Qed.

Lemma efficiency_score_cases_witness :
  ResourceAllocator._calculate_efficiency_score
    [Samples.grant 1 400; Samples.grant 2 450]%R 1000 = 1%R.
Proof.
  apply (proj2 (efficiency_score_cases [Samples.grant 1 400; Samples.grant 2 450]%R
                  1000)).
  - lra.
  - unfold ResourceAllocator.sum. simpl. lra.
Defined.

Lemma returns_loop_step (gamma : R) (r : R) (rs : list R) (st : R * list R) :
  fold_left
    (fun (st : R * list R) (reward : R) =>
       let discounted_reward := reward + gamma * fst st in
       (discounted_reward, discounted_reward :: snd st))
    (rev (r :: rs)) st
  = (let st' :=
       fold_left
         (fun (st : R * list R) (reward : R) =>
            let discounted_reward := reward + gamma * fst st in
            (discounted_reward, discounted_reward :: snd st))
         (rev rs) st in
     (r + gamma * fst st', (r + gamma * fst st') :: snd st')).
Proof.
  cbn [rev]. rewrite fold_left_app. reflexivity.
Qed.

Lemma returns_loop_head (gamma : R) (rs : list R) :
  fst (fold_left
         (fun (st : R * list R) (reward : R) =>
            let discounted_reward := reward + gamma * fst st in
            (discounted_reward, discounted_reward :: snd st))
         (rev rs) (0, []))
  = hd 0 (ResourceAllocator.discounted_rewards gamma rs).
Proof.
  unfold ResourceAllocator.discounted_rewards.
  destruct rs as [|r rs]; [reflexivity|].
  rewrite returns_loop_step. reflexivity.
Qed.

(** X10.  The discounted returns [_update_policy] computes: there is one
    per reward, and each is its reward plus [gamma] times the return of the
    next step, the return after the last step being 0. *)
Theorem discounted_rewards_recurrence (gamma : R) :
  ResourceAllocator.discounted_rewards gamma [] = []
  /\ (forall (r : R) (rs : list R),
        ResourceAllocator.discounted_rewards gamma (r :: rs)
        = (r + gamma * hd 0 (ResourceAllocator.discounted_rewards gamma rs))
          :: ResourceAllocator.discounted_rewards gamma rs)
  /\ (forall rs : list R,
        length (ResourceAllocator.discounted_rewards gamma rs) = length rs).
Proof.
  assert (Hcons : forall (r : R) (rs : list R),
             ResourceAllocator.discounted_rewards gamma (r :: rs)
             = (r + gamma * hd 0 (ResourceAllocator.discounted_rewards gamma rs))
               :: ResourceAllocator.discounted_rewards gamma rs).
  { intros r rs. unfold ResourceAllocator.discounted_rewards at 1.
    rewrite returns_loop_step. cbn [snd]. rewrite returns_loop_head. reflexivity. }
  split; [reflexivity|]. split; [exact Hcons|].
  induction rs as [|r rs IH]; [reflexivity|].
  rewrite Hcons. simpl. rewrite IH. reflexivity.
Qed.

Lemma sum_map_minus (l : list R) (m : R) :
  ResourceAllocator.sum (map (fun x => x - m) l)
  = ResourceAllocator.sum l - INR (length l) * m.
Proof.
  induction l as [|x l IH].
  - simpl. rewrite sum_nil. lra.
  - cbn [map length]. rewrite !sum_cons, IH, S_INR. lra.
Qed.

(** X11.  The normalized returns of a rollout of at least two steps are
    numbers that add up to zero; those of a rollout of a single step are
    nan. *)
Theorem normalize_returns_zero_mean (l : list R) :
  ((2 <= length l)%nat ->
   exists ys : list R,
     ResourceAllocator.normalize_returns l = map NumPy.Num ys
     /\ length ys = length l
     /\ ResourceAllocator.sum ys = 0)
  /\ (length l = 1%nat ->
      ResourceAllocator.normalize_returns l = [NumPy.NaN]).
Proof.
  unfold ResourceAllocator.normalize_returns. split.
  - intro Hlen. destruct (Nat.ltb_spec (length l) 2) as [Hlt|_]; [lia|].
    exists (map (fun x => (x - ResourceAllocator.mean l)
                          / (ResourceAllocator.torch_std l + 1e-8)) l).
    split; [rewrite map_map; reflexivity|]. split; [apply length_map|].
    rewrite <- (map_map (fun x => x - ResourceAllocator.mean l)
                  (fun y => y / (ResourceAllocator.torch_std l + 1e-8))).
    rewrite sum_map_div, sum_map_minus.
    assert (Hn : INR (length l) <> 0) by (apply not_0_INR; lia).
    unfold ResourceAllocator.mean.
    replace (ResourceAllocator.sum l
             - INR (length l) * (ResourceAllocator.sum l / INR (length l)))
      with 0 by (field; exact Hn).
    unfold Rdiv. apply Rmult_0_l.
  - intro Hone. destruct l as [|x [|y l]]; try discriminate. reflexivity.
Qed.

Lemma normalize_returns_zero_mean_witness :
  exists ys : list R,
    ResourceAllocator.normalize_returns [1; 2; 6] = map NumPy.Num ys
    /\ length ys = 3%nat
    /\ ResourceAllocator.sum ys = 0.
Proof.
  apply (proj1 (normalize_returns_zero_mean [1; 2; 6])). simpl. lia.
Defined.

(** X12.  The action [get_action] returns when it explores has every
    component in [0,1], whatever the noise; with a noise of zeros and an
    actor whose outputs lie in [0,1], it is the action of the deterministic
    call. *)
Theorem get_action_noisy_clamped
    (actor_params mask_t : Type)
    (PPOActor_forward : actor_params -> mask_t -> list R -> list R)
    (self : ResourceAllocator.allocator actor_params) (mask : mask_t)
    (noise state : list R) :
  Forall (fun x => 0 <= x <= 1)
    (fst (ResourceAllocator.get_action_noisy PPOActor_forward self mask noise state))
  /\ (Forall (fun x => 0 <= x <= 1)
        (PPOActor_forward (ResourceAllocator.actor self) mask state) ->
      noise = repeat 0
                (length (PPOActor_forward (ResourceAllocator.actor self) mask state)) ->
      fst (ResourceAllocator.get_action_noisy PPOActor_forward self mask noise state)
      = fst (ResourceAllocator.get_action PPOActor_forward self mask state)).
Proof.
  unfold ResourceAllocator.get_action_noisy, ResourceAllocator.get_action. cbn [fst].
  set (probs := PPOActor_forward (ResourceAllocator.actor self) mask state).
  split.
  - rewrite Forall_map. apply Forall_forall. intros pn _. apply clip_in_unit.
  - intros Hunit ->. clear - Hunit. induction Hunit as [|x l Hx _ IH]; [reflexivity|].
    cbn [length repeat combine map fst snd]. rewrite IH. f_equal.
    rewrite Rplus_0_r. apply clip_id. exact Hx.
Qed.

Lemma get_action_noisy_clamped_witness :
  fst (ResourceAllocator.get_action_noisy Samples.half_actor
         (ResourceAllocator.init 3 tt) tt [0; 0; 0] [])
  = fst (ResourceAllocator.get_action Samples.half_actor
           (ResourceAllocator.init 3 tt) tt []).
Proof.
  apply (proj2 (@get_action_noisy_clamped unit unit Samples.half_actor
                  (ResourceAllocator.init 3 tt) tt [0; 0; 0] [])).
  - repeat constructor; simpl; lra.
  - reflexivity.
Defined.

End AllocatorProperties.

(** * Further properties of the experience store and the optimizer *)

Section SampleFacts.
Local Open Scope nat_scope.
Variable E : Type.

(** Picking positions that all lie inside the list reads the list at
    those positions, in the order drawn. *)
Lemma pick_in_range (l : list E) (positions : list nat) :
  Forall (fun i => i < length l) positions ->
  map Some (ReplayBuffer.pick l positions) = map (nth_error l) positions.
Proof.
  unfold ReplayBuffer.pick. induction 1 as [|i ps Hi _ IH]; [reflexivity|].
  cbn [flat_map map].
  destruct (nth_error l i) as [x|] eqn:Hx.
  - cbn [app map]. rewrite IH. reflexivity.
  - apply nth_error_None in Hx. lia.
Qed.

End SampleFacts.

(** X13.  [sample] raises ValueError when the store holds fewer entries
    than the batch size; otherwise, for drawn positions that lie inside the
    store, it returns exactly [batch_size] entries: the stored entries at
    the first [batch_size] drawn positions, in the order drawn. *)
Theorem sample_cases (E : Type) (b : ReplayBuffer.t E) (batch_size : nat)
    (draw : list nat) :
  ((ReplayBuffer.len b < batch_size)%nat ->
   ReplayBuffer.sample b batch_size draw = Raise ValueError)
  /\ ((batch_size <= ReplayBuffer.len b)%nat ->
      (batch_size <= length draw)%nat ->
      Forall (fun i => i < ReplayBuffer.len b)%nat draw ->
      exists batch : list E,
        ReplayBuffer.sample b batch_size draw = Ok batch
        /\ length batch = batch_size
        /\ map Some batch
           = map (nth_error (ReplayBuffer.buffer b)) (firstn batch_size draw)).
Proof.
  unfold ReplayBuffer.sample. split.
  - intro Hfew. destruct (Nat.ltb_spec (ReplayBuffer.len b) batch_size); [reflexivity|lia].
  - intros Hfull Hdraw Hrange.
    destruct (Nat.ltb_spec (ReplayBuffer.len b) batch_size); [lia|].
    eexists. split; [reflexivity|].
    assert (Hpick : map Some (ReplayBuffer.pick (ReplayBuffer.buffer b)
                                (firstn batch_size draw))
                    = map (nth_error (ReplayBuffer.buffer b)) (firstn batch_size draw)).
    { apply pick_in_range. apply Forall_forall. intros i Hi.
      rewrite Forall_forall in Hrange. apply Hrange.
      rewrite <- (firstn_skipn batch_size draw). apply in_or_app. left. exact Hi. }
    split; [|exact Hpick].
    apply (f_equal (@length (option E))) in Hpick.
    rewrite !length_map, length_firstn in Hpick. lia.
Qed.

Lemma sample_cases_witness :
  exists batch : list nat,
    ReplayBuffer.sample
      (fold_left (@ReplayBuffer.push nat) [10; 20; 30; 40]%nat (ReplayBuffer.init nat 3))
      2 [2; 0; 1]%nat = Ok batch
    /\ length batch = 2%nat
    /\ map Some batch = [Some 40; Some 20]%nat.
Proof.
  apply (proj2 (sample_cases
                  (fold_left (@ReplayBuffer.push nat) [10; 20; 30; 40]%nat
                     (ReplayBuffer.init nat 3)) 2 [2; 0; 1]%nat)).
  - cbv. lia.
  - cbv. lia.
  - repeat constructor; cbv; lia.
Defined.

Section SoftUpdateFacts.
Import SchedulingOptimizer.
Local Open Scope Q_scope.


End SoftUpdateFacts.



Section RunFacts.
Import SchedulingOptimizer.
Local Open Scope Q_scope.

Variable optim_state : Type.
Variable dropout_mask : Type.
Variable gradient_step :
  list Q -> list Q -> optim_state -> Q -> list Experience -> dropout_mask
  -> update optim_state.

Lemma decay_epsilon_settled (e m d : Q) : e <= m -> decay_epsilon e m d = e.
Proof.
  intro Hle. unfold decay_epsilon, Qgtb.
  apply Qle_bool_iff in Hle. rewrite Hle. reflexivity.
Qed.

Lemma decay_epsilon_nonneg (e m d : Q) : 0 <= e -> 0 <= d -> 0 <= decay_epsilon e m d.
Proof.
  intros He Hd. unfold decay_epsilon.
  destruct (Qgtb e m); [apply Qmult_le_0_compat; assumption | exact He].
Qed.

(** The exploration rate after a training step: the old one, or the old
    one decayed. *)
Lemma train_step_epsilon_cases (self : optimizer_t optim_state) (draw : list nat)
    (mask : dropout_mask) :
  exists (self' : optimizer_t optim_state) (metrics : list (string * Q)),
    train_step gradient_step self draw mask = Ok (self', metrics)
    /\ epsilon_min self' = epsilon_min self
    /\ epsilon_decay self' = epsilon_decay self
    /\ (epsilon self' = epsilon self
        \/ epsilon self'
           = decay_epsilon (epsilon self) (epsilon_min self) (epsilon_decay self)).
Proof.
  unfold train_step, ReplayBuffer.sample.
  destruct (ReplayBuffer.len (memory self) <? batch_size self)%nat.
  - exists self, []. repeat split. left. reflexivity.
  - cbn [bind]. eexists. eexists. split; [reflexivity|]. cbn.
    repeat split. right. reflexivity.
Qed.

(** Storing experiences only grows the replay memory. *)
Lemma store_run (exps : list Experience) (self : optimizer_t optim_state) :
  exists self' : optimizer_t optim_state,
    fold_left
      (fun s x => store_experience s (state x) (action x) (reward x)
                    (next_state x) (done x))
      exps self = self'
    /\ memory self' = fold_left (@ReplayBuffer.push Experience) exps (memory self)
    /\ batch_size self' = batch_size self
    /\ epsilon self' = epsilon self
    /\ epsilon_min self' = epsilon_min self
    /\ epsilon_decay self' = epsilon_decay self.
Proof.
  revert self. induction exps as [|x exps IH]; intro self.
  - exists self. repeat split.
  - destruct (IH (store_experience self (state x) (action x) (reward x)
                    (next_state x) (done x)))
      as (self' & Hrun & Hmem & Hb & He & Hm & Hd).
    exists self'. split; [exact Hrun|].
    rewrite Hmem, Hb, He, Hm, Hd. destruct x. repeat split.
Qed.

End RunFacts.

(** X16.  Over any run of training steps of an optimizer whose
    exploration rate is not negative, whose decay factor lies in [0,1] and
    whose rate starts at or above the floor times the decay factor: the
    rate never increases, it ends at or above the floor times the decay
    factor, and once it is at or below the floor it no longer changes. *)
Theorem train_steps_epsilon_range
    (optim_state dropout_mask : Type)
    (gradient_step : list Q -> list Q -> optim_state -> Q
                     -> list SchedulingOptimizer.Experience -> dropout_mask
                     -> SchedulingOptimizer.update optim_state)
    (calls : list (list nat * dropout_mask))
    (self : SchedulingOptimizer.optimizer_t optim_state) :
  (0 <= SchedulingOptimizer.epsilon self)%Q ->
  (0 <= SchedulingOptimizer.epsilon_decay self <= 1)%Q ->
  (SchedulingOptimizer.epsilon_min self * SchedulingOptimizer.epsilon_decay self
   <= SchedulingOptimizer.epsilon self)%Q ->
  exists self' : SchedulingOptimizer.optimizer_t optim_state,
    SchedulingOptimizer.train_steps gradient_step self calls = Ok self'
    /\ (SchedulingOptimizer.epsilon self' <= SchedulingOptimizer.epsilon self)%Q
    /\ (SchedulingOptimizer.epsilon_min self * SchedulingOptimizer.epsilon_decay self
        <= SchedulingOptimizer.epsilon self')%Q
    /\ ((SchedulingOptimizer.epsilon self <= SchedulingOptimizer.epsilon_min self)%Q ->
        SchedulingOptimizer.epsilon self' = SchedulingOptimizer.epsilon self).
Proof.
  revert self. induction calls as [|[draw mask] calls IH]; intros self Hpos [Hd0 Hd1] Hfloor.
  - exists self. split; [reflexivity|]. split; [apply Qle_refl|].
    split; [exact Hfloor | reflexivity].
  - destruct (train_step_epsilon_cases gradient_step self draw mask)
      as (s1 & m1 & Hstep & Hmin & Hdecay & Hcases).
    assert (H1 : (SchedulingOptimizer.epsilon s1 <= SchedulingOptimizer.epsilon self)%Q
                 /\ (0 <= SchedulingOptimizer.epsilon s1)%Q
                 /\ (SchedulingOptimizer.epsilon_min self
                     * SchedulingOptimizer.epsilon_decay self
                     <= SchedulingOptimizer.epsilon s1)%Q
                 /\ ((SchedulingOptimizer.epsilon self
                      <= SchedulingOptimizer.epsilon_min self)%Q ->
                     SchedulingOptimizer.epsilon s1 = SchedulingOptimizer.epsilon self)).
    { destruct Hcases as [->| ->].
      - split; [apply Qle_refl|]. split; [exact Hpos|]. split; [exact Hfloor|reflexivity].
      - split; [apply decay_epsilon_le; assumption|].
        split; [apply decay_epsilon_nonneg; assumption|].
        split; [apply decay_epsilon_floor; assumption|].
        apply decay_epsilon_settled. }
    destruct H1 as (Hle1 & Hpos1 & Hfloor1 & Hset1).
    destruct (IH s1) as (s2 & Hrun & Hle2 & Hfloor2 & Hset2).
    + exact Hpos1.
    + rewrite Hdecay. split; assumption.
    + rewrite Hmin, Hdecay. exact Hfloor1.
    + exists s2. split; [|split; [|split]].
      * cbn [SchedulingOptimizer.train_steps]. rewrite Hstep. cbn [bind]. exact Hrun.
      * eapply Qle_trans; eassumption.
      * rewrite Hmin, Hdecay in Hfloor2. exact Hfloor2.
      * intro Hlow. rewrite Hset2, Hset1; try reflexivity; try exact Hlow.
        rewrite Hmin, (Hset1 Hlow). exact Hlow.
Qed.

Lemma train_steps_epsilon_range_witness :
  exists self' : SchedulingOptimizer.optimizer_t unit,
    SchedulingOptimizer.train_steps Samples.toy_gradient_step
      (Samples.stocked_optimizer 64) (repeat (seq 0 64, tt) 5) = Ok self'
    /\ (SchedulingOptimizer.epsilon self'
        <= SchedulingOptimizer.epsilon (Samples.stocked_optimizer 64))%Q
    /\ (SchedulingOptimizer.epsilon_min (Samples.stocked_optimizer 64)
        * SchedulingOptimizer.epsilon_decay (Samples.stocked_optimizer 64)
        <= SchedulingOptimizer.epsilon self')%Q
    /\ ((SchedulingOptimizer.epsilon (Samples.stocked_optimizer 64)
         <= SchedulingOptimizer.epsilon_min (Samples.stocked_optimizer 64))%Q ->
        SchedulingOptimizer.epsilon self'
        = SchedulingOptimizer.epsilon (Samples.stocked_optimizer 64)).
Proof.
  apply train_steps_epsilon_range.
  - vm_compute. discriminate.
  - split; vm_compute; discriminate.
  - vm_compute. discriminate.
Defined.

(** X17.  On an optimizer as [__init__] builds it, after any number of
    [store_experience] calls: the replay memory holds the latest entries
    stored, up to its capacity; [train_step] does nothing while fewer than
    64 experiences have been stored, and from the 64th on it performs an
    update, reports the loss, the exploration rate and the mean Q-value,
    and, on its first update, lowers the exploration rate from 1 to
    0.995. *)
Theorem training_starts_at_batch_size
    (optim_state dropout_mask : Type)
    (gradient_step : list Q -> list Q -> optim_state -> Q
                     -> list SchedulingOptimizer.Experience -> dropout_mask
                     -> SchedulingOptimizer.update optim_state)
    (state_size action_size : nat) (theta theta_target : list Q) (adam : optim_state)
    (exps : list SchedulingOptimizer.Experience)
    (draw : list nat) (mask : dropout_mask) :
  exists self : SchedulingOptimizer.optimizer_t optim_state,
    fold_left
      (fun s x =>
         SchedulingOptimizer.store_experience s
           (SchedulingOptimizer.state x) (SchedulingOptimizer.action x)
           (SchedulingOptimizer.reward x) (SchedulingOptimizer.next_state x)
           (SchedulingOptimizer.done x))
      exps
      (SchedulingOptimizer.init state_size action_size theta theta_target adam)
    = self
    /\ ReplayBuffer.buffer (SchedulingOptimizer.memory self)
       = skipn (length exps - ReplayBuffer.maxlen (SchedulingOptimizer.memory self)) exps
    /\ ((length exps < 64)%nat ->
        SchedulingOptimizer.train_step gradient_step self draw mask = Ok (self, []))
    /\ ((64 <= length exps)%nat ->
        exists (self' : SchedulingOptimizer.optimizer_t optim_state)
               (metrics : list (string * Q)),
          SchedulingOptimizer.train_step gradient_step self draw mask
          = Ok (self', metrics)
          /\ map fst metrics = ["loss"; "epsilon"; "q_mean"]%string
          /\ (SchedulingOptimizer.epsilon self' == 0.995)%Q).
Proof.
  set (s0 := SchedulingOptimizer.init state_size action_size theta theta_target adam).
  destruct (store_run exps s0) as (self & Hrun & Hmem & Hb & He & Hm & Hd).
  exists self. split; [exact Hrun|].
  assert (Hcap : (64 <= ReplayBuffer.maxlen (SchedulingOptimizer.memory s0))%nat).
  { apply Nat.leb_le. vm_compute. reflexivity. }
  assert (Hmax : ReplayBuffer.maxlen (SchedulingOptimizer.memory self)
                 = ReplayBuffer.maxlen (SchedulingOptimizer.memory s0)).
  { rewrite Hmem. apply maxlen_pushes. }
  assert (Hbuf : ReplayBuffer.buffer (SchedulingOptimizer.memory self)
                 = skipn (length exps - ReplayBuffer.maxlen (SchedulingOptimizer.memory s0))
                     exps).
  { rewrite Hmem. apply (pushes_keep_last
                           (ReplayBuffer.maxlen (SchedulingOptimizer.memory s0)) exps). }
  assert (Hlen : ReplayBuffer.len (SchedulingOptimizer.memory self)
                 = Nat.min (length exps)
                     (ReplayBuffer.maxlen (SchedulingOptimizer.memory s0))).
  { unfold ReplayBuffer.len. rewrite Hbuf, length_skipn. lia. }
  assert (Hbatch : SchedulingOptimizer.batch_size self = 64%nat) by (rewrite Hb; reflexivity).
  split; [rewrite Hmax; exact Hbuf|]. split.
  - intro Hfew. apply train_step_few_experiences. rewrite Hlen, Hbatch. lia.
  - intro Hfull.
    unfold SchedulingOptimizer.train_step, ReplayBuffer.sample.
    destruct (Nat.ltb_spec (ReplayBuffer.len (SchedulingOptimizer.memory self))
                (SchedulingOptimizer.batch_size self)) as [Hlt|_];
      [rewrite Hlen, Hbatch in Hlt; lia|].
    cbn [bind]. eexists. eexists. split; [reflexivity|].
    split; [reflexivity|]. cbn [SchedulingOptimizer.epsilon].
    rewrite He, Hm, Hd. vm_compute. reflexivity.
Qed.

Lemma training_starts_at_batch_size_witness :
  SchedulingOptimizer.train_step Samples.toy_gradient_step
    (fold_left
       (fun s x =>
          SchedulingOptimizer.store_experience s
            (SchedulingOptimizer.state x) (SchedulingOptimizer.action x)
            (SchedulingOptimizer.reward x) (SchedulingOptimizer.next_state x)
            (SchedulingOptimizer.done x))
       (repeat Samples.toy_experience 5)
       (SchedulingOptimizer.init 1 24 [1%Q] [0%Q] tt))
    [0; 1]%nat tt
  = Ok (fold_left
          (fun s x =>
             SchedulingOptimizer.store_experience s
               (SchedulingOptimizer.state x) (SchedulingOptimizer.action x)
               (SchedulingOptimizer.reward x) (SchedulingOptimizer.next_state x)
               (SchedulingOptimizer.done x))
          (repeat Samples.toy_experience 5)
          (SchedulingOptimizer.init 1 24 [1%Q] [0%Q] tt), []).
Proof.
  destruct (@training_starts_at_batch_size unit unit Samples.toy_gradient_step
              1%nat 24%nat [1%Q] [0%Q] tt (repeat Samples.toy_experience 5)
              [0; 1]%nat tt) as (self & Hrun & _ & Hfew & _).
  rewrite Hrun. apply Hfew. simpl. lia.
Defined.

(** * Further properties of the scheduling reward and features *)

Section RewardFacts.
Import SchedulingOptimizer.
Local Open Scope Q_scope.

Lemma Qle_bool_false (a b : Q) : Qle_bool a b = false -> b < a.
Proof.
  intro H. apply Qnot_le_lt. intro Hle. apply Qle_bool_iff in Hle. congruence.
Qed.

Lemma Qeq_bool_false (a b : Q) : ~ a == b -> Qeq_bool a b = false.
Proof.
  intro H. destruct (Qeq_bool a b) eqn:E; [|reflexivity].
  apply Qeq_bool_iff in E. contradiction.
Qed.

(** The penalty for a late transfer lies between 0 and 15. *)
Lemma late_penalty_range (actual expected : Q) :
  0 < expected -> expected < actual ->
  0 <= pymin ((actual - expected) / expected * 10) 15 <= 15.
Proof.
  intros He Ha.
  assert (Hd : 0 <= (actual - expected) / expected * 10).
  { apply Qmult_le_0_compat; [|discriminate].
    apply Qle_shift_div_l; [exact He|]. Lqa.lra. }
  unfold pymin. destruct (Qgtb _ 15) eqn:Hg.
  - split; [discriminate | apply Qle_refl].
  - split; [exact Hd|].
    unfold Qgtb in Hg. apply negb_false_iff in Hg. apply Qle_bool_iff in Hg. exact Hg.
Qed.


End RewardFacts.



(** X19.  For a positive expected duration [_calculate_reward] returns a
    reward between -55 and 23; for an expected duration of zero and a
    positive actual duration it raises ZeroDivisionError. *)
Theorem reward_range
    (action : Z) (tr : SchedulingOptimizer.transfer_result)
    (network_state : list (string * Q)) (current_hour : Z) :
  ((0 < SchedulingOptimizer.get (SchedulingOptimizer.expected_duration_minutes tr) 60)%Q ->
   exists r : Q,
     SchedulingOptimizer._calculate_reward action tr network_state current_hour = Ok r
     /\ (-55 <= r <= 23)%Q)
  /\ ((SchedulingOptimizer.get (SchedulingOptimizer.expected_duration_minutes tr) 60 == 0)%Q ->
      (0 < SchedulingOptimizer.get (SchedulingOptimizer.actual_duration_minutes tr) 60)%Q ->
      SchedulingOptimizer._calculate_reward action tr network_state current_hour
      = Raise ZeroDivisionError).
Proof.
  unfold SchedulingOptimizer._calculate_reward. cbv zeta.
  set (expected := SchedulingOptimizer.get
                     (SchedulingOptimizer.expected_duration_minutes tr) 60%Q).
  set (actual := SchedulingOptimizer.get
                   (SchedulingOptimizer.actual_duration_minutes tr) 60%Q).
  split.
  - intro Hexp.
    destruct (Qle_bool actual expected) eqn:Hle; cbn [bind].
    + eexists. split; [reflexivity|].
      destruct (SchedulingOptimizer.get (SchedulingOptimizer.success tr) false);
        destruct (String.eqb _ "critical"); cbn [negb andb];
        repeat match goal with
               | |- context [if ?c then _ else _] => destruct c
               end; split; Lqa.lra.
    + assert (Hne : ~ (expected == 0)%Q) by (intro H0; rewrite H0 in Hexp; Lqa.lra).
      rewrite (Qeq_bool_false Hne). cbn [bind].
      pose proof (late_penalty_range Hexp (Qle_bool_false _ _ Hle)) as Hpen.
      set (penalty := SchedulingOptimizer.pymin _ 15%Q) in *.
      eexists. split; [reflexivity|].
      destruct (SchedulingOptimizer.get (SchedulingOptimizer.success tr) false);
        destruct (String.eqb _ "critical"); cbn [negb andb];
        repeat match goal with
               | |- context [if ?c then _ else _] => destruct c
               end; split; Lqa.lra.
  - intros Hzero Hact.
    assert (Hle : Qle_bool actual expected = false).
    { destruct (Qle_bool actual expected) eqn:E; [|reflexivity].
      apply Qle_bool_iff in E. rewrite Hzero in E. Lqa.lra. }
    rewrite Hle. apply Qeq_bool_iff in Hzero. rewrite Hzero. reflexivity.
Qed.

Lemma reward_range_witness :
  exists r : Q,
    SchedulingOptimizer._calculate_reward 3
      {| SchedulingOptimizer.success := Some false;
         SchedulingOptimizer.expected_duration_minutes := Some 30%Q;
         SchedulingOptimizer.actual_duration_minutes := Some 90%Q;
         SchedulingOptimizer.throughput_mbps := Some 5%Q;
         SchedulingOptimizer.result_priority := Some "critical"%string |}
      [("congestion_score"%string, 85%Q)] 12 = Ok r
    /\ (-55 <= r <= 23)%Q.
Proof.
  apply (proj1 (reward_range 3
                  {| SchedulingOptimizer.success := Some false;
                     SchedulingOptimizer.expected_duration_minutes := Some 30%Q;
                     SchedulingOptimizer.actual_duration_minutes := Some 90%Q;
                     SchedulingOptimizer.throughput_mbps := Some 5%Q;
                     SchedulingOptimizer.result_priority := Some "critical"%string |}
                  [("congestion_score"%string, 85%Q)] 12)).
  vm_compute. reflexivity.
Defined.

Section FeatureFacts.
Import SchedulingOptimizer.
Local Open Scope nat_scope.

Lemma raw_features_length (t : Datetime.datetime)
    (network_metrics system_metrics : list (string * Q)) (queue : list transfer) :
  length (raw_features t network_metrics system_metrics queue) = 22.
Proof. reflexivity. Qed.

Lemma size_classes_partition (queue : list transfer) :
  length (filter is_small queue) + length (filter is_medium queue)
  + length (filter is_large queue) = length queue.
Proof.
  induction queue as [|x queue IH]; [reflexivity|].
  cbn [filter length]. unfold is_medium, is_large, is_small in *.
  destruct (Qgtb 0.1%Q (get (size_gb x) 1%Q));
    destruct (Qgtb 10%Q (get (size_gb x) 1%Q));
    cbn [negb andb length]; lia.
Qed.

Lemma priorities_disjoint (queue : list transfer) :
  length (filter (has_priority "high") queue)
  + length (filter (has_priority "medium") queue)
  + length (filter (has_priority "low") queue) <= length queue.
Proof.
  induction queue as [|x queue IH]; [simpl; lia|].
  cbn [filter length]. unfold has_priority in *.
  destruct (String.eqb_spec (get (priority x) "medium"%string) "high") as [H1|H1];
    destruct (String.eqb_spec (get (priority x) "medium"%string) "medium") as [H2|H2];
    destruct (String.eqb_spec (get (priority x) "medium"%string) "low") as [H3|H3];
    try (rewrite H1 in H2; discriminate H2);
    try (rewrite H1 in H3; discriminate H3);
    try (rewrite H2 in H3; discriminate H3);
    cbn [length]; lia.
Qed.

Lemma statuses_disjoint (queue : list transfer) :
  length (filter (has_status "active") queue)
  + length (filter (has_status "queued") queue) <= length queue.
Proof.
  induction queue as [|x queue IH]; [simpl; lia|].
  cbn [filter length]. unfold has_status in *.
  destruct (status x) as [s|]; [|lia].
  destruct (String.eqb_spec s "active") as [H1|H1];
    destruct (String.eqb_spec s "queued") as [H2|H2];
    try (rewrite H1 in H2; discriminate H2); cbn [length]; lia.
Qed.

End FeatureFacts.

(** X20.  [_extract_state_features] returns exactly [state_size]
    components whatever the queue and the metrics hold: the 22 features
    followed by zeros when [state_size] is at least 22, and the first
    [state_size] features otherwise.  Among the features, the three size
    counts add up to the length of the queue, the three priority counts to
    at most that length, and the counts of active and queued transfers to
    at most that length. *)
Theorem extract_state_features_shape
    (optim_state : Type) (self : SchedulingOptimizer.optimizer_t optim_state)
    (current_time : Datetime.datetime)
    (network_metrics system_metrics : list (string * Q))
    (transfer_queue : list SchedulingOptimizer.transfer) :
  length (SchedulingOptimizer._extract_state_features self current_time
            network_metrics system_metrics transfer_queue)
  = SchedulingOptimizer.state_size self
  /\ ((22 <= SchedulingOptimizer.state_size self)%nat ->
      SchedulingOptimizer._extract_state_features self current_time
        network_metrics system_metrics transfer_queue
      = SchedulingOptimizer.raw_features current_time network_metrics system_metrics
          transfer_queue
        ++ repeat 0%Q (SchedulingOptimizer.state_size self - 22))
  /\ ((SchedulingOptimizer.state_size self <= 22)%nat ->
      SchedulingOptimizer._extract_state_features self current_time
        network_metrics system_metrics transfer_queue
      = firstn (SchedulingOptimizer.state_size self)
          (SchedulingOptimizer.raw_features current_time network_metrics system_metrics
             transfer_queue))
  /\ (SchedulingOptimizer.count SchedulingOptimizer.is_small transfer_queue
      + SchedulingOptimizer.count SchedulingOptimizer.is_medium transfer_queue
      + SchedulingOptimizer.count SchedulingOptimizer.is_large transfer_queue
      == inject_Z (Z.of_nat (length transfer_queue)))%Q
  /\ (SchedulingOptimizer.count (SchedulingOptimizer.has_priority "high") transfer_queue
      + SchedulingOptimizer.count (SchedulingOptimizer.has_priority "medium") transfer_queue
      + SchedulingOptimizer.count (SchedulingOptimizer.has_priority "low") transfer_queue
      <= inject_Z (Z.of_nat (length transfer_queue)))%Q
  /\ (SchedulingOptimizer.count (SchedulingOptimizer.has_status "active") transfer_queue
      + SchedulingOptimizer.count (SchedulingOptimizer.has_status "queued") transfer_queue
      <= inject_Z (Z.of_nat (length transfer_queue)))%Q.
Proof.
  unfold SchedulingOptimizer._extract_state_features, SchedulingOptimizer.count.
  set (raw := SchedulingOptimizer.raw_features current_time network_metrics
                system_metrics transfer_queue).
  assert (Hraw : length raw = 22%nat) by apply raw_features_length.
  rewrite Hraw.
  split; [|split; [|split; [|split; [|split]]]].
  - rewrite length_firstn, length_app, repeat_length. lia.
  - intro Hbig. apply firstn_all2. rewrite length_app, repeat_length. lia.
  - intro Hsmall. rewrite firstn_app.
    replace (SchedulingOptimizer.state_size self - length raw)%nat with 0%nat by lia.
    cbn [firstn]. apply app_nil_r.
  - rewrite <- !inject_Z_plus, <- !Nat2Z.inj_add, size_classes_partition. reflexivity.
  - rewrite <- !inject_Z_plus, <- !Nat2Z.inj_add. rewrite <- Zle_Qle.
    apply Nat2Z.inj_le. apply priorities_disjoint.
  - rewrite <- !inject_Z_plus, <- !Nat2Z.inj_add. rewrite <- Zle_Qle.
    apply Nat2Z.inj_le. apply statuses_disjoint.
Qed.

Lemma extract_state_features_shape_witness :
  SchedulingOptimizer._extract_state_features Samples.fresh_optimizer Samples.noon [] [] []
  = firstn 1 (SchedulingOptimizer.raw_features Samples.noon [] [] []).
Proof.
  apply (proj1 (proj2 (proj2
           (extract_state_features_shape Samples.fresh_optimizer Samples.noon [] [] [])))).
  simpl. lia.
Defined.

Section ScheduleFacts.
Local Open Scope Z_scope.

Lemma hour_after_delay (t : Datetime.datetime) (h : Z) :
  Datetime.hour {| Datetime.micros := Datetime.micros t + h * Datetime.micros_per_hour |}
  = (Datetime.hour t + h) mod 24.
Proof.
  unfold Datetime.hour. cbn [Datetime.micros].
  rewrite Z.div_add by (unfold Datetime.micros_per_hour; lia).
  rewrite Zplus_mod_idemp_l. reflexivity.
Qed.

Lemma minute_after_delay (t : Datetime.datetime) (h : Z) :
  Datetime.minute {| Datetime.micros := Datetime.micros t + h * Datetime.micros_per_hour |}
  = Datetime.minute t.
Proof.
  unfold Datetime.minute. cbn [Datetime.micros].
  replace (h * Datetime.micros_per_hour) with (h * 60 * Datetime.micros_per_minute)
    by (unfold Datetime.micros_per_hour, Datetime.micros_per_minute; lia).
  rewrite Z.div_add by (unfold Datetime.micros_per_minute; lia).
  rewrite Z_mod_plus_full. reflexivity.
Qed.

End ScheduleFacts.

(** X21.  For a current time at least ten hours before [datetime.max],
    [get_optimal_schedule] returns a schedule whose hour is the current
    hour plus the delay, modulo 24, and whose minute is the current
    minute; it reports the delay as [delay_hours], a confidence of 0.8 and
    no exploration.  For a low-priority transfer at an hour in 9..17 the
    scheduled hour lies in 15..23 or 0..3. *)
Theorem schedule_time_arithmetic
    (optim_state : Type) (self : SchedulingOptimizer.optimizer_t optim_state)
    (current_time : Datetime.datetime)
    (network_metrics system_metrics : list (string * Q))
    (transfer_queue : list (list (string * string)))
    (transfer_priority : string) (raw : nat) :
  (0 <= Datetime.micros current_time)%Z ->
  (Datetime.micros current_time + 10 * Datetime.micros_per_hour
   <= Datetime.max_micros)%Z ->
  exists r : SchedulingOptimizer.schedule,
    SchedulingOptimizer.get_optimal_schedule self current_time network_metrics
      system_metrics transfer_queue transfer_priority raw = Ok r
    /\ SchedulingOptimizer.scheduled_hour r
       = ((Datetime.hour current_time + SchedulingOptimizer.sched_action r) mod 24)%Z
    /\ Datetime.hour (SchedulingOptimizer.scheduled_time r)
       = SchedulingOptimizer.scheduled_hour r
    /\ Datetime.minute (SchedulingOptimizer.scheduled_time r)
       = Datetime.minute current_time
    /\ SchedulingOptimizer.delay_hours r = SchedulingOptimizer.sched_action r
    /\ SchedulingOptimizer.exploration r = false
    /\ (SchedulingOptimizer.confidence r == 0.8)%Q
    /\ (transfer_priority = "low"%string ->
        (9 <= Datetime.hour current_time <= 17)%Z ->
        (15 <= SchedulingOptimizer.scheduled_hour r <= 23)%Z
        \/ (0 <= SchedulingOptimizer.scheduled_hour r <= 3)%Z).
Proof.
  intros Hlo Hhi.
  unfold SchedulingOptimizer.get_optimal_schedule.
  match goal with
  | |- context [Datetime.add_hours current_time ?a] => set (action := a)
  end.
  assert (Haction : (0 <= action <= 10)%Z
                    /\ (transfer_priority = "low"%string ->
                        (9 <= Datetime.hour current_time <= 17)%Z ->
                        (6 <= action <= 10)%Z)).
  { unfold action.
    destruct (String.eqb_spec transfer_priority "critical") as [->|_].
    - split; [lia|]. discriminate.
    - destruct (String.eqb_spec transfer_priority "low") as [_|Hnot].
      + destruct (Z.leb_spec 9 (Datetime.hour current_time));
          destruct (Z.leb_spec (Datetime.hour current_time) 17); cbn [andb];
          try (split; lia).
        pose proof (random_choice_offsets raw) as Hin. simpl in Hin.
        split; [|intros _ _]; intuition lia.
      + split; [lia|]. intros Hp. contradiction. }
  destruct Haction as [Hrange Hlow].
  rewrite (add_hours_in_range current_time Hlo Hhi Hrange). cbn [bind].
  eexists. split; [reflexivity|].
  cbn [SchedulingOptimizer.scheduled_hour SchedulingOptimizer.sched_action
       SchedulingOptimizer.scheduled_time SchedulingOptimizer.delay_hours
       SchedulingOptimizer.exploration SchedulingOptimizer.confidence].
  split; [apply hour_after_delay|]. split; [reflexivity|].
  split; [apply minute_after_delay|]. split; [reflexivity|].
  split; [reflexivity|]. split; [reflexivity|].
  intros Hp Hb. specialize (Hlow Hp Hb). rewrite hour_after_delay.
  destruct (Z_lt_le_dec (Datetime.hour current_time + action) 24) as [Hsame|Hnext].
  - left. rewrite Z.mod_small by lia. lia.
  - right.
    replace (Datetime.hour current_time + action)%Z
      with ((Datetime.hour current_time + action - 24) + 1 * 24)%Z by lia.
    rewrite Z_mod_plus_full, Z.mod_small by lia. lia.
Qed.

Lemma schedule_time_arithmetic_witness :
  exists r : SchedulingOptimizer.schedule,
    SchedulingOptimizer.get_optimal_schedule Samples.fresh_optimizer Samples.noon
      [] [] [] "low" 4 = Ok r
    /\ SchedulingOptimizer.scheduled_hour r
       = ((Datetime.hour Samples.noon + SchedulingOptimizer.sched_action r) mod 24)%Z.
Proof.
  destruct (@schedule_time_arithmetic unit Samples.fresh_optimizer Samples.noon
              [] [] [] "low"%string 4%nat) as (r & Hr & Hh & _).
  - vm_compute. discriminate.
  - vm_compute. discriminate.
  - exists r. split; [exact Hr | exact Hh].
Defined.

Section EpisodeFacts.
Import SchedulingOptimizer.
Local Open Scope Q_scope.

Lemma calculate_reward_returns (action : Z) (tr : transfer_result)
    (network_state : list (string * Q)) (current_hour : Z) :
  ~ get (expected_duration_minutes tr) 60 == 0 ->
  exists r : Q, _calculate_reward action tr network_state current_hour = Ok r.
Proof.
  intro Hexp. unfold _calculate_reward. cbv zeta.
  rewrite (Qeq_bool_false Hexp).
  destruct (Qle_bool _ _); cbn [bind]; eexists; reflexivity.
Qed.

Lemma extract_state_features_length (optim_state : Type)
    (self : optimizer_t optim_state) (t : Datetime.datetime)
    (network_metrics system_metrics : list (string * Q)) (queue : list transfer) :
  length (_extract_state_features self t network_metrics system_metrics queue)
  = state_size self.
Proof.
  unfold _extract_state_features.
  rewrite length_firstn, length_app, repeat_length, raw_features_length. lia.
Qed.

End EpisodeFacts.

(** X22.  A simulated episode that starts at least ten hours before
    [datetime.max] returns, and it changes the optimizer only by pushing
    one experience onto the replay memory.  Whatever the generator draws,
    that experience has action 0 (the schedule is asked for with the
    default priority) and is terminal; its reward is the total reward the
    episode returns, and its two states have [state_size] components. *)
Theorem simulate_episode_stores_one_experience
    (optim_state : Type) (self : SchedulingOptimizer.optimizer_t optim_state)
    (current_time : Datetime.datetime) (reward_hour : Z)
    (d : SchedulingOptimizer.episode_draws) :
  (0 <= Datetime.micros current_time)%Z ->
  (Datetime.micros current_time + 10 * Datetime.micros_per_hour
   <= Datetime.max_micros)%Z ->
  exists (self' : SchedulingOptimizer.optimizer_t optim_state) (total_reward : Q)
         (e : SchedulingOptimizer.Experience),
    SchedulingOptimizer._simulate_episode self current_time reward_hour d
    = Ok (self', total_reward)
    /\ SchedulingOptimizer.memory self'
       = ReplayBuffer.push (SchedulingOptimizer.memory self) e
    /\ SchedulingOptimizer.action e = 0%nat
    /\ SchedulingOptimizer.done e = true
    /\ (total_reward == SchedulingOptimizer.reward e)%Q
    /\ length (SchedulingOptimizer.state e) = SchedulingOptimizer.state_size self
    /\ length (SchedulingOptimizer.next_state e) = SchedulingOptimizer.state_size self
    /\ SchedulingOptimizer.q_network self' = SchedulingOptimizer.q_network self
    /\ SchedulingOptimizer.target_network self' = SchedulingOptimizer.target_network self
    /\ SchedulingOptimizer.epsilon self' = SchedulingOptimizer.epsilon self
    /\ SchedulingOptimizer.step_count self' = SchedulingOptimizer.step_count self.
Proof.
  intros Hlo Hhi. unfold SchedulingOptimizer._simulate_episode. cbv zeta.
  unfold SchedulingOptimizer.get_optimal_schedule. cbn [String.eqb Ascii.eqb Bool.eqb].
  rewrite (add_hours_in_range current_time Hlo Hhi (h := 0%Z)) by lia.
  cbn [bind SchedulingOptimizer.sched_action].
  match goal with
  | |- context [SchedulingOptimizer._calculate_reward ?a ?tr ?ns ?h] =>
      destruct (@calculate_reward_returns a tr ns h) as [r Hr];
        [cbn; discriminate | rewrite Hr]
  end.
  cbn [bind].
  rewrite (add_hours_in_range current_time Hlo Hhi (h := 1%Z)) by lia.
  cbn [bind].
  eexists. eexists. eexists. split; [reflexivity|].
  cbn [SchedulingOptimizer.store_experience SchedulingOptimizer.memory
       SchedulingOptimizer.q_network SchedulingOptimizer.target_network
       SchedulingOptimizer.epsilon SchedulingOptimizer.step_count].
  split; [reflexivity|].
  cbn [SchedulingOptimizer.action SchedulingOptimizer.done SchedulingOptimizer.reward
       SchedulingOptimizer.state SchedulingOptimizer.next_state].
  split; [reflexivity|]. split; [reflexivity|]. split; [ring|].
  split; [apply extract_state_features_length|].
  split; [apply extract_state_features_length|].
  repeat split.
Qed.

Lemma simulate_episode_stores_one_experience_witness :
  exists (self' : SchedulingOptimizer.optimizer_t unit) (total_reward : Q)
         (e : SchedulingOptimizer.Experience),
    SchedulingOptimizer._simulate_episode Samples.fresh_optimizer Samples.noon 12
      {| SchedulingOptimizer.draw_bandwidth_utilization := 75;
         SchedulingOptimizer.draw_latency_ms := 45;
         SchedulingOptimizer.draw_packet_loss_rate := 0.02;
         SchedulingOptimizer.draw_congestion_score := 65;
         SchedulingOptimizer.draw_cpu_usage := 55;
         SchedulingOptimizer.draw_memory_usage := 68;
         SchedulingOptimizer.draw_queue := [(0%nat, 5); (2%nat, 0.5)];
         SchedulingOptimizer.draw_schedule := 3;
         SchedulingOptimizer.draw_success := 0.7;
         SchedulingOptimizer.draw_throughput := 120;
         SchedulingOptimizer.draw_actual_duration := 25;
         SchedulingOptimizer.draw_priority := 1 |}%Q
    = Ok (self', total_reward)
    /\ SchedulingOptimizer.memory self'
       = ReplayBuffer.push (SchedulingOptimizer.memory Samples.fresh_optimizer) e
    /\ SchedulingOptimizer.action e = 0%nat
    /\ SchedulingOptimizer.done e = true.
Proof.
  destruct (@simulate_episode_stores_one_experience unit Samples.fresh_optimizer
              Samples.noon 12%Z
              {| SchedulingOptimizer.draw_bandwidth_utilization := 75;
                 SchedulingOptimizer.draw_latency_ms := 45;
                 SchedulingOptimizer.draw_packet_loss_rate := 0.02;
                 SchedulingOptimizer.draw_congestion_score := 65;
                 SchedulingOptimizer.draw_cpu_usage := 55;
                 SchedulingOptimizer.draw_memory_usage := 68;
                 SchedulingOptimizer.draw_queue := [(0%nat, 5); (2%nat, 0.5)];
                 SchedulingOptimizer.draw_schedule := 3;
                 SchedulingOptimizer.draw_success := 0.7;
                 SchedulingOptimizer.draw_throughput := 120;
                 SchedulingOptimizer.draw_actual_duration := 25;
                 SchedulingOptimizer.draw_priority := 1 |}%Q)
    as (self' & r & e & Hrun & Hmem & Ha & Hd & _).
  - vm_compute. discriminate.
  - vm_compute. discriminate.
  - exists self', r, e. repeat split; assumption.
Defined.
